(** * TalentChain wallet connector: a shallow embedding of [WalletConnector]

    The development follows the TypeScript class [WalletConnector] of the
    frontend: connection to the HashPack, MetaMask and WalletConnect
    backends, the session it keeps, its persistence in [localStorage] and
    the lifecycle events it emits.  The class is stateful and talks to
    three wallet backends; here

    - the private fields of the class and the browser's [localStorage]
      form an explicit [Manager] state,
    - the answers of the backends (injected provider, relay provider,
      HashPack connector, Hedera mirror client) and the process
      environment form a [World] of oracles, one per call site,
    - an [async] method is a computation in a state-and-exception monad
      [M]; an [await] on a backend call reads the oracle and either
      continues or throws; state written before a throw stays written,
      as in JavaScript,
    - [emit] appends to a trace of lifecycle events; subscriber callbacks
      are not modelled (they are assumed not to throw).

    A method body is run to completion: the embedding has no interleaving
    of two method bodies at an [await]. *)

From Stdlib Require Import String Ascii ZArith List Bool Lia.
From Stdlib Require Import DecimalString HexadecimalString DecimalPos.
From stdpp Require Import base option gmap strings.
Import ListNotations.

Set Warnings "-register-all".
Open Scope string_scope.
Open Scope Z_scope.
Open Scope list_scope.

(* ===================================================================== *)
(** * JavaScript primitives *)
(* ===================================================================== *)

Module JS.

(** A JavaScript [number] as far as this code produces one: the result
    of [parseInt] (an integer or [NaN]) or a chain id of the network
    table.  Integers are exact; the embedding does not round to
    doubles. *)
Inductive number := NaN | Num (z : Z).

(** Truthiness of a string: only the empty string is falsy. *)
Definition truthy (s : string) : bool := negb (String.eqb s EmptyString).

(** [v || d] for an optional string [v]. *)
Definition or_default (v : option string) (d : string) : string :=
  match v with
  | Some s => if truthy s then s else d
  | None => d
  end.

Definition code (c : ascii) : Z := Z.of_N (N_of_ascii c).

Definition is_space (c : ascii) : bool :=
  let n := code c in
  (n =? 32) || ((9 <=? n) && (n <=? 13)).

Fixpoint skip_spaces (s : string) : string :=
  match s with
  | String c s' => if is_space c then skip_spaces s' else s
  | EmptyString => s
  end.

Definition digit_val (c : ascii) : option Z :=
  let n := code c in
  if (48 <=? n) && (n <=? 57) then Some (n - 48)
  else if (97 <=? n) && (n <=? 122) then Some (n - 87)
  else if (65 <=? n) && (n <=? 90) then Some (n - 55)
  else None.

Definition digit_in (radix : Z) (c : ascii) : option Z :=
  match digit_val c with
  | Some d => if d <? radix then Some d else None
  | None => None
  end.

(** The longest prefix of digits of [s], as a value; [acc] is [None]
    until the first digit is read. *)
Fixpoint read_digits (radix : Z) (s : string) (acc : option Z) : option Z :=
  match s with
  | String c s' =>
      match digit_in radix c with
      | Some d =>
          read_digits radix s'
            (Some (match acc with Some a => a * radix + d | None => d end))
      | None => acc
      end
  | EmptyString => acc
  end.

Definition strip_sign (s : string) : bool * string :=
  match s with
  | String "-" s' => (true, s')
  | String "+" s' => (false, s')
  | _ => (false, s)
  end.

Definition strip_0x (s : string) : option string :=
  match s with
  | String "0" (String "x" s') => Some s'
  | String "0" (String "X" s') => Some s'
  | _ => None
  end.

(** [parseInt(s)] ([radix = None]) and [parseInt(s, r)]. *)
Definition parseInt (s : string) (radix : option Z) : number :=
  let '(neg, s1) := strip_sign (skip_spaces s) in
  let '(r, s2) :=
    match radix with
    | None =>
        match strip_0x s1 with Some s' => (16, s') | None => (10, s1) end
    | Some 16 =>
        match strip_0x s1 with Some s' => (16, s') | None => (16, s1) end
    | Some r => (r, s1)
    end in
  if (r <? 2) || (36 <? r) then NaN
  else match read_digits r s2 None with
       | Some v => Num (if neg then - v else v)
       | None => NaN
       end.

(** [n.toString()] *)
Definition toString (n : number) : string :=
  match n with
  | NaN => "NaN"
  | Num z => DecimalString.NilZero.string_of_int (Z.to_int z)
  end.

(** [n.toString(16)] *)
Definition toString16 (n : number) : string :=
  match n with
  | NaN => "NaN"
  | Num z => HexadecimalString.NilZero.string_of_int (Z.to_hex_int z)
  end.

(** [Number.isSafeInteger(z)]: the integers a double holds exactly,
    which [parseInt] reads and [toString] prints digit by digit. *)
Definition isSafeInteger (z : Z) : bool := Z.abs z <? 2 ^ 53.

Definition lower (c : ascii) : ascii :=
  let n := code c in
  if (65 <=? n) && (n <=? 90) then ascii_of_N (Z.to_N (n + 32)) else c.

(** [s.toLowerCase()] on the ASCII range. *)
Fixpoint toLowerCase (s : string) : string :=
  match s with
  | String c s' => String (lower c) (toLowerCase s')
  | EmptyString => EmptyString
  end.

(** [s.includes(sub)] *)
Fixpoint includes (s sub : string) : bool :=
  String.prefix sub s ||
  match s with
  | String _ s' => includes s' sub
  | EmptyString => false
  end.

End JS.

(* ===================================================================== *)
(** * JSON values *)
(* ===================================================================== *)

(** What [JSON.parse] returns and [JSON.stringify] consumes.  An object
    is its list of own enumerable properties in insertion order. *)
Inductive json :=
| JNull
| JBool (b : bool)
| JNum (z : Z)
| JStr (s : string)
| JArr (items : list json)
| JObj (fields : list (string * json)).

(** Truthiness of a parsed value. *)
Definition json_truthy (j : json) : bool :=
  match j with
  | JNull => false
  | JBool b => b
  | JNum z => negb (z =? 0)
  | JStr s => JS.truthy s
  | JArr _ | JObj _ => true
  end.

(** Property read [o[k]]: [None] is [undefined]. *)
Fixpoint obj_get (k : string) (fields : list (string * json)) : option json :=
  match fields with
  | (k', v) :: rest => if String.eqb k k' then Some v else obj_get k rest
  | [] => None
  end.

Definition has_key (k : string) (j : json) : bool :=
  match j with
  | JObj fields => match obj_get k fields with Some _ => true | None => false end
  | _ => false
  end.

(* ===================================================================== *)
(** * Data model *)
(* ===================================================================== *)

Inductive WalletType := HASHPACK | METAMASK | WALLETCONNECT.

(** The string value of each enum member. *)
Definition WalletType_value (t : WalletType) : string :=
  match t with
  | HASHPACK => "hashpack"
  | METAMASK => "metamask"
  | WALLETCONNECT => "walletconnect"
  end.

Definition WalletType_of_value (s : string) : option WalletType :=
  if String.eqb s "hashpack" then Some HASHPACK
  else if String.eqb s "metamask" then Some METAMASK
  else if String.eqb s "walletconnect" then Some WALLETCONNECT
  else None.

(** Which backend an [ethers.BrowserProvider] wraps: [window.ethereum] or
    the relay provider. *)
Inductive transport := Injected | Relay.

(** The value of a [signer] or [provider] field.  [Live] is an ethers
    object created in this page, whose methods reach the backend; [image]
    is what [JSON.stringify] makes of it.  [Plain] is the data that
    [JSON.parse] returned for the field: it has no methods. *)
Inductive handle :=
| Live (via : transport) (image : json)
| Plain (data : json).

Definition handle_image (h : handle) : json :=
  match h with
  | Live _ image => image
  | Plain data => data
  end.

(** An ethers object is an object, hence truthy; parsed data is truthy as
    JSON data is. *)
Definition handle_truthy (h : handle) : bool :=
  match h with
  | Live _ _ => true
  | Plain data => json_truthy data
  end.

Definition is_live (h : handle) : bool :=
  match h with Live _ _ => true | Plain _ => false end.

(** [interface WalletConnection] *)
Record WalletConnection := {
  type : WalletType;
  accountId : string;
  address : string;
  signer : option handle;
  provider : option handle;
  balance : option string;
  network : option string;
  chainId : option JS.number
}.

(** [interface NetworkConfig] *)
Record Currency := { currency_name : string; symbol : string; decimals : Z }.

Record NetworkConfig := {
  net_chainId : Z;
  name : string;
  rpcUrl : string;
  currency : Currency;
  blockExplorerUrl : string
}.

Definition HBAR : Currency :=
  {| currency_name := "HBAR"; symbol := "HBAR"; decimals := 18 |}.

(** [HEDERA_NETWORKS]; keys inherited from [Object.prototype] are not
    modelled. *)
Definition HEDERA_NETWORKS (k : string) : option NetworkConfig :=
  if String.eqb k "testnet" then
    Some {| net_chainId := 296; name := "Hedera Testnet";
            rpcUrl := "https://testnet.hashio.io/api"; currency := HBAR;
            blockExplorerUrl := "https://hashscan.io/testnet" |}
  else if String.eqb k "mainnet" then
    Some {| net_chainId := 295; name := "Hedera Mainnet";
            rpcUrl := "https://mainnet.hashio.io/api"; currency := HBAR;
            blockExplorerUrl := "https://hashscan.io/mainnet" |}
  else None.

(** Lifecycle events with their payloads; [connected] and [disconnected]
    carry [this.connection], which may be [null]. *)
Inductive Event :=
| connected (c : option WalletConnection)
| disconnected (c : option WalletConnection)
| accountsChanged (accounts : list string)
| chainChanged (chain : string)
| networkMismatch (current expected : string)
| accountChanged (c : WalletConnection).

Definition is_disconnected_event (e : Event) : bool :=
  match e with disconnected _ => true | _ => false end.


Definition count_events (p : Event -> bool) (l : list Event) : nat :=
  List.length (List.filter p l).

(* ===================================================================== *)
(** * Thrown values and outcomes of calls *)
(* ===================================================================== *)

(** A thrown value: whether it is an [instanceof Error], its [code] (the
    provider RPC errors carry one) and its [message]. *)
Record JsError := {
  instanceof_Error : bool;
  err_code : option Z;
  message : string
}.

(** [new Error(msg)] *)
Definition Error (msg : string) : JsError :=
  {| instanceof_Error := true; err_code := None; message := msg |}.

(** The error of calling a method of [undefined] or a value that is not a
    function. *)
Definition TypeError : JsError := Error "TypeError".

Inductive outcome (A : Type) :=
| Ok (a : A)
| Throw (e : JsError).
Arguments Ok {A} a.
Arguments Throw {A} e.

Definition is_ok {A} (o : outcome A) : bool :=
  match o with Ok _ => true | Throw _ => false end.

Definition has_code (e : JsError) (c : Z) : bool :=
  match err_code e with Some c' => Z.eqb c' c | None => false end.

(* ===================================================================== *)
(** * The world: backends and environment *)
(* ===================================================================== *)

(** The value an accounts request resolves to, after the source's cast to
    [string[] | null | undefined]: [None] stands for [null], [undefined]
    and anything that is not an array. *)
Definition accounts_value := option (list string).

(** [window.ethereum], the injected provider.  Each field is the answer
    at one call site of the connector. *)
Record Ethereum := {
  isMetaMask : bool;
  (** [typeof ethereum.request === 'function'] *)
  request_is_function : bool;
  (** the [eth_chainId] probe at the start of [connectMetaMask] *)
  eth_chainId_probe : outcome (option string);
  (** [eth_requestAccounts]; [None]: not settled within 30 s *)
  eth_requestAccounts : option (outcome accounts_value);
  (** the [eth_chainId] read of the network check *)
  eth_chainId : outcome (option string);
  wallet_switchEthereumChain : outcome unit;
  wallet_addEthereumChain : outcome unit;
  (** [eth_accounts], which never opens a permission prompt *)
  eth_accounts : outcome accounts_value
}.

(** An [ethers.BrowserProvider] over one transport. *)
Record Ethers := {
  (** what [JSON.stringify] makes of the provider object *)
  provider_image : json;
  (** [provider.getSigner()], as the image of the signer *)
  ethers_getSigner : outcome json;
  (** [ethers.formatEther(await provider.getBalance(a))] *)
  ethers_getBalance : string -> outcome string
}.

(** [interface WalletProvider]: which of its optional methods the relay
    provider object has. *)
Record WalletProvider := {
  has_connect : bool;
  has_disconnect : bool;
  has_request : bool;
  has_on : bool
}.

(** [AccountId] of the Hedera SDK. *)
Record AccountId := { shard : N; realm : N; num : N }.

Definition N_toString (n : N) : string :=
  DecimalString.NilZero.string_of_uint (N.to_uint n).

Definition AccountId_toString (a : AccountId) : string :=
  N_toString (shard a) +:+ "." +:+ N_toString (realm a) +:+ "." +:+ N_toString (num a).

Record World := {
  (** [process.env] *)
  NEXT_PUBLIC_HEDERA_NETWORK : option string;
  NEXT_PUBLIC_METAMASK_CHAIN_ID : option string;
  NEXT_PUBLIC_WALLETCONNECT_PROJECT_ID : option string;
  (** [window.ethereum] *)
  window_ethereum : option Ethereum;
  ethers_over : transport -> Ethers;
  (** relay provider *)
  EthereumProvider_init : outcome WalletProvider;
  relay_connect : outcome unit;
  relay_eth_accounts : outcome accounts_value;
  relay_disconnect : outcome unit;
  (** HashPack connector *)
  hashpack_init : outcome unit;
  hashpack_connectExtension : outcome unit;
  hashpack_signers : list AccountId;
  (** [AccountBalanceQuery] for an account id string, as [hbars.toString()] *)
  hedera_balance : string -> outcome string
}.

(** [!process.env.X] *)
Definition env_missing (v : option string) : bool :=
  match v with Some s => negb (JS.truthy s) | None => true end.

(* ===================================================================== *)
(** * The manager state and the monad of method bodies *)
(* ===================================================================== *)

(** The private fields of [WalletConnector], the browser storage, and what
    the connector has registered or emitted. *)
Record Manager := {
  connection : option WalletConnection;
  hederaClient : bool;
  walletConnectProvider : option WalletProvider;
  hashPackConnector : bool;
  hederaWalletConnectProvider : bool;
  (** [window.localStorage]; [None] when [typeof window === 'undefined'] *)
  localStorage : option (gmap string string);
  (** the events passed to [emit], oldest first *)
  emitted : list Event;
  (** the methods requested from [window.ethereum], oldest first *)
  ethereum_requests : list string;
  (** handler pairs registered on [window.ethereum] and on the relay
      provider *)
  ethereum_handlers : nat;
  relay_handlers : nat;
  (** pending [setTimeout(() => this.restoreMetaMaskConnection(), 1000)] *)
  restore_timers : nat
}.

Definition set_connection (c : option WalletConnection) (m : Manager) : Manager :=
  {| connection := c; hederaClient := hederaClient m;
     walletConnectProvider := walletConnectProvider m;
     hashPackConnector := hashPackConnector m;
     hederaWalletConnectProvider := hederaWalletConnectProvider m;
     localStorage := localStorage m; emitted := emitted m;
     ethereum_requests := ethereum_requests m;
     ethereum_handlers := ethereum_handlers m;
     relay_handlers := relay_handlers m;
     restore_timers := restore_timers m |}.

Definition set_hederaClient (b : bool) (m : Manager) : Manager :=
  {| connection := connection m; hederaClient := b;
     walletConnectProvider := walletConnectProvider m;
     hashPackConnector := hashPackConnector m;
     hederaWalletConnectProvider := hederaWalletConnectProvider m;
     localStorage := localStorage m; emitted := emitted m;
     ethereum_requests := ethereum_requests m;
     ethereum_handlers := ethereum_handlers m;
     relay_handlers := relay_handlers m;
     restore_timers := restore_timers m |}.

Definition set_walletConnectProvider (p : option WalletProvider) (m : Manager) : Manager :=
  {| connection := connection m; hederaClient := hederaClient m;
     walletConnectProvider := p; hashPackConnector := hashPackConnector m;
     hederaWalletConnectProvider := hederaWalletConnectProvider m;
     localStorage := localStorage m; emitted := emitted m;
     ethereum_requests := ethereum_requests m;
     ethereum_handlers := ethereum_handlers m;
     relay_handlers := relay_handlers m;
     restore_timers := restore_timers m |}.

Definition set_hashPackConnector (b : bool) (m : Manager) : Manager :=
  {| connection := connection m; hederaClient := hederaClient m;
     walletConnectProvider := walletConnectProvider m;
     hashPackConnector := b;
     hederaWalletConnectProvider := hederaWalletConnectProvider m;
     localStorage := localStorage m; emitted := emitted m;
     ethereum_requests := ethereum_requests m;
     ethereum_handlers := ethereum_handlers m;
     relay_handlers := relay_handlers m;
     restore_timers := restore_timers m |}.

Definition set_hederaWalletConnectProvider (b : bool) (m : Manager) : Manager :=
  {| connection := connection m; hederaClient := hederaClient m;
     walletConnectProvider := walletConnectProvider m;
     hashPackConnector := hashPackConnector m;
     hederaWalletConnectProvider := b; localStorage := localStorage m;
     emitted := emitted m; ethereum_requests := ethereum_requests m;
     ethereum_handlers := ethereum_handlers m;
     relay_handlers := relay_handlers m;
     restore_timers := restore_timers m |}.

Definition set_localStorage (ls : option (gmap string string)) (m : Manager) : Manager :=
  {| connection := connection m; hederaClient := hederaClient m;
     walletConnectProvider := walletConnectProvider m;
     hashPackConnector := hashPackConnector m;
     hederaWalletConnectProvider := hederaWalletConnectProvider m;
     localStorage := ls; emitted := emitted m;
     ethereum_requests := ethereum_requests m;
     ethereum_handlers := ethereum_handlers m;
     relay_handlers := relay_handlers m;
     restore_timers := restore_timers m |}.

Definition set_emitted (l : list Event) (m : Manager) : Manager :=
  {| connection := connection m; hederaClient := hederaClient m;
     walletConnectProvider := walletConnectProvider m;
     hashPackConnector := hashPackConnector m;
     hederaWalletConnectProvider := hederaWalletConnectProvider m;
     localStorage := localStorage m; emitted := l;
     ethereum_requests := ethereum_requests m;
     ethereum_handlers := ethereum_handlers m;
     relay_handlers := relay_handlers m;
     restore_timers := restore_timers m |}.

Definition set_ethereum_requests (l : list string) (m : Manager) : Manager :=
  {| connection := connection m; hederaClient := hederaClient m;
     walletConnectProvider := walletConnectProvider m;
     hashPackConnector := hashPackConnector m;
     hederaWalletConnectProvider := hederaWalletConnectProvider m;
     localStorage := localStorage m; emitted := emitted m;
     ethereum_requests := l; ethereum_handlers := ethereum_handlers m;
     relay_handlers := relay_handlers m;
     restore_timers := restore_timers m |}.

Definition set_ethereum_handlers (n : nat) (m : Manager) : Manager :=
  {| connection := connection m; hederaClient := hederaClient m;
     walletConnectProvider := walletConnectProvider m;
     hashPackConnector := hashPackConnector m;
     hederaWalletConnectProvider := hederaWalletConnectProvider m;
     localStorage := localStorage m; emitted := emitted m;
     ethereum_requests := ethereum_requests m; ethereum_handlers := n;
     relay_handlers := relay_handlers m;
     restore_timers := restore_timers m |}.

Definition set_relay_handlers (n : nat) (m : Manager) : Manager :=
  {| connection := connection m; hederaClient := hederaClient m;
     walletConnectProvider := walletConnectProvider m;
     hashPackConnector := hashPackConnector m;
     hederaWalletConnectProvider := hederaWalletConnectProvider m;
     localStorage := localStorage m; emitted := emitted m;
     ethereum_requests := ethereum_requests m;
     ethereum_handlers := ethereum_handlers m; relay_handlers := n;
     restore_timers := restore_timers m |}.

Definition set_restore_timers (n : nat) (m : Manager) : Manager :=
  {| connection := connection m; hederaClient := hederaClient m;
     walletConnectProvider := walletConnectProvider m;
     hashPackConnector := hashPackConnector m;
     hederaWalletConnectProvider := hederaWalletConnectProvider m;
     localStorage := localStorage m; emitted := emitted m;
     ethereum_requests := ethereum_requests m;
     ethereum_handlers := ethereum_handlers m;
     relay_handlers := relay_handlers m; restore_timers := n |}.

(** A method body: it reads and writes the manager and returns or throws. *)
Definition M (A : Type) : Type := Manager -> outcome A * Manager.

Definition ret {A} (a : A) : M A := fun m => (Ok a, m).

Definition throw {A} (e : JsError) : M A := fun m => (Throw e, m).

Definition bind {A B} (c : M A) (k : A -> M B) : M B :=
  fun m =>
    match c m with
    | (Ok a, m') => k a m'
    | (Throw e, m') => (Throw e, m')
    end.

(** [try { c } catch (e) { h e }] *)
Definition try_catch {A} (c : M A) (h : JsError -> M A) : M A :=
  fun m =>
    match c m with
    | (Ok a, m') => (Ok a, m')
    | (Throw e, m') => h e m'
    end.

(** [await] of a backend call whose answer is [o]. *)
Definition await {A} (o : outcome A) : M A := fun m => (o, m).

Definition get : M Manager := fun m => (Ok m, m).

Definition modify (f : Manager -> Manager) : M unit := fun m => (Ok tt, f m).

(** A call whose promise is dropped ([this.disconnect()] inside a
    handler): a rejection is not observed by the caller. *)
Definition detached {A} (c : M A) : M unit :=
  fun m => (Ok tt, snd (c m)).

Declare Scope js_scope.
Delimit Scope js_scope with js.
Notation "x <- c ;; k" := (bind c (fun x => k))
  (at level 100, c at next level, right associativity) : js_scope.
Notation "c ;;; k" := (bind c (fun _ => k))
  (at level 100, right associativity) : js_scope.
Open Scope js_scope.

(** The final state and the result of running a method. *)
Definition result {A} (r : outcome A * Manager) : outcome A := fst r.
Definition final {A} (r : outcome A * Manager) : Manager := snd r.

(* ===================================================================== *)
(** * The persisted session descriptor *)
(* ===================================================================== *)

(** The one key of [localStorage] the connector uses. *)
Definition KEY : string := "talentchain_wallet_connection".

Definition opt_field (k : string) (v : option json) : list (string * json) :=
  match v with
  | Some j => [(k, j)]
  | None => []
  end.

Definition json_of_number (n : JS.number) : json :=
  match n with
  | JS.Num z => JNum z
  | JS.NaN => JNull
  end.

(** The value [JSON.stringify] sees for [this.connection]: every own
    property that is not [undefined], the [signer] and [provider] objects
    included. *)
Definition json_of_connection (c : WalletConnection) : json :=
  JObj ([("type", JStr (WalletType_value (type c)));
         ("accountId", JStr (accountId c));
         ("address", JStr (address c))]
        ++ opt_field "signer" (option_map handle_image (signer c))
        ++ opt_field "provider" (option_map handle_image (provider c))
        ++ opt_field "balance" (option_map JStr (balance c))
        ++ opt_field "network" (option_map JStr (network c))
        ++ opt_field "chainId" (option_map json_of_number (chainId c))).

Definition get_string (k : string) (fields : list (string * json)) : option string :=
  match obj_get k fields with
  | Some (JStr s) => Some s
  | _ => None
  end.

(** An optional property of string type: absent, a string, or ill-typed. *)
Definition get_opt_string (k : string) (fields : list (string * json))
  : option (option string) :=
  match obj_get k fields with
  | None => Some None
  | Some (JStr s) => Some (Some s)
  | Some _ => None
  end.

Definition get_opt_number (k : string) (fields : list (string * json))
  : option (option JS.number) :=
  match obj_get k fields with
  | None => Some None
  | Some (JNum z) => Some (Some (JS.Num z))
  | Some _ => None
  end.

(** Reading a parsed value as a [WalletConnection].  The source casts
    without a check; the embedding covers the values that have the shape
    of the interface and answers [None] on the others.  A parsed [signer]
    or [provider] is plain data. *)
Definition connection_of_json (j : json) : option WalletConnection :=
  match j with
  | JObj fields =>
      match get_string "type" fields with
      | Some ts =>
          match WalletType_of_value ts,
                get_string "accountId" fields,
                get_string "address" fields,
                get_opt_string "balance" fields,
                get_opt_string "network" fields,
                get_opt_number "chainId" fields with
          | Some t, Some a, Some ad, Some b, Some n, Some ch =>
              Some {| type := t; accountId := a; address := ad;
                      signer := option_map Plain (obj_get "signer" fields);
                      provider := option_map Plain (obj_get "provider" fields);
                      balance := b; network := n; chainId := ch |}
          | _, _, _, _, _, _ => None
          end
      | None => None
      end
  | _ => None
  end.

(** The descriptor with its handles replaced by their JSON images. *)
Definition plain_handle (h : handle) : handle := Plain (handle_image h).

Definition plain_connection (c : WalletConnection) : WalletConnection :=
  {| type := type c; accountId := accountId c; address := address c;
     signer := option_map plain_handle (signer c);
     provider := option_map plain_handle (provider c);
     balance := balance c; network := network c; chainId := chainId c |}.

Definition persisted (m : Manager) : option string :=
  match localStorage m with
  | Some ls => ls !! KEY
  | None => None
  end.

(* ===================================================================== *)
(** * A reference [JSON.stringify] and [JSON.parse] *)
(* ===================================================================== *)

(** The connector is stated over the host's JSON functions.  To run it on
    concrete inputs this module gives an implementation for the JSON
    texts with integer numbers: a printer without white space, as
    [JSON.stringify] prints, and a recursive descent parser.  Fractions,
    exponents and [\u] escapes above code 255 are not read. *)
Module RefJSON.

Definition dquote : ascii := ascii_of_N 34.
Definition backslash : ascii := ascii_of_N 92.

Definition char_is (c : ascii) (n : Z) : bool := JS.code c =? n.

Definition hex_char (n : Z) : ascii :=
  if n <? 10 then ascii_of_N (Z.to_N (48 + n))
  else ascii_of_N (Z.to_N (87 + n)).

(** The escape of one character inside a string literal. *)
Definition escape_char (c : ascii) : string :=
  let n := JS.code c in
  if (n =? 34) || (n =? 92) then String backslash (String c EmptyString)
  else if n <? 32 then
    String backslash
      (String "u" (String "0" (String "0"
         (String (hex_char (n / 16)) (String (hex_char (n mod 16)) EmptyString)))))
  else String c EmptyString.

Fixpoint escape (s : string) : string :=
  match s with
  | String c s' => escape_char c +:+ escape s'
  | EmptyString => EmptyString
  end.

Definition quote (s : string) : string :=
  String dquote (escape s +:+ String dquote EmptyString).

Fixpoint stringify (j : json) : string :=
  match j with
  | JNull => "null"
  | JBool true => "true"
  | JBool false => "false"
  | JNum z => JS.toString (JS.Num z)
  | JStr s => quote s
  | JArr items =>
      "[" +:+
      (fix elems (l : list json) : string :=
         match l with
         | [] => EmptyString
         | [x] => stringify x
         | x :: rest => stringify x +:+ "," +:+ elems rest
         end) items
      +:+ "]"
  | JObj fields =>
      "{" +:+
      (fix members (l : list (string * json)) : string :=
         match l with
         | [] => EmptyString
         | [(k, v)] => quote k +:+ ":" +:+ stringify v
         | (k, v) :: rest => quote k +:+ ":" +:+ stringify v +:+ "," +:+ members rest
         end) fields
      +:+ "}"
  end.

(** ** Parsing *)

Definition is_ws (c : ascii) : bool :=
  let n := JS.code c in
  (n =? 32) || (n =? 9) || (n =? 10) || (n =? 13).

Fixpoint skip_ws (s : string) : string :=
  match s with
  | String c s' => if is_ws c then skip_ws s' else s
  | EmptyString => s
  end.

(** [s] without the prefix [p], if it starts with it. *)
Fixpoint expect (p s : string) : option string :=
  match p, s with
  | EmptyString, _ => Some s
  | String a p', String b s' => if Ascii.eqb a b then expect p' s' else None
  | String _ _, EmptyString => None
  end.

Definition hex2 (a b : ascii) : option ascii :=
  match JS.digit_in 16 a, JS.digit_in 16 b with
  | Some x, Some y => Some (ascii_of_N (Z.to_N (16 * x + y)))
  | _, _ => None
  end.

(** The characters after an opening quote, up to the closing one. *)
Fixpoint read_string (s : string) : option (string * string) :=
  match s with
  | EmptyString => None
  | String c rest =>
      if char_is c 34 then Some (EmptyString, rest)
      else if char_is c 92 then
        match rest with
        | String e rest' =>
            let plain (x : ascii) (tl : string) :=
              match read_string tl with
              | Some (r, out) => Some (String x r, out)
              | None => None
              end in
            if char_is e 34 || char_is e 92 || char_is e 47 then plain e rest'
            else if char_is e 110 then plain (ascii_of_N 10) rest'
            else if char_is e 116 then plain (ascii_of_N 9) rest'
            else if char_is e 114 then plain (ascii_of_N 13) rest'
            else if char_is e 98 then plain (ascii_of_N 8) rest'
            else if char_is e 102 then plain (ascii_of_N 12) rest'
            else if char_is e 117 then
              match rest' with
              | String "0" (String "0" (String a (String b rest''))) =>
                  match hex2 a b with
                  | Some x => plain x rest''
                  | None => None
                  end
              | _ => None
              end
            else None
        | EmptyString => None
        end
      else if JS.code c <? 32 then None
      else
        match read_string rest with
        | Some (r, out) => Some (String c r, out)
        | None => None
        end
  end.

Fixpoint span_digits (s : string) : string * string :=
  match s with
  | String c s' =>
      match JS.digit_in 10 c with
      | Some _ => let '(d, out) := span_digits s' in (String c d, out)
      | None => (EmptyString, s)
      end
  | EmptyString => (EmptyString, s)
  end.

(** An integer literal: no leading zero, no fraction, no exponent. *)
Definition read_number (s : string) : option (Z * string) :=
  let '(neg, s1) :=
    match s with
    | String "-" s' => (true, s')
    | _ => (false, s)
    end in
  let '(ds, out) := span_digits s1 in
  match ds with
  | EmptyString => None
  | String "0" (String _ _) => None
  | _ =>
      match out with
      | String "." _ | String "e" _ | String "E" _ => None
      | _ =>
          match JS.read_digits 10 ds None with
          | Some v => Some (if neg then - v else v, out)
          | None => None
          end
      end
  end.

Fixpoint read_value (fuel : nat) (s : string) : option (json * string) :=
  match fuel with
  | O => None
  | S fuel' =>
      match skip_ws s with
      | EmptyString => None
      | String c rest as s0 =>
          if char_is c 110 then
            match expect "null" s0 with Some out => Some (JNull, out) | None => None end
          else if char_is c 116 then
            match expect "true" s0 with Some out => Some (JBool true, out) | None => None end
          else if char_is c 102 then
            match expect "false" s0 with Some out => Some (JBool false, out) | None => None end
          else if char_is c 34 then
            match read_string rest with
            | Some (str, out) => Some (JStr str, out)
            | None => None
            end
          else if char_is c 91 then
            match skip_ws rest with
            | String "]" out => Some (JArr [], out)
            | _ =>
                match read_elems fuel' rest with
                | Some (l, out) => Some (JArr l, out)
                | None => None
                end
            end
          else if char_is c 123 then
            match skip_ws rest with
            | String "}" out => Some (JObj [], out)
            | _ =>
                match read_members fuel' rest with
                | Some (l, out) => Some (JObj l, out)
                | None => None
                end
            end
          else
            match read_number s0 with
            | Some (z, out) => Some (JNum z, out)
            | None => None
            end
      end
  end
with read_elems (fuel : nat) (s : string) : option (list json * string) :=
  match fuel with
  | O => None
  | S fuel' =>
      match read_value fuel' s with
      | Some (v, out) =>
          match skip_ws out with
          | String "]" out' => Some ([v], out')
          | String "," out' =>
              match read_elems fuel' out' with
              | Some (l, out'') => Some (v :: l, out'')
              | None => None
              end
          | _ => None
          end
      | None => None
      end
  end
with read_members (fuel : nat) (s : string) : option (list (string * json) * string) :=
  match fuel with
  | O => None
  | S fuel' =>
      match skip_ws s with
      | String c rest =>
          if char_is c 34 then
            match read_string rest with
            | Some (k, out) =>
                match skip_ws out with
                | String ":" out' =>
                    match read_value fuel' out' with
                    | Some (v, out'') =>
                        match skip_ws out'' with
                        | String "}" out3 => Some ([(k, v)], out3)
                        | String "," out3 =>
                            match read_members fuel' out3 with
                            | Some (l, out4) => Some ((k, v) :: l, out4)
                            | None => None
                            end
                        | _ => None
                        end
                    | None => None
                    end
                | _ => None
                end
            | None => None
            end
          else None
      | EmptyString => None
      end
  end.

(** [JSON.parse] on this fragment; [None] is its [SyntaxError]. *)
Definition parse (s : string) : option json :=
  match read_value (2 * String.length s + 2) s with
  | Some (j, out) =>
      match skip_ws out with
      | EmptyString => Some j
      | String _ _ => None
      end
  | None => None
  end.

End RefJSON.

(** The fields of a [WalletConnector] before its constructor body runs,
  in a page whose storage is [ls] ([None]: no [window]). *)
Definition fresh (ls : option (gmap string string)) : Manager :=
  {| connection := None; hederaClient := false;
     walletConnectProvider := None; hashPackConnector := false;
     hederaWalletConnectProvider := false; localStorage := ls;
     emitted := []; ethereum_requests := []; ethereum_handlers := O;
     relay_handlers := O; restore_timers := O |}.

(* ===================================================================== *)
(** * Sample worlds and managers *)
(* ===================================================================== *)

(** Concrete backends on which the methods are run below. *)

Definition sample_ethers : Ethers :=
  {| provider_image := JObj [];
     ethers_getSigner :=
       Ok (JObj [("provider", JObj []); ("address", JStr "0xABC1")]);
     ethers_getBalance :=
       fun a => if String.eqb a EmptyString
                then Throw (Error "unconfigured name")
                else Ok "12.5" |}.

Definition sample_metamask : Ethereum :=
  {| isMetaMask := true;
     request_is_function := true;
     eth_chainId_probe := Ok (Some "0x128");
     eth_requestAccounts := Some (Ok (Some ["0xABC1"]));
     eth_chainId := Ok (Some "0x128");
     wallet_switchEthereumChain := Ok tt;
     wallet_addEthereumChain := Ok tt;
     eth_accounts := Ok (Some ["0xABC1"]) |}.

(** The wallet is locked: [eth_accounts] rejects. *)
Definition locked_metamask : Ethereum :=
  {| isMetaMask := true;
     request_is_function := true;
     eth_chainId_probe := Throw (Error "wallet is locked");
     eth_requestAccounts := None;
     eth_chainId := Throw (Error "wallet is locked");
     wallet_switchEthereumChain := Throw (Error "wallet is locked");
     wallet_addEthereumChain := Throw (Error "wallet is locked");
     eth_accounts := Throw (Error "wallet is locked") |}.

Definition sample_relay : WalletProvider :=
  {| has_connect := true; has_disconnect := true;
     has_request := true; has_on := true |}.

Definition sample_world : World :=
  {| NEXT_PUBLIC_HEDERA_NETWORK := Some "testnet";
     NEXT_PUBLIC_METAMASK_CHAIN_ID := Some "296";
     NEXT_PUBLIC_WALLETCONNECT_PROJECT_ID :=
       Some "0123456789abcdef0123456789abcdef";
     window_ethereum := Some sample_metamask;
     ethers_over := fun _ => sample_ethers;
     EthereumProvider_init := Ok sample_relay;
     relay_connect := Ok tt;
     relay_eth_accounts := Ok (Some ["0xABC1"]);
     relay_disconnect := Ok tt;
     hashpack_init := Ok tt;
     hashpack_connectExtension := Ok tt;
     hashpack_signers := [{| shard := 0; realm := 0; num := 4242 |}];
     hedera_balance := fun _ => Ok "100" |}.

Definition with_ethereum (e : option Ethereum) (w : World) : World :=
  {| NEXT_PUBLIC_HEDERA_NETWORK := NEXT_PUBLIC_HEDERA_NETWORK w;
     NEXT_PUBLIC_METAMASK_CHAIN_ID := NEXT_PUBLIC_METAMASK_CHAIN_ID w;
     NEXT_PUBLIC_WALLETCONNECT_PROJECT_ID :=
       NEXT_PUBLIC_WALLETCONNECT_PROJECT_ID w;
     window_ethereum := e;
     ethers_over := ethers_over w;
     EthereumProvider_init := EthereumProvider_init w;
     relay_connect := relay_connect w;
     relay_eth_accounts := relay_eth_accounts w;
     relay_disconnect := relay_disconnect w;
     hashpack_init := hashpack_init w;
     hashpack_connectExtension := hashpack_connectExtension w;
     hashpack_signers := hashpack_signers w;
     hedera_balance := hedera_balance w |}.


(** No injected provider in the page. *)
Definition world_without_metamask : World := with_ethereum None sample_world.

Definition world_locked : World := with_ethereum (Some locked_metamask) sample_world.


(** A page with empty storage, after the constructor. *)
Definition page : Manager := set_hederaClient true (fresh (Some ∅)).

(** The session [connectMetaMask] builds in [sample_world]. *)
Definition metamask_session : WalletConnection :=
  {| type := METAMASK;
     accountId := "0xABC1";
     address := "0xABC1";
     signer :=
       Some (Live Injected
               (JObj [("provider", JObj []); ("address", JStr "0xABC1")]));
     provider := Some (Live Injected (JObj []));
     balance := Some "12.5";
     network := Some "testnet";
     chainId := Some (JS.Num 296) |}.

(** The session [connectWalletConnect] builds in [sample_world]. *)
Definition relay_session : WalletConnection :=
  {| type := WALLETCONNECT;
     accountId := "0xABC1";
     address := "0xABC1";
     signer :=
       Some (Live Relay
               (JObj [("provider", JObj []); ("address", JStr "0xABC1")]));
     provider := Some (Live Relay (JObj []));
     balance := Some "12.5";
     network := Some "testnet";
     chainId := Some (JS.Num 296) |}.

(** What [saveConnection] writes for [metamask_session] with the
    reference printer. *)
Definition metamask_text : string :=
  RefJSON.stringify (json_of_connection metamask_session).

(** The manager of a page where [metamask_session] was saved, after the
    constructor has loaded it. *)
Definition reloaded_page : Manager :=
  {| connection := Some (plain_connection metamask_session);
     hederaClient := true;
     walletConnectProvider := None;
     hashPackConnector := false;
     hederaWalletConnectProvider := false;
     localStorage := Some {[ KEY := metamask_text ]};
     emitted := [];
     ethereum_requests := [];
     ethereum_handlers := O;
     relay_handlers := O;
     restore_timers := 1%nat |}.

(** A page in which [metamask_session] is current and nothing is stored. *)
Definition connected_page : Manager :=
  set_connection (Some metamask_session) page.

Definition relay_text : string :=
  RefJSON.stringify (json_of_connection relay_session).

(** The manager after [connectWalletConnect] in [sample_world], from
    [page]. *)
Definition relay_connected_page : Manager :=
  {| connection := Some relay_session;
     hederaClient := true;
     walletConnectProvider := Some sample_relay;
     hashPackConnector := false;
     hederaWalletConnectProvider := false;
     localStorage := Some {[ KEY := relay_text ]};
     emitted := [connected (Some relay_session)];
     ethereum_requests := [];
     ethereum_handlers := O;
     relay_handlers := 1%nat;
     restore_timers := O |}.

(** Pages whose stored text is not JSON. *)
Definition garbage_page : Manager :=
  set_localStorage (Some {[ KEY := "not json {" ]}) page.

Definition empty_text_page : Manager :=
  set_localStorage (Some {[ KEY := EmptyString ]}) page.

(* ===================================================================== *)
(** * The event bus *)
(* ===================================================================== *)

(** [on], [off] and [emit] of [WalletConnector] over its [listeners]
    object.  A callback is known by its identity; what it does when called
    is a parameter of [emit].  The registry is a plain object, so the
    names of [Object.prototype] read as inherited values that are not
    arrays.  Callbacks are assumed not to call [on] or [off] while they
    are dispatched. *)
Module EventBus.

(** The properties every object inherits from [Object.prototype]. *)
Definition inherited_names : list string :=
  ["constructor"; "__defineGetter__"; "__defineSetter__"; "hasOwnProperty";
   "__lookupGetter__"; "__lookupSetter__"; "isPrototypeOf";
   "propertyIsEnumerable"; "toString"; "valueOf"; "__proto__";
   "toLocaleString"].

Definition inherited (event : string) : bool :=
  existsb (String.eqb event) inherited_names.

(** [cb !== callback] *)
Definition other_than (callback : nat) (cb : nat) : bool :=
  negb (Nat.eqb cb callback).

(** The array under [event], empty when the key is absent. *)
Definition registered (event : string) (listeners : gmap string (list nat))
  : list nat :=
  match listeners !! event with
  | Some l => l
  | None => []
  end.

Definition on (event : string) (callback : nat)
    (listeners : gmap string (list nat))
  : outcome unit * gmap string (list nat) :=
  if inherited event then (Throw TypeError, listeners)
  else (Ok tt, <[event := registered event listeners ++ [callback]]> listeners).

Definition off (event : string) (callback : nat)
    (listeners : gmap string (list nat))
  : outcome unit * gmap string (list nat) :=
  if inherited event then (Throw TypeError, listeners)
  else match listeners !! event with
       | Some l => (Ok tt, <[event := List.filter (other_than callback) l]> listeners)
       | None => (Ok tt, listeners)
       end.

(** [forEach(callback => callback(data))]: the callbacks called, in order,
    up to the first one that throws. *)
Fixpoint dispatch (behaviour : nat -> outcome unit) (l : list nat)
  : outcome unit * list nat :=
  match l with
  | [] => (Ok tt, [])
  | cb :: rest =>
      match behaviour cb with
      | Ok _ => let '(o, called) := dispatch behaviour rest in (o, cb :: called)
      | Throw e => (Throw e, [cb])
      end
  end.

Definition emit (behaviour : nat -> outcome unit) (event : string)
    (listeners : gmap string (list nat)) : outcome unit * list nat :=
  if inherited event then (Throw TypeError, [])
  else match listeners !! event with
       | Some l => dispatch behaviour l
       | None => (Ok tt, [])
       end.

End EventBus.

(* ===================================================================== *)
(** * Address display *)
(* ===================================================================== *)

(** [s.slice(0, n)] *)
Definition slice_to (n : nat) (s : string) : string :=
  String.substring 0 n s.

(** [s.slice(-n)] *)
Definition slice_last (n : nat) (s : string) : string :=
  String.substring (String.length s - n)%nat n s.

(** [WalletConnector.formatAddress] *)
Definition formatAddress (address : string) : string :=
  if JS.truthy address
  then slice_to 6 address +:+ "..." +:+ slice_last 4 address
  else EmptyString.

(* ===================================================================== *)
(** * Signing backends and the state of the authentication hook *)
(* ===================================================================== *)

(** The answers of the backends to [signMessage] and [sendTransaction].
    A transaction and a transaction response are opaque values. *)
Record Signing := {
  (** HashPack: [getSigner(AccountId.fromString(id)).sign([bytes])], as
      the hexadecimal text of the first signature *)
  hashpack_sign : string -> string -> outcome string;
  (** HashPack: [getSigner(...).signTransaction(tx)] *)
  hashpack_signTransaction : string -> json -> outcome json;
  (** [signedTransaction.execute(client)], as [transactionId.toString()] *)
  hedera_execute : json -> outcome string;
  (** [signer.signMessage(text)] of an ethers signer *)
  ethers_signMessage : transport -> string -> outcome string;
  (** [signer.sendTransaction(tx)] *)
  ethers_sendTransaction : transport -> json -> outcome json;
  (** [tx.wait()], as [receipt.hash]; [None] is a [null] receipt *)
  ethers_wait : json -> outcome (option string)
}.

(** The React state of [AuthProvider]. *)
Record AuthState := {
  auth_user : option json;
  auth_isConnected : bool;
  auth_isLoading : bool;
  auth_connection : option WalletConnection
}.

(** The handler of [disconnected] that the hook registers. *)
Definition auth_on_disconnected (a : AuthState) : AuthState :=
  {| auth_user := None; auth_isConnected := false;
     auth_isLoading := auth_isLoading a; auth_connection := None |}.

(** [setConnection(c); setIsConnected(true)] *)
Definition auth_mark_connected (c : WalletConnection) (a : AuthState) : AuthState :=
  {| auth_user := auth_user a; auth_isConnected := true;
     auth_isLoading := auth_isLoading a; auth_connection := Some c |}.

Definition auth_setUser (u : json) (a : AuthState) : AuthState :=
  {| auth_user := Some u; auth_isConnected := auth_isConnected a;
     auth_isLoading := auth_isLoading a; auth_connection := auth_connection a |}.

Definition auth_setIsLoading (b : bool) (a : AuthState) : AuthState :=
  {| auth_user := auth_user a; auth_isConnected := auth_isConnected a;
     auth_isLoading := b; auth_connection := auth_connection a |}.

(** The state of the hook before its effect runs. *)
Definition auth_initial : AuthState :=
  {| auth_user := None; auth_isConnected := false;
     auth_isLoading := true; auth_connection := None |}.

(** The storage key of a user profile. *)
Definition user_key (accountId0 : string) : string := "user_" +:+ accountId0.

(* ===================================================================== *)
(** * Further sample worlds *)
(* ===================================================================== *)

Definition with_EthereumProvider_init (o : outcome WalletProvider) (w : World)
  : World :=
  {| NEXT_PUBLIC_HEDERA_NETWORK := NEXT_PUBLIC_HEDERA_NETWORK w;
     NEXT_PUBLIC_METAMASK_CHAIN_ID := NEXT_PUBLIC_METAMASK_CHAIN_ID w;
     NEXT_PUBLIC_WALLETCONNECT_PROJECT_ID :=
       NEXT_PUBLIC_WALLETCONNECT_PROJECT_ID w;
     window_ethereum := window_ethereum w;
     ethers_over := ethers_over w;
     EthereumProvider_init := o;
     relay_connect := relay_connect w;
     relay_eth_accounts := relay_eth_accounts w;
     relay_disconnect := relay_disconnect w;
     hashpack_init := hashpack_init w;
     hashpack_connectExtension := hashpack_connectExtension w;
     hashpack_signers := hashpack_signers w;
     hedera_balance := hedera_balance w |}.

Definition with_chain_id_variable (v : option string) (w : World) : World :=
  {| NEXT_PUBLIC_HEDERA_NETWORK := NEXT_PUBLIC_HEDERA_NETWORK w;
     NEXT_PUBLIC_METAMASK_CHAIN_ID := v;
     NEXT_PUBLIC_WALLETCONNECT_PROJECT_ID :=
       NEXT_PUBLIC_WALLETCONNECT_PROJECT_ID w;
     window_ethereum := window_ethereum w;
     ethers_over := ethers_over w;
     EthereumProvider_init := EthereumProvider_init w;
     relay_connect := relay_connect w;
     relay_eth_accounts := relay_eth_accounts w;
     relay_disconnect := relay_disconnect w;
     hashpack_init := hashpack_init w;
     hashpack_connectExtension := hashpack_connectExtension w;
     hashpack_signers := hashpack_signers w;
     hedera_balance := hedera_balance w |}.

(** The expected chain id written in hexadecimal. *)
Definition world_hex_chain_id : World :=
  with_chain_id_variable (Some "0x128") sample_world.

(** A wallet on another chain that does not know the expected one. *)
Definition metamask_unknown_chain : Ethereum :=
  {| isMetaMask := true;
     request_is_function := true;
     eth_chainId_probe := Ok (Some "0x1");
     eth_requestAccounts := Some (Ok (Some ["0xABC1"]));
     eth_chainId := Ok (Some "0x1");
     wallet_switchEthereumChain :=
       Throw {| instanceof_Error := true; err_code := Some 4902;
                message := "Unrecognized chain ID" |};
     wallet_addEthereumChain := Ok tt;
     eth_accounts := Ok (Some ["0xABC1"]) |}.

Definition world_unknown_chain : World :=
  with_ethereum (Some metamask_unknown_chain) sample_world.

Definition sample_signing : Signing :=
  {| hashpack_sign := fun _ _ => Ok "a1b2";
     hashpack_signTransaction := fun _ tx => Ok tx;
     hedera_execute := fun _ => Ok "0.0.4242@1700000000.000000001";
     ethers_signMessage := fun _ _ => Ok "0xsigned";
     ethers_sendTransaction := fun _ tx => Ok tx;
     ethers_wait := fun _ => Ok (Some "0xhash") |}.

(** The session [connectHashPack] builds in [sample_world]. *)
Definition hashpack_session : WalletConnection :=
  {| type := HASHPACK;
     accountId := "0.0.4242";
     address := "0.0.4242";
     signer := None;
     provider := None;
     balance := Some "100";
     network := Some "testnet";
     chainId := Some (JS.Num 296) |}.

(** A page in which [hashpack_session] is current, without a Hedera
    client. *)
Definition hashpack_page_without_client : Manager :=
  set_hederaWalletConnectProvider true
    (set_connection (Some hashpack_session) (fresh (Some ∅))).

(** A page with [metamask_session] current and a user profile that is
    not JSON. *)
Definition corrupted_profile_storage : gmap string string :=
  {[ user_key "0xABC1" := "not json {" ]}.

Definition corrupted_profile_page : Manager :=
  set_localStorage (Some corrupted_profile_storage) connected_page.


(** An empty page whose storage holds a user profile that is not JSON. *)
Definition corrupted_profile_fresh_page : Manager :=
  set_localStorage (Some corrupted_profile_storage) page.

(** [reloaded_page] with a user profile that is not JSON. *)
Definition reloaded_corrupted_page : Manager :=
  set_localStorage
    (Some (<[ user_key "0xABC1" := "not json {" ]> {[ KEY := metamask_text ]}))
    reloaded_page.

(** An empty page whose storage holds a profile that is not JSON for the
    account of [hashpack_session]. *)
Definition hashpack_corrupted_page : Manager :=
  set_localStorage (Some {[ user_key "0.0.4242" := "not json {" ]}) page.

(** A page whose storage holds the descriptor of [relay_session]. *)
Definition relay_stored_page : Manager :=
  set_localStorage (Some {[ KEY := relay_text ]}) page.

(** Listeners of the event bus, by number. *)
Definition sample_listeners : gmap string (list nat) :=
  {[ "connected" := [1; 2; 1]%nat ]}.

(** The second listener throws. *)
Definition second_throws (cb : nat) : outcome unit :=
  if Nat.eqb cb 2 then Throw TypeError else Ok tt.

(* ===================================================================== *)
(** * The methods of [WalletConnector] *)
(* ===================================================================== *)

Section Connector.

(** [JSON.stringify] and [JSON.parse] ([None]: it throws a
    [SyntaxError]) are built into the host. *)
Variable JSON_stringify : json -> string.
Variable JSON_parse : string -> option json.

Variable w : World.

Definition SyntaxError : JsError := Error "SyntaxError".
Definition ReferenceError : JsError := Error "ReferenceError".

Definition emit (e : Event) : M unit :=
  modify (fun m => set_emitted (emitted m ++ [e]) m).

(** [private get ethereum()]: [window.ethereum] where there is a
    [window]. *)
Definition injected (m : Manager) : option Ethereum :=
  match localStorage m with
  | Some _ => window_ethereum w
  | None => None
  end.

Definition this_ethereum : M (option Ethereum) :=
  m <- get ;; ret (injected m).

(** [ethereum.request({ method })] with answer [o]. *)
Definition request {A} (eth : Ethereum) (method : string) (o : outcome A) : M A :=
  if request_is_function eth
  then modify (fun m => set_ethereum_requests (ethereum_requests m ++ [method]) m) ;;;
       await o
  else throw TypeError.

Definition hedera_network : string :=
  JS.or_default (NEXT_PUBLIC_HEDERA_NETWORK w) "testnet".

Definition expected_chain_id : string :=
  JS.or_default (NEXT_PUBLIC_METAMASK_CHAIN_ID w) "296".

(** ** Persistence *)

Definition saveConnection : M unit :=
  m <- get ;;
  match connection m, localStorage m with
  | Some c, Some ls =>
      modify (set_localStorage
                (Some (<[KEY := JSON_stringify (json_of_connection c)]> ls)))
  | _, _ => ret tt
  end.

Definition clearSavedConnection : M unit :=
  m <- get ;;
  match localStorage m with
  | Some ls => modify (set_localStorage (Some (delete KEY ls)))
  | None => ret tt
  end.

(** ** Backend listeners *)

Definition setupMetaMaskListeners : M unit :=
  eth <- this_ethereum ;;
  match eth with
  | Some _ => modify (fun m => set_ethereum_handlers (S (ethereum_handlers m)) m)
  | None => ret tt
  end.

Definition setupWalletConnectListeners : M unit :=
  m <- get ;;
  match walletConnectProvider m with
  | Some p =>
      if has_on p
      then modify (fun m => set_relay_handlers (S (relay_handlers m)) m)
      else ret tt
  | None => ret tt
  end.

(** ** Calls through a [provider] field *)

Definition provider_getBalance (h : handle) (a : string) : outcome string :=
  match h with
  | Live via _ => ethers_getBalance (ethers_over w via) a
  | Plain _ => Throw TypeError
  end.

Definition provider_getSigner (h : handle) : outcome handle :=
  match h with
  | Live via _ =>
      match ethers_getSigner (ethers_over w via) with
      | Ok image => Ok (Live via image)
      | Throw e => Throw e
      end
  | Plain _ => Throw TypeError
  end.

Definition BrowserProvider (via : transport) : handle :=
  Live via (provider_image (ethers_over w via)).

(** ** Reset *)

Definition resetConnectionState : M unit :=
  modify (set_connection None) ;;;
  modify (set_walletConnectProvider None) ;;;
  modify (set_hashPackConnector false) ;;;
  modify (set_hederaWalletConnectProvider false) ;;;
  clearSavedConnection ;;;
  emit (disconnected None).

(** ** HashPack *)

Definition connectHashPackWalletConnect : M WalletConnection :=
  try_catch
    (m <- get ;;
     (if hashPackConnector m then ret tt
      else modify (set_hashPackConnector true)) ;;;
     await (hashpack_init w) ;;;
     await (hashpack_connectExtension w) ;;;
     match hashpack_signers w with
     | [] => throw (Error "No signers available after connection")
     | signer0 :: _ =>
         let accountId0 := AccountId_toString signer0 in
         modify (set_hederaWalletConnectProvider true) ;;;
         m <- get ;;
         balance0 <-
           try_catch
             (if hederaClient m
              then await (hedera_balance w accountId0)
              else ret "0")
             (fun _ => ret "0") ;;
         let connection0 :=
           {| type := HASHPACK;
              accountId := accountId0;
              address := accountId0;
              signer := None;
              provider := None;
              balance := Some balance0;
              network := Some hedera_network;
              chainId :=
                option_map (fun n => JS.Num (net_chainId n))
                           (HEDERA_NETWORKS hedera_network) |} in
         modify (set_connection (Some connection0)) ;;;
         saveConnection ;;;
         emit (connected (Some connection0)) ;;;
         ret connection0
     end)
    (fun error => throw error).

Definition connectHashPack : M WalletConnection :=
  try_catch connectHashPackWalletConnect (fun error => throw error).

(** ** MetaMask *)

(** The responsiveness check at the start of [connectMetaMask]: the
    inner [try] swallows a failing [eth_chainId] probe. *)
Definition metamask_probe (eth : Ethereum) : M unit :=
  try_catch
    ((if negb (isMetaMask eth) || negb (request_is_function eth)
      then throw (Error "MetaMask is not responsive. Please check if MetaMask is unlocked.")
      else ret tt) ;;;
     try_catch
       (request eth "eth_chainId" (eth_chainId_probe eth) ;;; ret tt)
       (fun _ => ret tt))
    (fun error =>
       if has_code error 4001
       then throw (Error "MetaMask connection was rejected. Please approve the connection request.")
       else if JS.includes (message error) "locked"
       then throw (Error "MetaMask is locked. Please unlock MetaMask and try again.")
       else ret tt).

(** [Promise.race([connectionPromise, timeoutPromise])] *)
Definition race_requestAccounts (eth : Ethereum) : M accounts_value :=
  match eth_requestAccounts eth with
  | Some o => request eth "eth_requestAccounts" o
  | None => throw (Error "MetaMask connection timeout. Please try again.")
  end.

(** [!chainId || chainId !== expectedChainIdHex] *)
Definition wrong_chain (chain : option string) (expectedHex : string) : bool :=
  match chain with
  | Some c => negb (JS.truthy c) || negb (String.eqb c expectedHex)
  | None => true
  end.

Definition switch_network (eth : Ethereum) : M unit :=
  try_catch
    (request eth "wallet_switchEthereumChain" (wallet_switchEthereumChain eth))
    (fun switchError =>
       if has_code switchError 4902
       then match HEDERA_NETWORKS hedera_network with
            | Some _ => request eth "wallet_addEthereumChain" (wallet_addEthereumChain eth)
            | None => throw TypeError
            end
       else throw switchError).

(** The [catch] block of [connectMetaMask]. *)
Definition metamask_catch (error : JsError) : M WalletConnection :=
  (if instanceof_Error error then
     if JS.includes (message error) "rejected"
     then throw (Error "MetaMask connection was rejected. Please approve the connection request.")
     else if JS.includes (message error) "timeout"
     then throw (Error "MetaMask connection timeout. Please try again.")
     else if JS.includes (message error) "No accounts found"
     then throw (Error "No accounts found in MetaMask. Please add an account and try again.")
     else if JS.includes (message error) "not responsive"
     then throw (Error "MetaMask is not responding. Please check if MetaMask is unlocked and try again.")
     else if JS.includes (message error) "environment"
     then throw (Error "Configuration issue detected. Please check your environment variables.")
     else ret tt
   else ret tt) ;;;
  (if instanceof_Error error && JS.includes (message error) "timeout"
   then resetConnectionState
   else ret tt) ;;;
  (if env_missing (NEXT_PUBLIC_METAMASK_CHAIN_ID w)
      || env_missing (NEXT_PUBLIC_HEDERA_NETWORK w)
   then throw (Error "Configuration error: Missing required environment variables. Please check your .env.local file.")
   else ret tt) ;;;
  throw error.

Definition connectMetaMask : M WalletConnection :=
  try_catch
    (ethereum <- this_ethereum ;;
     match ethereum with
     | None => throw (Error "MetaMask is not installed. Please install MetaMask extension.")
     | Some eth =>
         if negb (isMetaMask eth)
         then throw (Error "MetaMask is not installed. Please install MetaMask extension.")
         else
           metamask_probe eth ;;;
           accounts <- race_requestAccounts eth ;;
           match accounts with
           | None | Some [] =>
               throw (Error "No accounts found. Please make sure you have accounts in MetaMask.")
           | Some (account :: _) =>
               chain <- request eth "eth_chainId" (eth_chainId eth) ;;
               let expectedChainId := expected_chain_id in
               let expectedChainIdHex :=
                 "0x" +:+ JS.toString16 (JS.parseInt expectedChainId None) in
               (if wrong_chain chain expectedChainIdHex
                then switch_network eth
                else ret tt) ;;;
               let provider0 := BrowserProvider Injected in
               signer0 <- await (provider_getSigner provider0) ;;
               balanceInEther <- await (provider_getBalance provider0 account) ;;
               let connection0 :=
                 {| type := METAMASK;
                    accountId := account;
                    address := account;
                    signer := Some signer0;
                    provider := Some provider0;
                    balance := Some balanceInEther;
                    network := Some hedera_network;
                    chainId := Some (JS.parseInt expectedChainId None) |} in
               modify (set_connection (Some connection0)) ;;;
               saveConnection ;;;
               emit (connected (Some connection0)) ;;;
               setupMetaMaskListeners ;;;
               ret connection0
           end
     end)
    metamask_catch.

(** ** WalletConnect *)

Definition connectWalletConnect : M WalletConnection :=
  try_catch
    ((if env_missing (NEXT_PUBLIC_WALLETCONNECT_PROJECT_ID w)
      then throw (Error "WalletConnect Project ID is missing. Please check your environment variables.")
      else ret tt) ;;;
     m <- get ;;
     (match walletConnectProvider m with
      | Some _ => ret tt
      | None =>
          p <- await (EthereumProvider_init w) ;;
          modify (set_walletConnectProvider (Some p))
      end) ;;;
     m <- get ;;
     (match walletConnectProvider m with
      | Some p =>
          if has_connect p then ret tt
          else throw (Error "WalletConnect provider not properly initialized")
      | None => throw (Error "WalletConnect provider not properly initialized")
      end) ;;;
     await (relay_connect w) ;;;
     m <- get ;;
     (match walletConnectProvider m with
      | Some p =>
          if has_request p then ret tt
          else throw (Error "WalletConnect provider request method not available")
      | None => throw (Error "WalletConnect provider request method not available")
      end) ;;;
     accounts <- await (relay_eth_accounts w) ;;
     match accounts with
     | None => throw TypeError
     | Some [] => throw (Error "No accounts found")
     | Some (account :: _) =>
         if negb (JS.truthy account) then throw (Error "No accounts found")
         else
           let provider0 := BrowserProvider Relay in
           signer0 <- await (provider_getSigner provider0) ;;
           balanceInEther <- await (provider_getBalance provider0 account) ;;
           let connection0 :=
             {| type := WALLETCONNECT;
                accountId := account;
                address := account;
                signer := Some signer0;
                provider := Some provider0;
                balance := Some balanceInEther;
                network := Some hedera_network;
                chainId := Some (JS.parseInt expected_chain_id None) |} in
           modify (set_connection (Some connection0)) ;;;
           saveConnection ;;;
           emit (connected (Some connection0)) ;;;
           setupWalletConnectListeners ;;;
           ret connection0
     end)
    (fun error => throw error).

(** ** The main entry points *)

(** [connect(walletType)]; the [default] branch of the [switch] has no
    value of the enum to run on. *)
Definition connect (walletType : WalletType) : M WalletConnection :=
  try_catch
    (match walletType with
     | HASHPACK => connectHashPack
     | METAMASK => connectMetaMask
     | WALLETCONNECT => connectWalletConnect
     end)
    (fun error => throw error).

Definition disconnect : M unit :=
  m <- get ;;
  match connection m with
  | Some connection0 =>
      (match type connection0 with
       | HASHPACK => ret tt
       | WALLETCONNECT =>
           match walletConnectProvider m with
           | Some p =>
               if has_disconnect p then await (relay_disconnect w) else ret tt
           | None => ret tt
           end
       | METAMASK =>
           eth <- this_ethereum ;;
           match eth with
           | Some _ => modify (set_ethereum_handlers 0)
           | None => ret tt
           end
       end) ;;;
      modify (set_connection None) ;;;
      clearSavedConnection ;;;
      (match type connection0 with
       | METAMASK => modify (set_walletConnectProvider None)
       | _ => ret tt
       end) ;;;
      emit (disconnected (Some connection0))
  | None => ret tt
  end.

Definition getConnection : M (option WalletConnection) :=
  m <- get ;; ret (connection m).

Definition isConnected : M bool :=
  m <- get ;;
  ret (match connection m with Some _ => true | None => false end).

(** ** Account switch *)

Definition updateConnection (newAccount : string) : M unit :=
  m <- get ;;
  match connection m with
  | None => ret tt
  | Some c =>
      try_catch
        (match type c, provider c with
         | METAMASK, Some p =>
             if handle_truthy p then
               signer0 <- await (provider_getSigner p) ;;
               balanceInEther <- await (provider_getBalance p newAccount) ;;
               let updatedConnection :=
                 {| type := type c;
                    accountId := newAccount;
                    address := newAccount;
                    signer := Some signer0;
                    provider := provider c;
                    balance := Some balanceInEther;
                    network := network c;
                    chainId := chainId c |} in
               modify (set_connection (Some updatedConnection)) ;;;
               saveConnection ;;;
               emit (accountChanged updatedConnection)
             else ret tt
         | _, _ => ret tt
         end)
        (fun _ => ret tt)
  end.

(** ** Health and restore checks *)

(** [Array.isArray(accounts) && accounts.length > 0] *)
Definition nonempty_array (a : accounts_value) : bool :=
  match a with
  | Some (_ :: _) => true
  | _ => false
  end.

Definition checkConnectionHealth : M bool :=
  m <- get ;;
  match connection m with
  | None => ret false
  | Some c =>
      try_catch
        (match type c, provider c, walletConnectProvider m with
         | METAMASK, Some p, _ =>
             if handle_truthy p
             then await (provider_getBalance p (address c)) ;;; ret true
             else ret true
         | WALLETCONNECT, _, Some rp =>
             if has_request rp
             then accounts <- await (relay_eth_accounts w) ;;
                  ret (nonempty_array accounts)
             else ret true
         | _, _, _ => ret true
         end)
        (fun _ => ret false)
  end.

Definition canRestoreConnection : M bool :=
  m <- get ;;
  match connection m with
  | None => ret false
  | Some c =>
      try_catch
        (match type c with
         | METAMASK =>
             ethereum <- this_ethereum ;;
             match ethereum with
             | None => ret false
             | Some eth =>
                 if negb (isMetaMask eth) then ret false
                 else
                   accounts <- request eth "eth_accounts" (eth_accounts eth) ;;
                   match accounts with
                   | Some (account0 :: _) =>
                       let currentAccount := JS.toLowerCase account0 in
                       let savedAccount := JS.toLowerCase (address c) in
                       ret (String.eqb currentAccount savedAccount)
                   | _ => ret false
                   end
             end
         | _ => ret false
         end)
        (fun _ => ret false)
  end.

(** ** Balance *)

Definition getBalance : M string :=
  m <- get ;;
  match connection m with
  | None => throw (Error "No wallet connected")
  | Some c =>
      try_catch
        (match type c with
         | HASHPACK =>
             if hederaClient m
             then await (hedera_balance w (accountId c))
             else ret (JS.or_default (balance c) "0")
         | _ =>
             match provider c with
             | Some p =>
                 if handle_truthy p
                 then await (provider_getBalance p (address c))
                 else ret (JS.or_default (balance c) "0")
             | None => ret (JS.or_default (balance c) "0")
             end
         end)
        (fun _ => ret "0")
  end.

(** ** Restore at startup *)

(** [WalletConnector.isHashPackInstalled()] *)
Definition isHashPackInstalled (m : Manager) : bool :=
  match localStorage m with
  | Some _ => true
  | None => false
  end.

Definition restoreHashPackConnection : M unit :=
  try_catch
    (m <- get ;;
     if isHashPackInstalled m
     then emit (connected (connection m))
     else clearSavedConnection)
    (fun _ => clearSavedConnection).

(** [window.ethereum] read without the guard on [window]. *)
Definition window_dot_ethereum : M (option Ethereum) :=
  m <- get ;;
  match localStorage m with
  | Some _ => ret (window_ethereum w)
  | None => throw ReferenceError
  end.

Definition restoreMetaMaskConnection : M unit :=
  try_catch
    (ethereum <- window_dot_ethereum ;;
     match ethereum with
     | None => clearSavedConnection
     | Some eth =>
         if negb (isMetaMask eth) then clearSavedConnection
         else
           accounts <- request eth "eth_accounts" (eth_accounts eth) ;;
           match accounts with
           | Some (account0 :: _) =>
               let currentAccount := JS.toLowerCase account0 in
               m <- get ;;
               match connection m with
               | Some c =>
                   if String.eqb currentAccount (JS.toLowerCase (address c))
                   then
                     try_catch
                       (let provider0 := BrowserProvider Injected in
                        signer0 <- await (provider_getSigner provider0) ;;
                        balanceInEther <-
                          await (provider_getBalance provider0 currentAccount) ;;
                        let restoredConnection :=
                          {| type := type c;
                             accountId := accountId c;
                             address := address c;
                             signer := Some signer0;
                             provider := Some provider0;
                             balance := Some balanceInEther;
                             network := network c;
                             chainId := chainId c |} in
                        modify (set_connection (Some restoredConnection)) ;;;
                        saveConnection ;;;
                        emit (connected (Some restoredConnection)) ;;;
                        setupMetaMaskListeners)
                       (fun _ => clearSavedConnection)
                   else clearSavedConnection
               | None => clearSavedConnection
               end
           | _ => clearSavedConnection
           end
     end)
    (fun _ => ret tt).

(** The body of [try] in [loadSavedConnection], once [JSON.parse] has
    returned [j].  [None]: [j] is neither [null] nor of the shape of a
    [WalletConnection] (see [connection_of_json]). *)
Definition adopt_parsed (j : json) : option (M unit) :=
  match j with
  | JNull => Some (modify (set_connection None))
  | _ =>
      match connection_of_json j with
      | Some c =>
          Some (modify (set_connection (Some c)) ;;;
                match type c with
                | METAMASK =>
                    modify (fun m => set_restore_timers (S (restore_timers m)) m)
                | HASHPACK => detached restoreHashPackConnection
                | WALLETCONNECT => ret tt
                end)
      | None => None
      end
  end.

(** [loadSavedConnection()].  The answer is [None] where the stored text
    parses to a value outside the embedding. *)
Definition loadSavedConnection (m : Manager) : option (outcome unit * Manager) :=
  match localStorage m with
  | None => Some (Ok tt, m)
  | Some ls =>
      match ls !! KEY with
      | None => Some (Ok tt, m)
      | Some saved =>
          if JS.truthy saved then
            match JSON_parse saved with
            | None => Some (try_catch (throw SyntaxError)
                                      (fun _ => clearSavedConnection) m)
            | Some j =>
                match adopt_parsed j with
                | Some body =>
                    Some (try_catch body (fun _ => clearSavedConnection) m)
                | None => None
                end
            end
          else Some (Ok tt, m)
      end
  end.

(** [new WalletConnector()]: with a [window], [initializeHederaClient]
    creates the client and [loadSavedConnection] runs. *)
Definition new_WalletConnector (ls : option (gmap string string))
  : option Manager :=
  match ls with
  | Some _ =>
      match loadSavedConnection (set_hederaClient true (fresh ls)) with
      | Some r => Some (final r)
      | None => None
      end
  | None => Some (fresh ls)
  end.

(** The timer set by [loadSavedConnection] fires. *)
Definition fire_restore_timer : M unit :=
  m <- get ;;
  match restore_timers m with
  | S n => modify (set_restore_timers n) ;;; detached restoreMetaMaskConnection
  | O => ret tt
  end.

(** ** Handlers registered on the backends *)

(** [ethereum.on('accountsChanged', ...)] *)
Definition on_ethereum_accountsChanged (accountArray : list string) : M unit :=
  emit (accountsChanged accountArray) ;;;
  match accountArray with
  | [] => detached disconnect
  | account0 :: _ => detached (updateConnection account0)
  end.

(** [ethereum.on('chainChanged', ...)] *)
Definition on_ethereum_chainChanged (chainIdStr : string) : M unit :=
  emit (chainChanged chainIdStr) ;;;
  let expectedChainId := expected_chain_id in
  if negb (String.eqb (JS.toString (JS.parseInt chainIdStr (Some 16)))
                      expectedChainId)
  then emit (networkMismatch chainIdStr expectedChainId)
  else ret tt.

(** [walletConnectProvider.on('accountsChanged', ...)] *)
Definition on_relay_accountsChanged (accounts : list string) : M unit :=
  emit (accountsChanged accounts) ;;;
  match accounts with
  | [] => detached disconnect
  | account0 :: _ => detached (updateConnection account0)
  end.

(** [walletConnectProvider.on('chainChanged', ...)] *)
Definition on_relay_chainChanged (chain : string) : M unit :=
  emit (chainChanged chain).

(** [walletConnectProvider.on('disconnect', ...)] *)
Definition on_relay_disconnect : M unit :=
  detached disconnect.

(** ** Signing and transactions *)

Variable signing : Signing.

Definition signer_signMessage (h : handle) (text : string) : outcome string :=
  match h with
  | Live via _ => ethers_signMessage signing via text
  | Plain _ => Throw TypeError
  end.

Definition signer_sendTransaction (h : handle) (transaction : json)
  : outcome json :=
  match h with
  | Live via _ => ethers_sendTransaction signing via transaction
  | Plain _ => Throw TypeError
  end.

(** [signMessage(message)] *)
Definition signMessage (text : string) : M string :=
  m <- get ;;
  match connection m with
  | None => throw (Error "No wallet connected")
  | Some c =>
      try_catch
        (match type c with
         | HASHPACK =>
             if hederaWalletConnectProvider m
             then try_catch
                    (await (hashpack_sign signing (accountId c) text))
                    (fun _ => throw (Error "Failed to sign message with HashPack"))
             else throw (Error "HashPack WalletConnect provider not available")
         | _ =>
             match signer c with
             | Some h =>
                 if handle_truthy h
                 then await (signer_signMessage h text)
                 else throw (Error "No signer available for message signing")
             | None => throw (Error "No signer available for message signing")
             end
         end)
        (fun error => throw error)
  end.

(** [sendTransaction(transaction)] *)
Definition sendTransaction (transaction : json) : M string :=
  m <- get ;;
  match connection m with
  | None => throw (Error "No wallet connected")
  | Some c =>
      try_catch
        (match type c with
         | HASHPACK =>
             if hederaWalletConnectProvider m
             then try_catch
                    (signedTransaction <-
                       await (hashpack_signTransaction signing (accountId c)
                                transaction) ;;
                     if hederaClient m
                     then await (hedera_execute signing signedTransaction)
                     else throw (Error "Hedera client not available"))
                    (fun _ => throw (Error "Failed to send transaction with HashPack"))
             else throw (Error "HashPack WalletConnect provider not available")
         | _ =>
             match signer c with
             | Some h =>
                 if handle_truthy h
                 then
                   tx <- await (signer_sendTransaction h transaction) ;;
                   receipt <- await (ethers_wait signing tx) ;;
                   match receipt with
                   | Some hash => ret hash
                   | None => throw (Error "Transaction receipt is null")
                   end
                 else throw (Error "No signer available for transaction signing")
             | None => throw (Error "No signer available for transaction signing")
             end
         end)
        (fun error => throw error)
  end.

(** ** Network and available wallets *)

(** [getNetworkInfo()] *)
Definition getNetworkInfo : option NetworkConfig :=
  HEDERA_NETWORKS hedera_network.

(** [WalletConnector.isMetaMaskInstalled()] *)
Definition isMetaMaskInstalled (m : Manager) : bool :=
  match injected m with
  | Some eth => isMetaMask eth
  | None => false
  end.

(** [WalletConnector.isMetaMaskAvailable()]; reading a property of a
    missing provider would throw inside the inner [try], whose [catch]
    answers [true]. *)
Definition isMetaMaskAvailable (m : Manager) : bool :=
  if negb (isMetaMaskInstalled m) then false
  else match injected m with
       | Some eth => isMetaMask eth && request_is_function eth
       | None => true
       end.

(** [WalletConnector.getAvailableWallets()] *)
Definition getAvailableWallets (m : Manager) : list WalletType :=
  (if isHashPackInstalled m then [HASHPACK] else [])
  ++ (if isMetaMaskAvailable m then [METAMASK] else [])
  ++ [WALLETCONNECT].

(** ** The authentication hook's use of the connector *)

(** [localStorage.getItem(`user_${accountId}`)] and, for a non-empty
    text, [JSON.parse]. *)
Definition read_profile (m : Manager) (accountId0 : string)
  : outcome (option json) :=
  match localStorage m with
  | None => Throw ReferenceError
  | Some ls =>
      match ls !! user_key accountId0 with
      | Some existingUser =>
          if JS.truthy existingUser
          then match JSON_parse existingUser with
               | Some userProfile => Ok (Some userProfile)
               | None => Throw SyntaxError
               end
          else Ok None
      | None => Ok None
      end
  end.

(** [walletConnector.resetConnectionState()] called from the hook: the
    [disconnected] event reaches the hook's own handler. *)
Definition auth_reset (a : AuthState) (m : Manager) : AuthState * Manager :=
  (auth_on_disconnected a, final (resetConnectionState m)).

(** [restoreConnection()] of the hook: its answer, the state of the hook
    and the manager afterwards. *)
Definition restoreConnection (a : AuthState) (m : Manager)
  : bool * (AuthState * Manager) :=
  match connection m with
  | None => (false, (a, m))
  | Some currentConnection =>
      match canRestoreConnection m with
      | (Ok true, m1) =>
          match checkConnectionHealth m1 with
          | (Ok true, m2) =>
              let a1 := auth_mark_connected currentConnection a in
              match read_profile m2 (accountId currentConnection) with
              | Ok (Some userProfile) =>
                  (true, (auth_setUser userProfile a1, m2))
              | Ok None => (true, (a1, m2))
              | Throw _ => (false, (a1, m2))
              end
          | (_, m2) => (false, (a, m2))
          end
      | (_, m1) => (false, (a, m1))
      end
  end.

(** [checkExistingSession()] of the hook, run on mount. *)
Definition checkExistingSession (a : AuthState) (m : Manager)
  : AuthState * Manager :=
  let '(a', m') :=
    match connection m with
    | None => (a, m)
    | Some currentConnection =>
        match canRestoreConnection m with
        | (Ok true, m1) =>
            match checkConnectionHealth m1 with
            | (Ok true, m2) =>
                let a1 := auth_mark_connected currentConnection a in
                match read_profile m2 (accountId currentConnection) with
                | Ok (Some userProfile) => (auth_setUser userProfile a1, m2)
                | Ok None => (a1, m2)
                | Throw _ => auth_reset a1 m2
                end
            | (Ok false, m2) => auth_reset a m2
            | (Throw _, m2) => auth_reset a m2
            end
        | (Ok false, m1) => (a, m1)
        | (Throw _, m1) => auth_reset a m1
        end
    end in
  (auth_setIsLoading false a', m').

(** ** The methods with their listeners *)

(** [emit] with the registered listeners: the event is recorded, then
    dispatched to the callbacks registered for it (see [EventBus.emit]).
    [listeners e m] is what that dispatch does in the state [m], as far
    as the connector is concerned: it returns, or a callback throws and
    the error reaches the caller of [emit].  The callbacks may read the
    state and the storage; callbacks that call back into the connector
    or write the connector's storage key are not covered. *)
Definition emit_to (listeners : Event -> Manager -> outcome unit)
    (e : Event) : M unit :=
  emit e ;;; m <- get ;; await (listeners e m).

(** The listeners that [initializeWalletListeners] of the authentication
    hook registers, as far as they can throw: the one of [connected]
    reads [connection.accountId] and parses the stored profile of that
    account; the others only set the state of the hook. *)
Definition auth_listeners (e : Event) (m : Manager) : outcome unit :=
  match e with
  | connected (Some c) =>
      match read_profile m (accountId c) with
      | Ok _ => Ok tt
      | Throw error => Throw error
      end
  | connected None => Throw TypeError
  | _ => Ok tt
  end.

(** The methods below are the ones above, with [this.emit] as a
    parameter [emit0]. *)

Definition resetConnectionState_via (emit0 : Event -> M unit) : M unit :=
  modify (set_connection None) ;;;
  modify (set_walletConnectProvider None) ;;;
  modify (set_hashPackConnector false) ;;;
  modify (set_hederaWalletConnectProvider false) ;;;
  clearSavedConnection ;;;
  emit0 (disconnected None).

Definition connectHashPackWalletConnect_via (emit0 : Event -> M unit)
  : M WalletConnection :=
  try_catch
    (m <- get ;;
     (if hashPackConnector m then ret tt
      else modify (set_hashPackConnector true)) ;;;
     await (hashpack_init w) ;;;
     await (hashpack_connectExtension w) ;;;
     match hashpack_signers w with
     | [] => throw (Error "No signers available after connection")
     | signer0 :: _ =>
         let accountId0 := AccountId_toString signer0 in
         modify (set_hederaWalletConnectProvider true) ;;;
         m <- get ;;
         balance0 <-
           try_catch
             (if hederaClient m
              then await (hedera_balance w accountId0)
              else ret "0")
             (fun _ => ret "0") ;;
         let connection0 :=
           {| type := HASHPACK;
              accountId := accountId0;
              address := accountId0;
              signer := None;
              provider := None;
              balance := Some balance0;
              network := Some hedera_network;
              chainId :=
                option_map (fun n => JS.Num (net_chainId n))
                           (HEDERA_NETWORKS hedera_network) |} in
         modify (set_connection (Some connection0)) ;;;
         saveConnection ;;;
         emit0 (connected (Some connection0)) ;;;
         ret connection0
     end)
    (fun error => throw error).

Definition connectHashPack_via (emit0 : Event -> M unit)
  : M WalletConnection :=
  try_catch (connectHashPackWalletConnect_via emit0) (fun error => throw error).

Definition metamask_catch_via (emit0 : Event -> M unit)
    (error : JsError) : M WalletConnection :=
  (if instanceof_Error error then
     if JS.includes (message error) "rejected"
     then throw (Error "MetaMask connection was rejected. Please approve the connection request.")
     else if JS.includes (message error) "timeout"
     then throw (Error "MetaMask connection timeout. Please try again.")
     else if JS.includes (message error) "No accounts found"
     then throw (Error "No accounts found in MetaMask. Please add an account and try again.")
     else if JS.includes (message error) "not responsive"
     then throw (Error "MetaMask is not responding. Please check if MetaMask is unlocked and try again.")
     else if JS.includes (message error) "environment"
     then throw (Error "Configuration issue detected. Please check your environment variables.")
     else ret tt
   else ret tt) ;;;
  (if instanceof_Error error && JS.includes (message error) "timeout"
   then (resetConnectionState_via emit0)
   else ret tt) ;;;
  (if env_missing (NEXT_PUBLIC_METAMASK_CHAIN_ID w)
      || env_missing (NEXT_PUBLIC_HEDERA_NETWORK w)
   then throw (Error "Configuration error: Missing required environment variables. Please check your .env.local file.")
   else ret tt) ;;;
  throw error.

Definition connectMetaMask_via (emit0 : Event -> M unit)
  : M WalletConnection :=
  try_catch
    (ethereum <- this_ethereum ;;
     match ethereum with
     | None => throw (Error "MetaMask is not installed. Please install MetaMask extension.")
     | Some eth =>
         if negb (isMetaMask eth)
         then throw (Error "MetaMask is not installed. Please install MetaMask extension.")
         else
           metamask_probe eth ;;;
           accounts <- race_requestAccounts eth ;;
           match accounts with
           | None | Some [] =>
               throw (Error "No accounts found. Please make sure you have accounts in MetaMask.")
           | Some (account :: _) =>
               chain <- request eth "eth_chainId" (eth_chainId eth) ;;
               let expectedChainId := expected_chain_id in
               let expectedChainIdHex :=
                 "0x" +:+ JS.toString16 (JS.parseInt expectedChainId None) in
               (if wrong_chain chain expectedChainIdHex
                then switch_network eth
                else ret tt) ;;;
               let provider0 := BrowserProvider Injected in
               signer0 <- await (provider_getSigner provider0) ;;
               balanceInEther <- await (provider_getBalance provider0 account) ;;
               let connection0 :=
                 {| type := METAMASK;
                    accountId := account;
                    address := account;
                    signer := Some signer0;
                    provider := Some provider0;
                    balance := Some balanceInEther;
                    network := Some hedera_network;
                    chainId := Some (JS.parseInt expectedChainId None) |} in
               modify (set_connection (Some connection0)) ;;;
               saveConnection ;;;
               emit0 (connected (Some connection0)) ;;;
               setupMetaMaskListeners ;;;
               ret connection0
           end
     end)
    (metamask_catch_via emit0).

Definition connectWalletConnect_via (emit0 : Event -> M unit)
  : M WalletConnection :=
  try_catch
    ((if env_missing (NEXT_PUBLIC_WALLETCONNECT_PROJECT_ID w)
      then throw (Error "WalletConnect Project ID is missing. Please check your environment variables.")
      else ret tt) ;;;
     m <- get ;;
     (match walletConnectProvider m with
      | Some _ => ret tt
      | None =>
          p <- await (EthereumProvider_init w) ;;
          modify (set_walletConnectProvider (Some p))
      end) ;;;
     m <- get ;;
     (match walletConnectProvider m with
      | Some p =>
          if has_connect p then ret tt
          else throw (Error "WalletConnect provider not properly initialized")
      | None => throw (Error "WalletConnect provider not properly initialized")
      end) ;;;
     await (relay_connect w) ;;;
     m <- get ;;
     (match walletConnectProvider m with
      | Some p =>
          if has_request p then ret tt
          else throw (Error "WalletConnect provider request method not available")
      | None => throw (Error "WalletConnect provider request method not available")
      end) ;;;
     accounts <- await (relay_eth_accounts w) ;;
     match accounts with
     | None => throw TypeError
     | Some [] => throw (Error "No accounts found")
     | Some (account :: _) =>
         if negb (JS.truthy account) then throw (Error "No accounts found")
         else
           let provider0 := BrowserProvider Relay in
           signer0 <- await (provider_getSigner provider0) ;;
           balanceInEther <- await (provider_getBalance provider0 account) ;;
           let connection0 :=
             {| type := WALLETCONNECT;
                accountId := account;
                address := account;
                signer := Some signer0;
                provider := Some provider0;
                balance := Some balanceInEther;
                network := Some hedera_network;
                chainId := Some (JS.parseInt expected_chain_id None) |} in
           modify (set_connection (Some connection0)) ;;;
           saveConnection ;;;
           emit0 (connected (Some connection0)) ;;;
           setupWalletConnectListeners ;;;
           ret connection0
     end)
    (fun error => throw error).

Definition connect_via (emit0 : Event -> M unit)
    (walletType : WalletType) : M WalletConnection :=
  try_catch
    (match walletType with
     | HASHPACK => connectHashPack_via emit0
     | METAMASK => connectMetaMask_via emit0
     | WALLETCONNECT => connectWalletConnect_via emit0
     end)
    (fun error => throw error).

Definition restoreMetaMaskConnection_via (emit0 : Event -> M unit) : M unit :=
  try_catch
    (ethereum <- window_dot_ethereum ;;
     match ethereum with
     | None => clearSavedConnection
     | Some eth =>
         if negb (isMetaMask eth) then clearSavedConnection
         else
           accounts <- request eth "eth_accounts" (eth_accounts eth) ;;
           match accounts with
           | Some (account0 :: _) =>
               let currentAccount := JS.toLowerCase account0 in
               m <- get ;;
               match connection m with
               | Some c =>
                   if String.eqb currentAccount (JS.toLowerCase (address c))
                   then
                     try_catch
                       (let provider0 := BrowserProvider Injected in
                        signer0 <- await (provider_getSigner provider0) ;;
                        balanceInEther <-
                          await (provider_getBalance provider0 currentAccount) ;;
                        let restoredConnection :=
                          {| type := type c;
                             accountId := accountId c;
                             address := address c;
                             signer := Some signer0;
                             provider := Some provider0;
                             balance := Some balanceInEther;
                             network := network c;
                             chainId := chainId c |} in
                        modify (set_connection (Some restoredConnection)) ;;;
                        saveConnection ;;;
                        emit0 (connected (Some restoredConnection)) ;;;
                        setupMetaMaskListeners)
                       (fun _ => clearSavedConnection)
                   else clearSavedConnection
               | None => clearSavedConnection
               end
           | _ => clearSavedConnection
           end
     end)
    (fun _ => ret tt).

(** The session [connectHashPack] builds for the first signer. *)
Definition hashpack_session_of (m : Manager) (signer0 : AccountId)
  : WalletConnection :=
  {| type := HASHPACK;
     accountId := AccountId_toString signer0;
     address := AccountId_toString signer0;
     signer := None;
     provider := None;
     balance :=
       Some (match (if hederaClient m
                    then hedera_balance w (AccountId_toString signer0)
                    else Ok "0") with
             | Ok b => b
             | Throw _ => "0"
             end);
     network := Some hedera_network;
     chainId :=
       option_map (fun n => JS.Num (net_chainId n))
                  (HEDERA_NETWORKS hedera_network) |}.

(** ** Delivery of an [accountsChanged] notification without accounts *)

(** Whether [disconnect()] reaches its [await]: the session is a
    WalletConnect one and the relay provider has [disconnect]. *)
Definition awaits_teardown (m : Manager) : bool :=
  match connection m with
  | Some connection0 =>
      match type connection0, walletConnectProvider m with
      | WALLETCONNECT, Some p => has_disconnect p
      | _, _ => false
      end
  | None => false
  end.

(** A [disconnect()] that is not awaited, up to the point where it gives
    control back to its caller: the whole call when it reaches no
    [await]; otherwise the call stops at
    [await this.walletConnectProvider.disconnect()], before anything is
    cleared, and holds the session in its local [connection]. *)
Definition disconnect_start : M (option WalletConnection) :=
  m <- get ;;
  if awaits_teardown m
  then ret (connection m)
  else detached disconnect ;;; ret None.

(** The rest of a suspended [disconnect()], once the relay provider's
    [disconnect()] has settled. *)
Definition disconnect_resume (connection0 : WalletConnection) : M unit :=
  await (relay_disconnect w) ;;;
  modify (set_connection None) ;;;
  clearSavedConnection ;;;
  (match type connection0 with
   | METAMASK => modify (set_walletConnectProvider None)
   | _ => ret tt
   end) ;;;
  emit (disconnected (Some connection0)).

(** One handler of [accountsChanged] called with an empty array, up to
    the point where it returns; [Some c]: its [disconnect()] is
    suspended. *)
Definition handler_start : M (option WalletConnection) :=
  emit (accountsChanged []) ;;; disconnect_start.

(** The [k] registered handlers, called one after the other; the answer
    lists the suspended calls in the order of their start. *)
Fixpoint handlers_start (k : nat) : M (list WalletConnection) :=
  match k with
  | O => ret []
  | S k' =>
      s <- handler_start ;;
      rest <- handlers_start k' ;;
      ret (match s with Some connection0 => connection0 :: rest | None => rest end)
  end.

Fixpoint resume_all (suspended : list WalletConnection) : M unit :=
  match suspended with
  | [] => ret tt
  | connection0 :: rest =>
      detached (disconnect_resume connection0) ;;; resume_all rest
  end.

(** A provider notifies [accountsChanged] with an empty array while [k]
    handlers are registered on it: the handlers run to their return, then
    the suspended [disconnect()] calls go on. *)
Definition notify_accountsChanged_empty (k : nat) : M unit :=
  suspended <- handlers_start k ;; resume_all suspended.

(** The notification from the injected provider and from the relay
    provider, to the handlers the connector has registered there. *)
Definition ethereum_notifies_no_accounts : M unit :=
  m <- get ;; notify_accountsChanged_empty (ethereum_handlers m).


(** ** Predicates of the statements *)

(** The teardown of the backend does not fail: only a relay session
    whose provider has a [disconnect] method awaits one. *)
Definition teardown_succeeds (m : Manager) (c : WalletConnection) : Prop :=
  type c = WALLETCONNECT ->
  forall p, walletConnectProvider m = Some p -> has_disconnect p = true ->
  is_ok (relay_disconnect w) = true.

(** The restore of an injected-provider session goes through: the
    provider answers [eth_accounts] with a first account equal to the
    saved address up to case, and the signer and the balance are
    obtained. *)
Definition restore_goes_through (m : Manager) : Prop :=
  exists eth a rest c si b,
    injected m = Some eth /\ isMetaMask eth = true /\
    request_is_function eth = true /\
    eth_accounts eth = Ok (Some (a :: rest)) /\
    connection m = Some c /\
    JS.toLowerCase a = JS.toLowerCase (address c) /\
    ethers_getSigner (ethers_over w Injected) = Ok si /\
    ethers_getBalance (ethers_over w Injected) (JS.toLowerCase a) = Ok b.

(** An exception reaches the outer [catch] of
    [restoreMetaMaskConnection]: there is no [window], or the provider
    has no [request] function, or the [eth_accounts] request rejects. *)
Definition restore_interrupted (m : Manager) : Prop :=
  localStorage m = None \/
  exists eth,
    injected m = Some eth /\ isMetaMask eth = true /\
    (request_is_function eth = false \/ exists e, eth_accounts eth = Throw e).

(** The ethers provider resolves the address before it queries the
    balance and rejects the empty string. *)
Definition rejects_empty_address : Prop :=
  is_ok (ethers_getBalance (ethers_over w Injected) EmptyString) = false.

(** Two runs of [connect] from managers that differ in the current
    session only: same result; same final manager on success, and final
    managers that differ in the current session only on failure. *)
Definition same_run {A} (r1 r2 : outcome A * Manager) : Prop :=
  match r1, r2 with
  | (Ok a1, m1), (Ok a2, m2) => a1 = a2 /\ m1 = m2
  | (Throw e1, m1), (Throw e2, m2) =>
      e1 = e2 /\ set_connection None m1 = set_connection None m2
  | _, _ => False
  end.

(* =================================================================== *)
(** * Properties *)
(* =================================================================== *)

Ltac run :=
  unfold bind, ret, throw, try_catch, await, get, modify, detached, emit,
    result, final in *; simpl in *.

(** Case analysis on the innermost scrutinee of a run in [H]. *)
Ltac split_match H :=
  repeat match type of H with
         | context [match ?x with _ => _ end] =>
             lazymatch x with
             | context [match _ with _ => _ end] => fail
             | _ => destruct x eqn:?; simpl in H; try discriminate H
             end
         end.

(** Case analysis on the innermost scrutinee of the goal, for a run that
    [expose] has unfolded down to the oracles. *)
Ltac split_goal :=
  repeat match goal with
         | |- context [match ?x with _ => _ end] =>
             lazymatch x with
             | context [match _ with _ => _ end] => fail
             | _ => destruct x eqn:?; cbv beta iota zeta
             end
         end.

Ltac expose :=
  cbv beta iota zeta delta
    [connect connectHashPack connectHashPackWalletConnect connectMetaMask
     connectWalletConnect metamask_catch metamask_probe race_requestAccounts
     switch_network request resetConnectionState clearSavedConnection
     saveConnection setupMetaMaskListeners setupWalletConnectListeners
     this_ethereum injected bind ret throw try_catch await get modify emit
     set_connection set_emitted set_localStorage set_ethereum_requests
     set_ethereum_handlers set_relay_handlers set_walletConnectProvider
     set_hashPackConnector set_hederaWalletConnectProvider
     connection hederaClient walletConnectProvider hashPackConnector
     hederaWalletConnectProvider localStorage emitted ethereum_requests
     ethereum_handlers relay_handlers restore_timers].

(** ** Printing and reading a number *)

Lemma read_digits_acc (d : Decimal.uint) (acc : positive) :
  JS.read_digits 10 (DecimalString.NilEmpty.string_of_uint d) (Some (Z.pos acc))
  = Some (Z.pos (Pos.of_uint_acc d acc)).
Proof.
  revert acc. induction d; intros acc; simpl; try reflexivity.
  all: unfold JS.digit_in, JS.digit_val, JS.code; simpl.
  all: rewrite <- IHd; f_equal; f_equal; lia.
Qed.

Lemma read_digits_zero (d : Decimal.uint) :
  JS.read_digits 10 (DecimalString.NilEmpty.string_of_uint d) (Some 0)
  = Some (Z.of_N (Pos.of_uint d)).
Proof.
  induction d; simpl; try reflexivity.
  all: unfold JS.digit_in, JS.digit_val, JS.code; simpl.
  1: exact IHd.
  all: apply read_digits_acc.
Qed.

Lemma read_digits_start (d : Decimal.uint) :
  d <> Decimal.Nil ->
  JS.read_digits 10 (DecimalString.NilEmpty.string_of_uint d) None
  = Some (Z.of_N (Pos.of_uint d)).
Proof.
  destruct d; intros Hd; try congruence; simpl.
  all: unfold JS.digit_in, JS.digit_val, JS.code; simpl.
  1: apply read_digits_zero.
  all: apply read_digits_acc.
Qed.

Lemma digits_have_no_prefix (d : Decimal.uint) :
  d <> Decimal.Nil ->
  let s := DecimalString.NilEmpty.string_of_uint d in
  JS.skip_spaces s = s /\ JS.strip_sign s = (false, s) /\ JS.strip_0x s = None.
Proof.
  destruct d as [|d|d|d|d|d|d|d|d|d|d]; intros Hd; try congruence.
  all: destruct d; repeat split; reflexivity.
Qed.

Lemma parseInt_digits (d : Decimal.uint) :
  d <> Decimal.Nil ->
  JS.parseInt (DecimalString.NilEmpty.string_of_uint d) None
  = JS.Num (Z.of_N (Pos.of_uint d)).
Proof.
  intros Hd. destruct (digits_have_no_prefix d Hd) as (Hs & Hg & Hx).
  unfold JS.parseInt. rewrite Hs, Hg, Hx. simpl.
  rewrite (read_digits_start d Hd). reflexivity.
Qed.

(** [parseInt(String(n))] is [n]. *)
Lemma parseInt_toString (z : Z) :
  JS.parseInt (JS.toString (JS.Num z)) None = JS.Num z.
Proof.
  destruct z as [|p|p]; [reflexivity| |].
  - unfold JS.toString. simpl.
    pose proof (DecimalPos.Unsigned.to_uint_nonnil p) as Hn.
    replace (DecimalString.NilZero.string_of_uint (Pos.to_uint p))
      with (DecimalString.NilEmpty.string_of_uint (Pos.to_uint p))
      by (unfold DecimalString.NilZero.string_of_uint;
          destruct (Pos.to_uint p); congruence).
    rewrite (parseInt_digits _ Hn), DecimalPos.Unsigned.of_to. reflexivity.
  - unfold JS.toString. simpl.
    pose proof (DecimalPos.Unsigned.to_uint_nonnil p) as Hn.
    replace (DecimalString.NilZero.string_of_uint (Pos.to_uint p))
      with (DecimalString.NilEmpty.string_of_uint (Pos.to_uint p))
      by (unfold DecimalString.NilZero.string_of_uint;
          destruct (Pos.to_uint p); congruence).
    destruct (digits_have_no_prefix _ Hn) as (Hs & Hg & Hx).
    unfold JS.parseInt. simpl. rewrite Hx. simpl.
    rewrite (read_digits_start _ Hn), DecimalPos.Unsigned.of_to. reflexivity.
Qed.

(** ** Disconnect *)

(** C9: when no session is current, [disconnect()] returns without
    throwing and leaves the whole manager as it was: the in-memory
    session, the stored descriptor and the trace of emitted events. *)
Theorem disconnect_when_disconnected (m : Manager) :
  connection m = None ->
  disconnect m = (Ok tt, m).
Proof.
  intros Hnone. unfold disconnect. run. rewrite Hnone. reflexivity.
Qed.

(** ** Balance *)

(** C10: with a session, [getBalance()] always returns a string and
    leaves the manager as it was.  When the backend query that applies
    throws (the Hedera query of a HashPack session, the provider query
    of a session with a provider), the string is "0"; when no query
    applies it is the cached balance, or "0" without one.  Without a
    session it throws. *)
Theorem getBalance_swallows_backend_failure (m : Manager) :
  (connection m = None ->
     getBalance m = (Throw (Error "No wallet connected"), m)) /\
  (forall c, connection m = Some c ->
     exists s, getBalance m = (Ok s, m) /\
       (type c = HASHPACK -> hederaClient m = true ->
          forall e, hedera_balance w (accountId c) = Throw e -> s = "0") /\
       (type c = HASHPACK -> hederaClient m = true ->
          forall b, hedera_balance w (accountId c) = Ok b -> s = b) /\
       (type c <> HASHPACK ->
          forall p e, provider c = Some p -> handle_truthy p = true ->
            provider_getBalance p (address c) = Throw e -> s = "0") /\
       (type c <> HASHPACK ->
          forall p b, provider c = Some p -> handle_truthy p = true ->
            provider_getBalance p (address c) = Ok b -> s = b) /\
       ((type c = HASHPACK /\ hederaClient m = false) \/
        (type c <> HASHPACK /\
         forall p, provider c = Some p -> handle_truthy p = false) ->
          s = JS.or_default (balance c) "0")).
Proof.
  split.
  - intros Hnone. unfold getBalance. run. rewrite Hnone. reflexivity.
  - intros c Hc. unfold getBalance. run. rewrite Hc.
    destruct (type c) eqn:Hty.
    + destruct (hederaClient m) eqn:Hcl.
      * destruct (hedera_balance w (accountId c)) as [b|e] eqn:Hq;
          eexists; (split; [reflexivity|]);
          repeat split; try congruence.
        all: intros [[_ ?]|[? _]]; congruence.
      * eexists; split; [reflexivity|].
        repeat split; try congruence. 
    + destruct (provider c) as [p|] eqn:Hp.
      * destruct (handle_truthy p) eqn:Htr.
        -- destruct (provider_getBalance p (address c)) as [b|e] eqn:Hq;
             eexists; (split; [reflexivity|]);
             repeat split; try congruence.
           all: try (intros _ p' x Hp' _ Hq'; congruence).
           all: intros [[? _]|[_ Hall]]; [congruence|].
           all: specialize (Hall p eq_refl); congruence.
        -- eexists; split; [reflexivity|].
           repeat split; try congruence.
           all: intros _ p' x Hp' Htr' _; congruence.
      * eexists; split; [reflexivity|].
        repeat split; try congruence.
    + destruct (provider c) as [p|] eqn:Hp.
      * destruct (handle_truthy p) eqn:Htr.
        -- destruct (provider_getBalance p (address c)) as [b|e] eqn:Hq;
             eexists; (split; [reflexivity|]);
             repeat split; try congruence.
           all: try (intros _ p' x Hp' _ Hq'; congruence).
           all: intros [[? _]|[_ Hall]]; [congruence|].
           all: specialize (Hall p eq_refl); congruence.
        -- eexists; split; [reflexivity|].
           repeat split; try congruence.
           all: intros _ p' x Hp' Htr' _; congruence.
      * eexists; split; [reflexivity|].
        repeat split; try congruence.
Qed.

(** ** Silent restore check *)

(** What [canRestoreConnection] does, in terms of the [address] field
    it reads. *)
Lemma canRestoreConnection_run (m : Manager) :
  exists b l,
    canRestoreConnection m
    = (Ok b, set_ethereum_requests (ethereum_requests m ++ l) m) /\
    (l = [] \/ l = ["eth_accounts"]) /\
    (b = true <->
     exists c eth a rest,
       connection m = Some c /\ type c = METAMASK /\
       injected m = Some eth /\ isMetaMask eth = true /\
       request_is_function eth = true /\
       eth_accounts eth = Ok (Some (a :: rest)) /\
       JS.toLowerCase a = JS.toLowerCase (address c)).
Proof.
  assert (Hid : set_ethereum_requests (ethereum_requests m ++ []) m = m).
  { rewrite app_nil_r. destruct m; reflexivity. }
  unfold canRestoreConnection, this_ethereum, request. run.
  destruct (connection m) as [c|] eqn:Hc.
  2:{ exists false, []. rewrite Hid. split; [reflexivity|]. split; [now left|].
      split; [discriminate|]. intros (c & ? & ? & ? & ? & _); discriminate. }
  destruct (type c) eqn:Hty.
  1,3: exists false, []; rewrite Hid; (split; [reflexivity|]); (split; [now left|]);
       (split; [discriminate|]);
       intros (c' & ? & ? & ? & Hc' & Hty' & _); congruence.
  destruct (injected m) as [eth|] eqn:Hinj.
  2:{ exists false, []. rewrite Hid. split; [reflexivity|]. split; [now left|].
      split; [discriminate|].
      intros (c' & ? & ? & ? & _ & _ & ? & _); discriminate. }
  destruct (isMetaMask eth) eqn:Hmm; simpl.
  2:{ exists false, []. rewrite Hid. split; [reflexivity|]. split; [now left|].
      split; [discriminate|].
      intros (c' & eth' & ? & ? & _ & _ & He & Hm' & _); congruence. }
  destruct (request_is_function eth) eqn:Hrf; simpl.
  2:{ exists false, []. rewrite Hid. split; [reflexivity|]. split; [now left|].
      split; [discriminate|].
      intros (c' & eth' & ? & ? & _ & _ & He & _ & Hr' & _); congruence. }
  destruct (eth_accounts eth) as [[[|a rest]|]|e] eqn:Hacc.
  all: try (exists false, ["eth_accounts"]; (split; [reflexivity|]);
            (split; [now right|]); (split; [discriminate|]);
            intros (c' & eth' & ? & ? & _ & _ & He & _ & _ & Ha & _);
            congruence).
  exists (String.eqb (JS.toLowerCase a) (JS.toLowerCase (address c))),
         ["eth_accounts"].
  split; [reflexivity|]. split; [now right|].
  rewrite String.eqb_eq. split.
  - intros Heq. exists c, eth, a, rest. repeat split; assumption.
  - intros (c' & eth' & a' & rest' & Hc' & _ & He & _ & _ & Ha & Hl).
    congruence.
Qed.

(** C6: for a session whose [address] is its [accountId] (every session
    this connector builds for the injected provider), the check answers
    [true] exactly when the session is of the injected kind, the
    injected provider is present and answers [eth_accounts] with a
    non-empty list, and the first account equals the saved account
    identifier up to the case of letters.  It never throws, requests
    nothing but [eth_accounts] (so opens no prompt) and changes nothing
    else of the manager. *)
Theorem canRestoreConnection_true_iff (m : Manager) :
  (forall c, connection m = Some c -> address c = accountId c) ->
  exists b l,
    canRestoreConnection m
    = (Ok b, set_ethereum_requests (ethereum_requests m ++ l) m) /\
    (l = [] \/ l = ["eth_accounts"]) /\
    (b = true <->
     exists c eth a rest,
       connection m = Some c /\ type c = METAMASK /\
       injected m = Some eth /\ isMetaMask eth = true /\
       request_is_function eth = true /\
       eth_accounts eth = Ok (Some (a :: rest)) /\
       JS.toLowerCase a = JS.toLowerCase (accountId c)).
Proof.
  intros Hinv.
  destruct (canRestoreConnection_run m) as (b & l & Hrun & Hl & Hb).
  exists b, l. split; [exact Hrun|]. split; [exact Hl|].
  rewrite Hb. split.
  - intros (c & eth & a & rest & Hc & Hty & Hi & Hm & Hr & Ha & Hlow).
    exists c, eth, a, rest. rewrite <- (Hinv c Hc). repeat split; assumption.
  - intros (c & eth & a & rest & Hc & Hty & Hi & Hm & Hr & Ha & Hlow).
    exists c, eth, a, rest. rewrite (Hinv c Hc). repeat split; assumption.
Qed.

(** ** Storage *)

Lemma persisted_cleared (m : Manager) :
  persisted (final (clearSavedConnection m)) = None.
Proof.
  unfold clearSavedConnection, persisted. run.
  destruct (localStorage m) as [ls|] eqn:Hls; simpl.
  - apply lookup_delete_eq.
  - rewrite Hls. reflexivity.
Qed.

(** ** Implicit disconnect *)

Lemma disconnect_run (m : Manager) (c : WalletConnection) :
  connection m = Some c ->
  teardown_succeeds m c ->
  exists m',
    disconnect m = (Ok tt, m') /\
    connection m' = None /\
    persisted m' = None /\
    emitted m' = emitted m ++ [disconnected (Some c)].
Proof.
  intros Hc Htd. unfold teardown_succeeds in Htd.
  unfold disconnect, this_ethereum, clearSavedConnection, persisted. run.
  rewrite Hc.
  destruct (type c) eqn:Hty.
  - destruct (localStorage m) as [ls|] eqn:Hls; simpl;
      eexists; (split; [reflexivity|]); simpl; rewrite ?Hls;
      repeat split; trivial; apply lookup_delete_eq.
  - destruct (injected m) as [eth|] eqn:Hinj; simpl;
      destruct (localStorage m) as [ls|] eqn:Hls; simpl;
      eexists; (split; [reflexivity|]); simpl; rewrite ?Hls;
      repeat split; trivial; apply lookup_delete_eq.
  - assert (Hok : forall p, walletConnectProvider m = Some p ->
                    has_disconnect p = true ->
                    exists u, relay_disconnect w = Ok u).
    { intros p Hp Hd. specialize (Htd eq_refl p Hp Hd).
      destruct (relay_disconnect w) as [u|e]; [eauto|discriminate]. }
    destruct (walletConnectProvider m) as [p|] eqn:Hp; simpl.
    + destruct (has_disconnect p) eqn:Hd; simpl.
      * destruct (Hok p eq_refl Hd) as [u Hu]. rewrite Hu. simpl.
        destruct (localStorage m) as [ls|] eqn:Hls; simpl;
          eexists; (split; [reflexivity|]); simpl; rewrite ?Hls;
          repeat split; trivial; apply lookup_delete_eq.
      * destruct (localStorage m) as [ls|] eqn:Hls; simpl;
          eexists; (split; [reflexivity|]); simpl; rewrite ?Hls;
          repeat split; trivial; apply lookup_delete_eq.
    + destruct (localStorage m) as [ls|] eqn:Hls; simpl;
        eexists; (split; [reflexivity|]); simpl; rewrite ?Hls;
        repeat split; trivial; apply lookup_delete_eq.
Qed.

(** A lone [disconnect()] is its start followed by its rest. *)
Lemma disconnect_in_two_steps (m : Manager) :
  disconnect m
  = (s <- disconnect_start ;;
     match s with
     | Some connection0 => disconnect_resume connection0
     | None => ret tt
     end) m.
Proof.
  destruct m as [conn hc wcp hpc hwp ls em rq eh rh rt].
  unfold disconnect_start, disconnect_resume, awaits_teardown, disconnect,
    detached, clearSavedConnection, this_ethereum, injected.
  run.
  destruct conn as [c|]; [|reflexivity].
  destruct (type c) eqn:Hty; simpl; rewrite ?Hty.
  - destruct ls; reflexivity.
  - destruct ls; [destruct (window_ethereum w)|]; reflexivity.
  - destruct wcp as [p|]; simpl; rewrite ?Hty.
    + destruct (has_disconnect p) eqn:Hd; simpl; rewrite ?Hd, ?Hty; simpl.
      * destruct (relay_disconnect w) as [[]|e]; simpl;
          [destruct ls|]; reflexivity.
      * destruct ls; reflexivity.
    + destruct ls; reflexivity.
Qed.

(** With a single handler registered, the delivery ends where the
    handler run as one piece ends. *)
Lemma notify_single_handler (m : Manager) :
  final (notify_accountsChanged_empty 1 m)
  = final (on_relay_accountsChanged [] m).
Proof.
  unfold final, notify_accountsChanged_empty, on_relay_accountsChanged,
    handlers_start, handler_start, detached, emit, modify, bind, ret.
  cbn [snd fst].
  generalize (set_emitted (emitted m ++ [accountsChanged []]) m).
  intros m1. rewrite (disconnect_in_two_steps m1).
  unfold disconnect_start. unfold bind, detached, get, ret. cbv beta iota.
  destruct (awaits_teardown m1) eqn:Ha; cbv beta iota.
  - destruct (connection m1) as [c|] eqn:Hc; cbv beta iota.
    + cbn [resume_all]. unfold bind, detached, ret. cbv beta iota.
      destruct (disconnect_resume c m1) as [[[]|e] m2]; reflexivity.
    + unfold awaits_teardown in Ha. rewrite Hc in Ha. discriminate Ha.
  - cbn [snd resume_all]. unfold ret. reflexivity.
Qed.









(** ** Chain change *)

(** The relay handler forwards the chain and compares nothing. *)
Lemma on_relay_chainChanged_run (m : Manager) (chain : string) :
  on_relay_chainChanged chain m
  = (Ok tt, set_emitted (emitted m ++ [chainChanged chain]) m).
Proof. reflexivity. Qed.

(** The handler on the injected provider: a chain that does not print as
    the expected chain id gives [chainChanged] and then
    [networkMismatch] with both values; the session is not touched. *)
Lemma on_ethereum_chainChanged_mismatch (m : Manager) (chain : string) :
  JS.toString (JS.parseInt chain (Some 16)) <> expected_chain_id ->
  on_ethereum_chainChanged chain m
  = (Ok tt,
     set_emitted (emitted m ++ [chainChanged chain;
                                networkMismatch chain expected_chain_id]) m).
Proof.
  intros Hne. unfold on_ethereum_chainChanged. run.
  apply String.eqb_neq in Hne. rewrite Hne. run.
  unfold set_emitted. simpl. rewrite <- app_assoc. reflexivity.
Qed.

Lemma on_ethereum_chainChanged_match (m : Manager) (chain : string) :
  JS.toString (JS.parseInt chain (Some 16)) = expected_chain_id ->
  on_ethereum_chainChanged chain m
  = (Ok tt, set_emitted (emitted m ++ [chainChanged chain]) m).
Proof.
  intros Heq. unfold on_ethereum_chainChanged. run.
  apply String.eqb_eq in Heq. rewrite Heq. reflexivity.
Qed.

(** X18: read as numbers, a reported chain (hexadecimal) in the range
    of safe integers that differs from the expected chain id (decimal)
    is a mismatch: the handler on the injected provider emits
    [chainChanged] and then [networkMismatch] with both texts, and leaves
    the session as it is.  Beyond that range [parseInt] rounds and the
    statement is not made. *)
Lemma on_ethereum_chainChanged_numeric (m : Manager) (chain : string) (n n' : Z) :
  JS.parseInt chain (Some 16) = JS.Num n ->
  JS.isSafeInteger n = true ->
  JS.parseInt expected_chain_id None = JS.Num n' ->
  n <> n' ->
  on_ethereum_chainChanged chain m
  = (Ok tt,
     set_emitted (emitted m ++ [chainChanged chain;
                                networkMismatch chain expected_chain_id]) m).
Proof.
  intros Hc _ He Hne. apply on_ethereum_chainChanged_mismatch.
  intros Heq. rewrite Hc in Heq. rewrite <- Heq in He.
  rewrite parseInt_toString in He. injection He as He. congruence.
Qed.

(** ** Corrupted stored state *)

(** C8 (amended): a stored text that is not empty and that [JSON.parse]
    rejects makes [loadSavedConnection] return normally, with the key
    removed from storage and nothing else of the manager changed (in
    particular no session is adopted). *)
Theorem loadSavedConnection_corrupted
    (m : Manager) (ls : gmap string string) (saved : string) :
  localStorage m = Some ls ->
  ls !! KEY = Some saved ->
  saved <> EmptyString ->
  JSON_parse saved = None ->
  loadSavedConnection m
  = Some (Ok tt, set_localStorage (Some (delete KEY ls)) m) /\
  persisted (set_localStorage (Some (delete KEY ls)) m) = None /\
  connection (set_localStorage (Some (delete KEY ls)) m) = connection m.
Proof.
  intros Hls Hk Hne Hparse. split; [|split].
  - unfold loadSavedConnection. rewrite Hls, Hk.
    assert (Htr : JS.truthy saved = true).
    { unfold JS.truthy. apply negb_true_iff, String.eqb_neq. exact Hne. }
    rewrite Htr, Hparse. unfold clearSavedConnection. run.
    rewrite Hls. reflexivity.
  - unfold persisted. simpl. apply lookup_delete_eq.
  - reflexivity.
Qed.

(** ** Save and load *)

Lemma WalletType_of_value_value (t : WalletType) :
  WalletType_of_value (WalletType_value t) = Some t.
Proof. destruct t; reflexivity. Qed.

(** Reading back the value that [JSON.stringify] saw gives the
    descriptor with plain data for its handles. *)
Lemma connection_of_json_of_connection (c : WalletConnection) :
  chainId c <> Some JS.NaN ->
  connection_of_json (json_of_connection c) = Some (plain_connection c).
Proof.
  destruct c as [t a ad sg pv b n ch]. simpl. intros Hch.
  unfold connection_of_json, json_of_connection, plain_connection. simpl.
  rewrite WalletType_of_value_value.
  destruct sg as [sg|], pv as [pv|], b as [b|], n as [n|],
           ch as [[|z]|]; try congruence; reflexivity.
Qed.

Lemma has_key_signer (c : WalletConnection) :
  has_key "signer" (json_of_connection c)
  = match signer c with Some _ => true | None => false end.
Proof.
  destruct c as [t a ad sg pv b n ch]. simpl.
  destruct sg as [sg|], pv as [pv|], b as [b|], n as [n|], ch as [ch|];
    reflexivity.
Qed.

Lemma saveConnection_run (m : Manager) (ls : gmap string string)
    (c : WalletConnection) :
  localStorage m = Some ls ->
  connection m = Some c ->
  saveConnection m
  = (Ok tt,
     set_localStorage
       (Some (<[KEY := JSON_stringify (json_of_connection c)]> ls)) m).
Proof.
  intros Hls Hc. unfold saveConnection. run. rewrite Hc, Hls. reflexivity.
Qed.

(** Loading a stored text that parses to the value of a descriptor. *)
Lemma loadSavedConnection_adopts (m : Manager) (ls : gmap string string)
    (txt : string) (c : WalletConnection) :
  localStorage m = Some ls ->
  ls !! KEY = Some txt ->
  txt <> EmptyString ->
  JSON_parse txt = Some (json_of_connection c) ->
  chainId c <> Some JS.NaN ->
  exists m2,
    loadSavedConnection m = Some (Ok tt, m2) /\
    connection m2 = Some (plain_connection c) /\
    localStorage m2 = Some ls.
Proof.
  intros Hls Hk Hne Hparse Hch.
  unfold loadSavedConnection. rewrite Hls, Hk.
  assert (Htr : JS.truthy txt = true).
  { unfold JS.truthy. apply negb_true_iff, String.eqb_neq. exact Hne. }
  rewrite Htr, Hparse.
  unfold adopt_parsed.
  rewrite (connection_of_json_of_connection c Hch).
  unfold json_of_connection at 1.
  unfold restoreHashPackConnection, isHashPackInstalled. run.
  destruct (type c); simpl; rewrite ?Hls; eexists; repeat split; simpl;
    try reflexivity; exact Hls.
Qed.

(** C3 (amended): saving a descriptor and loading it, on a host whose
    JSON functions round-trip the saved value, restores the descriptor
    with the same [type], [accountId], [address], [balance], [network]
    and [chainId] (a chain id that is a number), both in the same manager
    and in the manager a reload of the page constructs.  The [signer] and
    [provider] are not stripped: the stored value has a [signer] member
    exactly when the session has a signer, and the loaded descriptor
    carries it as plain data, never as a live handle. *)
Theorem save_then_load (m : Manager) (ls : gmap string string)
    (c : WalletConnection) :
  localStorage m = Some ls ->
  connection m = Some c ->
  chainId c <> Some JS.NaN ->
  JSON_stringify (json_of_connection c) <> EmptyString ->
  JSON_parse (JSON_stringify (json_of_connection c))
  = Some (json_of_connection c) ->
  exists m1 m2 m3 d,
    saveConnection m = (Ok tt, m1) /\
    persisted m1 = Some (JSON_stringify (json_of_connection c)) /\
    loadSavedConnection m1 = Some (Ok tt, m2) /\
    connection m2 = Some d /\
    new_WalletConnector (localStorage m1) = Some m3 /\
    connection m3 = Some d /\
    type d = type c /\ accountId d = accountId c /\
    address d = address c /\ balance d = balance c /\
    network d = network c /\ chainId d = chainId c /\
    signer d = option_map plain_handle (signer c) /\
    provider d = option_map plain_handle (provider c) /\
    (forall h, signer d = Some h -> is_live h = false) /\
    has_key "signer" (json_of_connection c)
    = match signer c with Some _ => true | None => false end.
Proof.
  intros Hls Hc Hch Hne Hrt.
  set (txt := JSON_stringify (json_of_connection c)) in *.
  set (ls1 := <[KEY := txt]> ls).
  set (m1 := set_localStorage (Some ls1) m).
  assert (Hk : ls1 !! KEY = Some txt) by apply lookup_insert_eq.
  destruct (loadSavedConnection_adopts m1 ls1 txt c eq_refl Hk Hne Hrt Hch)
    as (m2 & Hl2 & Hd2 & _).
  destruct (loadSavedConnection_adopts
              (set_hederaClient true (fresh (Some ls1))) ls1 txt c
              eq_refl Hk Hne Hrt Hch)
    as (m3 & Hl3 & Hd3 & _).
  exists m1, m2, m3, (plain_connection c).
  split; [apply saveConnection_run; assumption|].
  split; [exact Hk|].
  split; [exact Hl2|]. split; [exact Hd2|].
  split.
  { unfold new_WalletConnector. change (localStorage m1) with (Some ls1).
    cbv beta iota. rewrite Hl3. reflexivity. }
  split; [exact Hd3|].
  repeat split; try reflexivity.
  - intros h Hh. simpl in Hh. destruct (signer c) as [h0|]; [|discriminate].
    simpl in Hh. injection Hh as <-. reflexivity.
  - apply has_key_signer.
Qed.

(** ** Restore at startup *)

Lemma cleared_frame (m : Manager) :
  exists m',
    clearSavedConnection m = (Ok tt, m') /\
    connection m' = connection m /\ emitted m' = emitted m /\
    persisted m' = None.
Proof.
  unfold clearSavedConnection, persisted. run.
  destruct (localStorage m) as [ls|] eqn:Hls; simpl;
    eexists; (split; [reflexivity|]); simpl; rewrite ?Hls;
    repeat split; apply lookup_delete_eq.
Qed.

(** C2 (amended): a restore attempt for the injected provider that does
    not go through returns normally, emits nothing and leaves the
    in-memory session as it was loaded.  The stored descriptor is left
    in storage only when the attempt is interrupted by an exception (the
    [eth_accounts] request rejects, as when the wallet is locked, or
    cannot be made); it is deleted when the provider is absent or is not
    MetaMask, when it reports no account, when its first account differs
    from the saved address, and when the signer or the balance cannot be
    obtained. *)
Theorem restoreMetaMaskConnection_failure (m : Manager) :
  ~ restore_goes_through m ->
  exists m',
    restoreMetaMaskConnection m = (Ok tt, m') /\
    connection m' = connection m /\
    emitted m' = emitted m /\
    (restore_interrupted m -> persisted m' = persisted m) /\
    (~ restore_interrupted m -> persisted m' = None).
Proof.
  intros Hno.
  unfold restoreMetaMaskConnection, window_dot_ethereum, request. 
  unfold try_catch at 1. unfold bind at 1. unfold bind at 1. unfold get at 1.
  destruct (localStorage m) as [ls|] eqn:Hls.
  2:{ exists m. unfold throw. simpl. split; [reflexivity|].
      repeat split; trivial.
      intros Hni. exfalso. apply Hni. left. exact Hls. }
  unfold ret at 1.
  assert (Hinj : injected m = window_ethereum w).
  { unfold injected. rewrite Hls. reflexivity. }
  (* a cleared descriptor: the attempt was not interrupted *)
  assert (Hclear : (restore_interrupted m -> False) ->
            exists m',
              (let (r, m'0) := clearSavedConnection m in
               match r with Ok a => (Ok a, m'0) | Throw e => ret tt m'0 end)
              = (Ok tt, m') /\
              connection m' = connection m /\ emitted m' = emitted m /\
              (restore_interrupted m -> persisted m' = persisted m) /\
              (~ restore_interrupted m -> persisted m' = None)).
  { intros Hni. destruct (cleared_frame m) as (m' & Hrun & Hc & He & Hp).
    exists m'. rewrite Hrun. split; [reflexivity|].
    repeat split; trivial. intros Hi. destruct (Hni Hi). }
  destruct (window_ethereum w) as [eth|] eqn:Heth.
  2:{ apply Hclear. intros [Hn | (eth & He & _)]; congruence. }
  destruct (isMetaMask eth) eqn:Hmm; simpl.
  2:{ apply Hclear. intros [Hn | (eth' & He & Hm' & _)]; congruence. }
  destruct (request_is_function eth) eqn:Hrf.
  2:{ exists m. unfold throw, bind. simpl. split; [reflexivity|].
      repeat split; trivial.
      intros Hni. exfalso. apply Hni. right. exists eth. auto. }
  run.
  set (m0 := set_ethereum_requests (ethereum_requests m ++ ["eth_accounts"]) m).
  destruct (eth_accounts eth) as [[[|a rest]|]|e] eqn:Hacc.
  4:{ exists m0. split; [reflexivity|]. repeat split; trivial.
      intros Hni. exfalso. apply Hni. right. exists eth. eauto 6. }
  all: assert (Hni : restore_interrupted m -> False)
    by (intros [Hn | (eth' & He & _ & [Hr | (e & Hthrow)])]; congruence).
  all: destruct (cleared_frame m0) as (m' & Hrun & Hc & He & Hp).
  all: change (connection m0) with (connection m) in *.
  all: change (emitted m0) with (emitted m) in *.
  all: assert (Hdone :
         exists m'0, (Ok tt, m') = (Ok tt, m'0) /\
           connection m'0 = connection m /\ emitted m'0 = emitted m /\
           (restore_interrupted m -> persisted m'0 = persisted m) /\
           (~ restore_interrupted m -> persisted m'0 = None))
    by (exists m'; repeat split; trivial; intros Hi; destruct (Hni Hi)).
  1,3: rewrite Hrun; exact Hdone.
  destruct (connection m) as [c|] eqn:Hcm.
  2:{ rewrite Hrun. exact Hdone. }
  destruct (String.eqb (JS.toLowerCase a) (JS.toLowerCase (address c))) eqn:Heq.
  2:{ rewrite Hrun. exact Hdone. }
  apply String.eqb_eq in Heq.
  destruct (ethers_getSigner (ethers_over w Injected)) as [si|e] eqn:Hsi.
  2:{ rewrite Hrun. exact Hdone. }
  destruct (ethers_getBalance (ethers_over w Injected) (JS.toLowerCase a))
    as [b|e] eqn:Hb.
  2:{ rewrite Hrun. exact Hdone. }
  exfalso. apply Hno. exists eth, a, rest, c, si, b.
  rewrite Hinj. repeat split; assumption.
Qed.

(** With listeners that return, a restore that goes through: the session
    gets a fresh provider and signer and the balance just read, it is
    saved again, and [connected] is emitted once. *)
Lemma restoreMetaMaskConnection_success (m : Manager) :
  restore_goes_through m ->
  exists m' c c',
    restoreMetaMaskConnection m = (Ok tt, m') /\
    connection m = Some c /\ connection m' = Some c' /\
    type c' = type c /\ accountId c' = accountId c /\
    address c' = address c /\
    (exists h, signer c' = Some h /\ is_live h = true) /\
    provider c' = Some (BrowserProvider Injected) /\
    emitted m' = emitted m ++ [connected (Some c')] /\
    persisted m' = Some (JSON_stringify (json_of_connection c')).
Proof.
  intros (eth & a & rest & c & si & b & Hi & Hm & Hr & Ha & Hc & Hl & Hs & Hb).
  assert (Hls : exists ls, localStorage m = Some ls /\ window_ethereum w = Some eth).
  { unfold injected in Hi. destruct (localStorage m) as [ls|]; [eauto|discriminate]. }
  destruct Hls as (ls & Hls & Hw).
  apply String.eqb_eq in Hl.
  unfold restoreMetaMaskConnection, window_dot_ethereum, request,
    saveConnection, setupMetaMaskListeners, this_ethereum, injected,
    provider_getSigner, provider_getBalance, BrowserProvider, persisted.
  do 6 (run; rewrite ?Hls, ?Hw, ?Hm, ?Hr, ?Ha, ?Hc, ?Hl, ?Hs, ?Hb).
  eexists _, c, _. split; [reflexivity|]. simpl.
  repeat split; try reflexivity.
  - eexists. split; reflexivity.
  - apply lookup_insert_eq.
Qed.

(** [updateConnection] keeps [address] equal to [accountId]. *)
Lemma updateConnection_keeps_address (m : Manager) (newAccount : string) :
  (forall c, connection m = Some c -> address c = accountId c) ->
  forall c', connection (final (updateConnection newAccount m)) = Some c' ->
             address c' = accountId c'.
Proof.
  intros Hinv c' H. unfold updateConnection, saveConnection in H. run.
  destruct (connection m) as [c|] eqn:Hc.
  - specialize (Hinv c eq_refl). simpl in H.
    split_match H.
    all: simpl in H; rewrite ?Hc in H; injection H as <-.
    all: solve [reflexivity | exact Hinv].
  - simpl in H. rewrite Hc in H. discriminate H.
Qed.

(** ** Connect *)

Lemma append_nonempty (s t : string) (c : ascii) :
  s +:+ String c t <> EmptyString.
Proof. destruct s; simpl; discriminate. Qed.

Lemma AccountId_toString_nonempty (a : AccountId) :
  AccountId_toString a <> EmptyString.
Proof. unfold AccountId_toString. apply append_nonempty. Qed.

Lemma connectHashPack_ok (m m' : Manager) (c : WalletConnection) :
  connectHashPack m = (Ok c, m') ->
  accountId c <> EmptyString /\ type c = HASHPACK /\
  address c = accountId c /\ connection m' = Some c.
Proof.
  unfold connectHashPack, connectHashPackWalletConnect, saveConnection.
  intros H. run.
  split_match H.
  all: injection H as <- <-; simpl.
  all: repeat split; try reflexivity; apply AccountId_toString_nonempty.
Qed.

Lemma connectWalletConnect_ok (m m' : Manager) (c : WalletConnection) :
  connectWalletConnect m = (Ok c, m') ->
  accountId c <> EmptyString /\ type c = WALLETCONNECT /\
  address c = accountId c /\ connection m' = Some c.
Proof.
  unfold connectWalletConnect, saveConnection, setupWalletConnectListeners.
  intros H. run.
  split_match H.
  all: injection H as <- <-; simpl.
  all: repeat split; try reflexivity.
  all: match goal with
       | Ht : negb (JS.truthy ?a) = false |- ?a <> EmptyString =>
           intros ->; discriminate Ht
       end.
Qed.

Lemma connectMetaMask_ok (m m' : Manager) (c : WalletConnection) :
  rejects_empty_address ->
  connectMetaMask m = (Ok c, m') ->
  accountId c <> EmptyString /\ type c = METAMASK /\
  address c = accountId c /\ connection m' = Some c.
Proof.
  unfold rejects_empty_address.
  unfold connectMetaMask, metamask_catch, metamask_probe,
    race_requestAccounts, switch_network, request, resetConnectionState,
    clearSavedConnection, saveConnection, setupMetaMaskListeners,
    this_ethereum.
  intros Hemp H. run.
  split_match H.
  all: injection H as <- <-; simpl.
  all: repeat split; try reflexivity.
  all: intros ->.
  all: match goal with
       | Hb : ethers_getBalance _ EmptyString = Ok _ |- _ =>
           rewrite Hb in Hemp; discriminate Hemp
       end.
Qed.

(** The [catch] block of [connectMetaMask] always throws and leaves the
    manager as it is: its reset is behind a test that the chain of
    [includes] before it has already answered by a throw. *)
Lemma metamask_catch_frame (error : JsError) (m : Manager) :
  exists e, metamask_catch error m = (Throw e, m).
Proof.
  unfold metamask_catch. run.
  destruct (instanceof_Error error); simpl.
  - destruct (JS.includes (message error) "rejected"); [eauto|].
    destruct (JS.includes (message error) "timeout"); [eauto|].
    destruct (JS.includes (message error) "No accounts found"); [eauto|].
    destruct (JS.includes (message error) "not responsive"); [eauto|].
    destruct (JS.includes (message error) "environment"); [eauto|].
    simpl.
    destruct (env_missing (NEXT_PUBLIC_METAMASK_CHAIN_ID w)
              || env_missing (NEXT_PUBLIC_HEDERA_NETWORK w)); eauto.
  - destruct (env_missing (NEXT_PUBLIC_METAMASK_CHAIN_ID w)
              || env_missing (NEXT_PUBLIC_HEDERA_NETWORK w)); eauto.
Qed.

(** With listeners that return, a [connect] that throws leaves the
    current session, the stored descriptor and the trace of events as
    they were (see [connect_failure_effects] for listeners that throw). *)
Lemma connect_failure_frame (walletType : WalletType) (m m' : Manager)
    (e : JsError) :
  connect walletType m = (Throw e, m') ->
  connection m' = connection m /\
  localStorage m' = localStorage m /\
  emitted m' = emitted m.
Proof.
  destruct m as [conn hc wcp hpc hwp ls em rq eh rh rt].
  destruct walletType; expose; intros H.
  all: repeat match type of H with
         | context [match ?x with _ => _ end] =>
             lazymatch x with
             | context [match _ with _ => _ end] => fail
             | _ => destruct x eqn:?; cbv beta iota zeta in H;
                    try discriminate H
             end
         end.
  all: try (injection H as _ <-; repeat split; reflexivity).
  all: exfalso.
  all: match goal with
       | Hc : (_ && _) = true |- _ => simpl in Hc; discriminate Hc
       end.
Qed.

(** C7: where the ethers provider rejects the empty address, a
    [connect(walletType)] that returns yields a session with a non-empty
    [accountId] and the requested [type]; it is the current session of
    the manager, and its [address] is its [accountId].  Any other run of
    [connect] throws. *)
Theorem connect_returns_populated_session
    (walletType : WalletType) (m m' : Manager) (c : WalletConnection) :
  rejects_empty_address ->
  connect walletType m = (Ok c, m') ->
  accountId c <> EmptyString /\ type c = walletType /\
  address c = accountId c /\ connection m' = Some c.
Proof.
  intros Hemp H. unfold connect, try_catch in H.
  destruct walletType.
  - destruct (connectHashPack m) as [[c0|e] m0] eqn:Hrun;
      [|discriminate H].
    injection H as <- <-. exact (connectHashPack_ok _ _ _ Hrun).
  - destruct (connectMetaMask m) as [[c0|e] m0] eqn:Hrun;
      [|discriminate H].
    injection H as <- <-. exact (connectMetaMask_ok _ _ _ Hemp Hrun).
  - destruct (connectWalletConnect m) as [[c0|e] m0] eqn:Hrun;
      [|discriminate H].
    injection H as <- <-. exact (connectWalletConnect_ok _ _ _ Hrun).
Qed.

Lemma connect_same_run (walletType : WalletType) (m : Manager)
    (k : option WalletConnection) :
  same_run (connect walletType (set_connection k m)) (connect walletType m).
Proof.
  unfold same_run.
  destruct m as [conn hc wcp hpc hwp ls em rq eh rh rt].
  destruct walletType; expose; split_goal; split; reflexivity.
Qed.

(** C1 (amended): [connect(walletType)] does not look at the current
    session.  Called while a session [k] is current it gives the result
    it gives from the same manager without that session: the same session
    and the same final manager when the handshake succeeds, the same
    error when it fails; either way the two runs make the same requests
    and differ at most in the session they leave in place.  It has no
    rejection for a call made while connected. *)
Theorem connect_ignores_current_session (walletType : WalletType)
    (m : Manager) (k : option WalletConnection) :
  result (connect walletType (set_connection k m))
  = result (connect walletType m) /\
  (forall c m', connect walletType m = (Ok c, m') ->
     connect walletType (set_connection k m) = (Ok c, m')) /\
  set_connection None (final (connect walletType (set_connection k m)))
  = set_connection None (final (connect walletType m)).
Proof.
  pose proof (connect_same_run walletType m k) as Hs.
  unfold same_run in Hs. unfold result, final.
  destruct (connect walletType (set_connection k m)) as [[c1|e1] m1];
    destruct (connect walletType m) as [[c2|e2] m2]; try contradiction.
  - destruct Hs as [-> ->]. split; [reflexivity|]. split; [|reflexivity].
    intros c m' Heq. exact Heq.
  - destruct Hs as [-> Hm]. split; [reflexivity|]. split; [|exact Hm].
    intros c m' Heq. discriminate Heq.
Qed.

(* =================================================================== *)
(** * Further properties *)
(* =================================================================== *)

(** ** The event bus *)

Lemma dispatch_called_registered (behaviour : nat -> outcome unit)
    (l : list nat) (x : nat) :
  In x (snd (EventBus.dispatch behaviour l)) -> In x l.
Proof.
  induction l as [|cb rest IH]; simpl; [tauto|].
  destruct (behaviour cb) as [u|e].
  - destruct (EventBus.dispatch behaviour rest) as [o called]. simpl in *.
    intros [->|Hin]; [now left|right; exact (IH Hin)].
  - simpl. intros [->|[]]. now left.
Qed.

Lemma filter_other_than_absent (callback : nat) (l : list nat) :
  ~ In callback l -> List.filter (EventBus.other_than callback) l = l.
Proof.
  induction l as [|x rest IH]; simpl; [reflexivity|].
  intros Hnot. unfold EventBus.other_than at 1.
  destruct (Nat.eqb_spec x callback) as [->|Hne]; simpl.
  - exfalso. apply Hnot. now left.
  - f_equal. apply IH. intros Hin. apply Hnot. now right.
Qed.

Lemma filter_other_than_excludes (callback : nat) (l : list nat) :
  ~ In callback (List.filter (EventBus.other_than callback) l).
Proof.
  intros Hin. apply List.filter_In in Hin. destruct Hin as [_ Hb].
  unfold EventBus.other_than in Hb. rewrite Nat.eqb_refl in Hb. discriminate Hb.
Qed.

(** X1: [off(event, callback)] removes every registration of the callback
    for the event, not one: afterwards no [emit] of the event calls it,
    the other callbacks of the event keep their order, and the other
    events keep their listeners. *)
Theorem off_removes_every_registration
    (behaviour : nat -> outcome unit) (event : string) (callback : nat)
    (listeners : gmap string (list nat)) :
  EventBus.inherited event = false ->
  let listeners' := snd (EventBus.off event callback listeners) in
  ~ In callback (snd (EventBus.emit behaviour event listeners')) /\
  EventBus.registered event listeners'
  = List.filter (EventBus.other_than callback)
      (EventBus.registered event listeners) /\
  (forall other, other <> event -> listeners' !! other = listeners !! other).
Proof. clear JSON_stringify JSON_parse w signing.
  intros Hown. unfold EventBus.off, EventBus.emit, EventBus.registered.
  rewrite Hown.
  destruct (listeners !! event) as [l|] eqn:Hl; simpl.
  - rewrite lookup_insert_eq. repeat split.
    + intros Hin. apply dispatch_called_registered in Hin.
      exact (filter_other_than_excludes callback l Hin).
    + intros other Hne. apply lookup_insert_ne. congruence.
  - rewrite Hl. simpl. repeat split; tauto.
Qed.

(** X2: registering a callback that was not registered for the event and
    removing it again gives back the listeners the event had, and touches
    no other event. *)
Theorem on_then_off_restores
    (event : string) (callback : nat) (listeners : gmap string (list nat)) :
  EventBus.inherited event = false ->
  ~ In callback (EventBus.registered event listeners) ->
  let listeners' :=
    snd (EventBus.off event callback
           (snd (EventBus.on event callback listeners))) in
  EventBus.registered event listeners' = EventBus.registered event listeners /\
  (forall other, other <> event -> listeners' !! other = listeners !! other).
Proof.
  intros Hown Hnot. unfold EventBus.off, EventBus.on. rewrite Hown. simpl.
  rewrite lookup_insert_eq. simpl. split.
  - unfold EventBus.registered at 1. rewrite lookup_insert_eq.
    rewrite List.filter_app. simpl. unfold EventBus.other_than at 2.
    rewrite Nat.eqb_refl. simpl. rewrite app_nil_r.
    apply filter_other_than_absent. exact Hnot.
  - intros other Hne. rewrite lookup_insert_ne by congruence.
    apply lookup_insert_ne. congruence.
Qed.

Lemma dispatch_all_ok (behaviour : nat -> outcome unit) (l : list nat) :
  (forall cb, In cb l -> is_ok (behaviour cb) = true) ->
  EventBus.dispatch behaviour l = (Ok tt, l).
Proof.
  induction l as [|cb rest IH]; simpl; [reflexivity|].
  intros Hok. pose proof (Hok cb (or_introl eq_refl)) as Hcb.
  destruct (behaviour cb) as [u|e]; [|discriminate Hcb].
  rewrite IH; [reflexivity|]. intros x Hx. apply Hok. now right.
Qed.

(** X3: when no listener throws, [emit] calls the listeners of the event
    once per registration, in the order of registration; a listener
    registered by [on] is called last. *)
Theorem emit_calls_in_registration_order
    (behaviour : nat -> outcome unit) (event : string) (callback : nat)
    (listeners : gmap string (list nat)) :
  EventBus.inherited event = false ->
  (forall cb, is_ok (behaviour cb) = true) ->
  EventBus.emit behaviour event listeners
  = (Ok tt, EventBus.registered event listeners) /\
  EventBus.emit behaviour event (snd (EventBus.on event callback listeners))
  = (Ok tt, EventBus.registered event listeners ++ [callback]).
Proof.
  intros Hown Hok. unfold EventBus.emit, EventBus.on, EventBus.registered.
  rewrite Hown. simpl. rewrite lookup_insert_eq. split.
  - destruct (listeners !! event) as [l|]; [|reflexivity].
    apply dispatch_all_ok. intros cb _. apply Hok.
  - apply dispatch_all_ok. intros cb _. apply Hok.
Qed.

(** X4: a listener that throws ends the dispatch: the listeners before it
    have been called, the ones registered after it are not, and the
    error reaches the caller of [emit]. *)
Theorem emit_stops_at_throwing_listener
    (behaviour : nat -> outcome unit) (event : string)
    (listeners : gmap string (list nat))
    (before after : list nat) (callback : nat) (e : JsError) :
  EventBus.inherited event = false ->
  EventBus.registered event listeners = before ++ callback :: after ->
  (forall cb, In cb before -> is_ok (behaviour cb) = true) ->
  behaviour callback = Throw e ->
  EventBus.emit behaviour event listeners = (Throw e, before ++ [callback]).
Proof.
  intros Hown Hreg Hok Hthrow. unfold EventBus.emit, EventBus.registered in *.
  rewrite Hown.
  destruct (listeners !! event) as [l|].
  2:{ destruct before; discriminate Hreg. }
  subst l. clear Hown. induction before as [|x rest IH]; simpl.
  - rewrite Hthrow. reflexivity.
  - pose proof (Hok x (or_introl eq_refl)) as Hx.
    destruct (behaviour x) as [u|e']; [|discriminate Hx].
    rewrite IH; [reflexivity|]. intros cb Hcb. apply Hok. now right.
Qed.

(** ** Address display *)

Lemma length_append (s t : string) :
  String.length (s +:+ t) = (String.length s + String.length t)%nat.
Proof. induction s; simpl; [reflexivity|]. now rewrite IHs. Qed.

Lemma append_associative (s t u : string) :
  s +:+ (t +:+ u) = (s +:+ t) +:+ u.
Proof.
  induction s as [|c s IH]; [reflexivity|].
  change (String c (s +:+ (t +:+ u)) = String c ((s +:+ t) +:+ u)).
  f_equal. exact IH.
Qed.

Lemma length_substring (a b : nat) (s : string) :
  String.length (String.substring a b s)
  = Nat.min b (String.length s - a)%nat.
Proof.
  revert a b. induction s as [|c s IH]; intros a b.
  - destruct a, b; reflexivity.
  - destruct a as [|a]; destruct b as [|b]; simpl; try reflexivity.
    + rewrite IH. rewrite Nat.sub_0_r. reflexivity.
    + rewrite IH. reflexivity.
    + rewrite IH. reflexivity.
Qed.

Lemma substring_prefix_of_append (p r : string) :
  String.substring 0 (String.length p) (p +:+ r) = p.
Proof. induction p; simpl; [destruct r; reflexivity|]. now rewrite IHp. Qed.

Lemma substring_after_prefix (p r : string) (n : nat) :
  String.substring (String.length p) n (p +:+ r) = String.substring 0 n r.
Proof. induction p; simpl; [reflexivity|]. exact IHp. Qed.

Lemma substring_whole (s : string) :
  String.substring 0 (String.length s) s = s.
Proof. induction s; simpl; [reflexivity|]. now rewrite IHs. Qed.

(** X5: the display form of an address of at least six characters has
    thirteen characters, starts with the first six and ends with the last
    four of the address, and formatting it again changes nothing. *)
Theorem formatAddress_idempotent (a : string) :
  (6 <= String.length a)%nat ->
  String.length (formatAddress a) = 13%nat /\
  slice_to 6 (formatAddress a) = slice_to 6 a /\
  slice_last 4 (formatAddress a) = slice_last 4 a /\
  formatAddress (formatAddress a) = formatAddress a.
Proof.
  intros Hlen.
  assert (Htr : JS.truthy a = true).
  { destruct a; [simpl in Hlen; lia|reflexivity]. }
  set (p := slice_to 6 a). set (q := slice_last 4 a).
  assert (Hp : String.length p = 6%nat).
  { unfold p, slice_to. rewrite length_substring. lia. }
  assert (Hq : String.length q = 4%nat).
  { unfold q, slice_last. rewrite length_substring. lia. }
  assert (Hf : formatAddress a = p +:+ "..." +:+ q).
  { unfold formatAddress. rewrite Htr. reflexivity. }
  assert (Hl : String.length (formatAddress a) = 13%nat).
  { rewrite Hf, !length_append, Hp, Hq. reflexivity. }
  assert (Hfirst : slice_to 6 (formatAddress a) = p).
  { rewrite Hf. unfold slice_to. rewrite <- Hp at 1.
    apply substring_prefix_of_append. }
  assert (Hlast : slice_last 4 (formatAddress a) = q).
  { unfold slice_last. rewrite Hl. rewrite Hf.
    change (p +:+ "..." +:+ q) with (p +:+ ("..." +:+ q)).
    replace (13 - 4)%nat with (String.length p + 3)%nat by (rewrite Hp; reflexivity).
    rewrite (append_associative p "..." q).
    replace (String.length p + 3)%nat with (String.length (p +:+ "..."))
      by (rewrite length_append; reflexivity).
    rewrite substring_after_prefix. rewrite <- Hq at 1.
    apply substring_whole. }
  split; [exact Hl|]. split; [exact Hfirst|]. split; [exact Hlast|].
  unfold formatAddress at 1.
  assert (Htr2 : JS.truthy (formatAddress a) = true).
  { destruct (formatAddress a); [simpl in Hl; lia|reflexivity]. }
  rewrite Htr2, Hfirst, Hlast. symmetry. exact Hf.
Qed.

(** X6: the display form of the empty address is empty; any other address
    is displayed with its first six (or fewer) characters, three dots and
    its last four (or fewer) characters, so an address of fewer than
    thirteen characters is displayed longer than it is. *)
Theorem formatAddress_length (a : string) :
  String.length (formatAddress a)
  = match a with
    | EmptyString => 0%nat
    | String _ _ =>
        (Nat.min 6 (String.length a) + 3 + Nat.min 4 (String.length a))%nat
    end.
Proof.
  destruct a as [|c a]; [reflexivity|].
  assert (Hf : formatAddress (String c a)
               = slice_to 6 (String c a) +:+ "..."
                 +:+ slice_last 4 (String c a)) by reflexivity.
  rewrite Hf, !length_append. unfold slice_to, slice_last.
  rewrite !length_substring.
  change (String.length "...") with 3%nat.
  set (n := String.length (String c a)). lia.
Qed.

(** ** Health *)

(** X8: [checkConnectionHealth()] never throws and changes nothing.  It
    answers [false] without a session; for a session of the injected
    provider with a provider object it answers whether the balance query
    succeeds; for a relay session whose provider has [request] it answers
    whether [eth_accounts] gives a non-empty array; in every other case
    (HashPack, or nothing to query) it answers [true]. *)
Theorem checkConnectionHealth_answer (m : Manager) :
  exists b,
    checkConnectionHealth m = (Ok b, m) /\
    (connection m = None -> b = false) /\
    (forall c, connection m = Some c ->
       (type c = HASHPACK -> b = true) /\
       (type c = METAMASK ->
          forall p, provider c = Some p -> handle_truthy p = true ->
            b = is_ok (provider_getBalance p (address c))) /\
       (type c = METAMASK ->
          (forall p, provider c = Some p -> handle_truthy p = false) ->
          b = true) /\
       (type c = WALLETCONNECT ->
          forall rp, walletConnectProvider m = Some rp ->
            has_request rp = true ->
            b = match relay_eth_accounts w with
                | Ok accounts => nonempty_array accounts
                | Throw _ => false
                end) /\
       (type c = WALLETCONNECT ->
          (forall rp, walletConnectProvider m = Some rp ->
                      has_request rp = false) ->
          b = true)).
Proof.
  unfold checkConnectionHealth. run.
  destruct (connection m) as [c|] eqn:Hc.
  2:{ exists false. split; [reflexivity|]. split; [reflexivity|].
      intros c Hc'. discriminate Hc'. }
  destruct (type c) eqn:Hty.
  - exists true. split; [reflexivity|]. split; [discriminate|].
    intros c' Hc'. injection Hc' as <-. rewrite Hty.
    repeat split; try discriminate; reflexivity.
  - destruct (provider c) as [p|] eqn:Hp.
    + destruct (handle_truthy p) eqn:Htr.
      * exists (is_ok (provider_getBalance p (address c))).
        split; [destruct (provider_getBalance p (address c)); reflexivity|].
        split; [discriminate|].
        intros c' Hc'. injection Hc' as <-. rewrite Hty, Hp.
        repeat split; try discriminate.
        -- intros _ p' Hp' _. injection Hp' as <-. reflexivity.
        -- intros _ Hall. specialize (Hall p eq_refl). congruence.
      * exists true. split; [reflexivity|]. split; [discriminate|].
        intros c' Hc'. injection Hc' as <-. rewrite Hty, Hp.
        repeat split; try discriminate.
        intros _ p' Hp' Htr'. injection Hp' as <-. congruence.
    + exists true. split; [reflexivity|]. split; [discriminate|].
      intros c' Hc'. injection Hc' as <-. rewrite Hty, Hp.
      repeat split; try discriminate.
  - destruct (walletConnectProvider m) as [rp|] eqn:Hrp.
    + destruct (has_request rp) eqn:Hrq.
      * exists (match relay_eth_accounts w with
                | Ok accounts => nonempty_array accounts
                | Throw _ => false
                end).
        split.
        { destruct (provider c); rewrite ?Hrq;
            destruct (relay_eth_accounts w); reflexivity. }
        split; [discriminate|].
        intros c' Hc'. injection Hc' as <-. rewrite Hty.
        repeat split; try discriminate.
        intros _ Hall. specialize (Hall rp eq_refl). congruence.
      * exists true.
        split; [destruct (provider c); rewrite ?Hrq; reflexivity|].
        split; [discriminate|].
        intros c' Hc'. injection Hc' as <-. rewrite Hty.
        repeat split; try discriminate.
        intros _ rp' Hrp' Hrq'. injection Hrp' as <-. congruence.
    + exists true.
      split; [destruct (provider c); reflexivity|].
      split; [discriminate|].
      intros c' Hc'. injection Hc' as <-. rewrite Hty.
      repeat split; try discriminate.
Qed.

(** A session of the injected provider whose [provider] is plain data. *)
Lemma plain_provider_unhealthy (m : Manager) (c : WalletConnection) (j : json) :
  connection m = Some c ->
  type c = METAMASK ->
  provider c = Some (Plain j) ->
  json_truthy j = true ->
  checkConnectionHealth m = (Ok false, m).
Proof.
  intros Hc Hty Hp Htr. unfold checkConnectionHealth. run.
  rewrite Hc, Hty, Hp. simpl. rewrite Htr. reflexivity.
Qed.

(** ** Disconnect *)

Lemma count_events_snoc (p : Event -> bool) (l : list Event) (e : Event) :
  count_events p (l ++ [e])
  = (count_events p l + if p e then 1 else 0)%nat.
Proof.
  unfold count_events. rewrite List.filter_app, List.length_app. simpl.
  destruct (p e); reflexivity.
Qed.

(** X10: two [disconnect()] calls in a row, the first on a session whose
    teardown does not fail: the second changes nothing, so exactly one
    [disconnected] event is emitted and it carries the old session. *)
Theorem disconnect_twice_emits_once (m : Manager) (c : WalletConnection) :
  connection m = Some c ->
  teardown_succeeds m c ->
  exists m1,
    disconnect m = (Ok tt, m1) /\
    disconnect m1 = (Ok tt, m1) /\
    emitted m1 = emitted m ++ [disconnected (Some c)] /\
    count_events is_disconnected_event (emitted m1)
    = S (count_events is_disconnected_event (emitted m)).
Proof.
  intros Hc Htd.
  destruct (disconnect_run m c Hc Htd) as (m1 & Hrun & Hn & _ & He).
  exists m1. split; [exact Hrun|]. split.
  - unfold disconnect. run. rewrite Hn. reflexivity.
  - split; [exact He|]. rewrite He, count_events_snoc. simpl. lia.
Qed.

(** ** Account switch *)

(** X11: [updateConnection(newAccount)] never throws.  Either it changes
    nothing, or the session is of the injected provider, its provider
    gave a signer and the balance of the new account, and then the
    session has the new account as [accountId] and [address] with the
    rest kept, it is saved again and one [accountChanged] event carries
    it.  For a session of another type it changes nothing. *)
Theorem updateConnection_effects (m : Manager) (newAccount : string) :
  exists m',
    updateConnection newAccount m = (Ok tt, m') /\
    (m' = m \/
     exists c p signer0 b,
       connection m = Some c /\ type c = METAMASK /\
       provider c = Some p /\
       provider_getSigner p = Ok signer0 /\
       provider_getBalance p newAccount = Ok b /\
       let c' := {| type := METAMASK; accountId := newAccount;
                    address := newAccount; signer := Some signer0;
                    provider := Some p; balance := Some b;
                    network := network c; chainId := chainId c |} in
       connection m' = Some c' /\
       emitted m' = emitted m ++ [accountChanged c'] /\
       (forall ls, localStorage m = Some ls ->
                   persisted m' = Some (JSON_stringify (json_of_connection c')))) /\
    (forall c, connection m = Some c -> type c <> METAMASK -> m' = m).
Proof.
  unfold updateConnection, saveConnection, persisted. run.
  destruct (connection m) as [c|] eqn:Hc.
  2:{ exists m. split; [reflexivity|]. split; [now left|]. reflexivity. }
  destruct (type c) eqn:Hty.
  1,3: exists m; (split; [reflexivity|]); (split; [now left|]); reflexivity.
  destruct (provider c) as [p|] eqn:Hp.
  2:{ exists m. split; [reflexivity|]. split; [now left|]. reflexivity. }
  destruct (handle_truthy p) eqn:Htr.
  2:{ exists m. split; [reflexivity|]. split; [now left|]. reflexivity. }
  destruct (provider_getSigner p) as [signer0|e] eqn:Hs.
  2:{ exists m. split; [reflexivity|]. split; [now left|]. reflexivity. }
  destruct (provider_getBalance p newAccount) as [b|e] eqn:Hb.
  2:{ exists m. split; [reflexivity|]. split; [now left|]. reflexivity. }
  simpl.
  destruct (localStorage m) as [ls|] eqn:Hls; simpl.
  - eexists. split; [reflexivity|]. split.
    + right. exists c, p, signer0, b. simpl. rewrite ?Hls.
      repeat split; try reflexivity; try assumption.
      intros ls' _. apply lookup_insert_eq.
    + intros c' Hc' Hne. injection Hc' as <-. congruence.
  - eexists. split; [reflexivity|]. split.
    + right. exists c, p, signer0, b. simpl.
      repeat split; try reflexivity; try assumption.
      intros ls' Hls'. discriminate Hls'.
    + intros c' Hc' Hne. injection Hc' as <-. congruence.
Qed.

(** X12: an [accountsChanged] notification with a non-empty list, for a
    session that is not of the injected provider (a relay or HashPack
    session): the raw event is emitted and nothing else happens; the
    session keeps the account it had. *)
Theorem accountsChanged_ignored_for_other_sessions
    (m : Manager) (c : WalletConnection) (account0 : string)
    (rest : list string) :
  connection m = Some c ->
  type c <> METAMASK ->
  forall handler,
    handler = on_ethereum_accountsChanged \/ handler = on_relay_accountsChanged ->
    handler (account0 :: rest) m
    = (Ok tt,
       set_emitted (emitted m ++ [accountsChanged (account0 :: rest)]) m).
Proof.
  intros Hc Hty handler Hh.
  assert (Hup : forall m0, connection m0 = Some c ->
                           updateConnection account0 m0 = (Ok tt, m0)).
  { intros m0 Hc0. unfold updateConnection. run. rewrite Hc0.
    destruct (type c); [reflexivity|congruence|reflexivity]. }
  destruct Hh as [-> | ->];
    unfold on_ethereum_accountsChanged, on_relay_accountsChanged;
    unfold bind at 1; unfold emit, modify, detached;
    rewrite Hup by exact Hc; reflexivity.
Qed.

(** ** What a successful connect leaves behind *)

(** Case analysis on the innermost scrutinee of a run in [H] that
    [expose] has unfolded. *)
Ltac split_exposed H :=
  repeat match type of H with
         | context [match ?x with _ => _ end] =>
             lazymatch x with
             | context [match _ with _ => _ end] => fail
             | _ => destruct x eqn:?; cbv beta iota zeta in H;
                    try discriminate H
             end
         end.

(** X13: a [connect] that returns has emitted exactly one event,
    [connected] with the returned session; with a [window] the stored
    descriptor is the text of that session, without one nothing is
    stored.  The session is bound to the configured network, and for the
    injected and relay backends its [chainId] is the configured chain id,
    whatever chain the wallet reported. *)
Theorem connect_success_effects
    (walletType : WalletType) (m m' : Manager) (c : WalletConnection) :
  connect walletType m = (Ok c, m') ->
  emitted m' = emitted m ++ [connected (Some c)] /\
  (forall ls, localStorage m = Some ls ->
     persisted m' = Some (JSON_stringify (json_of_connection c))) /\
  (localStorage m = None -> persisted m' = None) /\
  network c = Some hedera_network /\
  (walletType <> HASHPACK ->
   chainId c = Some (JS.parseInt expected_chain_id None)).
Proof.
  destruct m as [conn hc wcp hpc hwp ls em rq eh rh rt].
  destruct walletType; expose; intros H; split_exposed H.
  all: injection H as <- <-; unfold persisted; cbn.
  all: repeat split; try reflexivity; try congruence.
  all: try (intros ls0 _; apply lookup_insert_eq).
Qed.

(** X14: [connectMetaMask] asks the wallet to switch chains only after
    the wallet has reported a chain other than the expected one, and asks
    it to add the chain only after the switch was refused with code
    4902. *)
Theorem connectMetaMask_network_requests (m m' : Manager)
    (r : outcome WalletConnection) :
  connectMetaMask m = (r, m') ->
  (In "wallet_switchEthereumChain" (ethereum_requests m') ->
   In "wallet_switchEthereumChain" (ethereum_requests m) \/
   exists eth chain,
     injected m = Some eth /\ eth_chainId eth = Ok chain /\
     wrong_chain chain
       ("0x" +:+ JS.toString16 (JS.parseInt expected_chain_id None)) = true) /\
  (In "wallet_addEthereumChain" (ethereum_requests m') ->
   In "wallet_addEthereumChain" (ethereum_requests m) \/
   exists eth e,
     injected m = Some eth /\ wallet_switchEthereumChain eth = Throw e /\
     has_code e 4902 = true).
Proof.
  unfold connectMetaMask.
  match goal with
  | |- try_catch ?b _ _ = _ -> _ => set (body := b)
  end.
  assert (Hbody : forall o m1, body m = (o, m1) ->
            (In "wallet_switchEthereumChain" (ethereum_requests m1) ->
             In "wallet_switchEthereumChain" (ethereum_requests m) \/
             exists eth chain,
               injected m = Some eth /\ eth_chainId eth = Ok chain /\
               wrong_chain chain
                 ("0x" +:+ JS.toString16 (JS.parseInt expected_chain_id None))
               = true) /\
            (In "wallet_addEthereumChain" (ethereum_requests m1) ->
             In "wallet_addEthereumChain" (ethereum_requests m) \/
             exists eth e,
               injected m = Some eth /\
               wallet_switchEthereumChain eth = Throw e /\
               has_code e 4902 = true)).
  { subst body. clear r m'.
    destruct m as [conn hc wcp hpc hwp ls em rq eh rh rt].
    expose; intros o m1 H; split_exposed H.
    all: injection H as _ <-; cbn.
    all: split; intros Hin.
    all: rewrite ?in_app_iff in Hin; cbn in Hin.
    all: repeat match goal with
                | Hd : _ \/ _ |- _ => destruct Hd as [Hd|Hd]
                end.
    all: try contradiction.
    all: try congruence.
    all: try (left; assumption).
    all: right; eauto 6. }
  unfold try_catch. destruct (body m) as [[c|e] m1].
  - intros H. injection H as _ <-. exact (Hbody _ _ eq_refl).
  - destruct (metamask_catch_frame e m1) as [e' ->].
    intros H. injection H as _ <-. exact (Hbody _ _ eq_refl).
Qed.

(** ** Available wallets *)

Lemma try_catch_metamask_catch (body : M WalletConnection)
    (m m0 : Manager) (e : JsError) :
  body m = (Throw e, m0) ->
  is_ok (result (try_catch body metamask_catch m)) = false.
Proof.
  intros H. unfold try_catch. rewrite H.
  destruct (metamask_catch_frame e m0) as [e' ->]. reflexivity.
Qed.

Lemma connectMetaMask_unavailable (m : Manager) :
  isMetaMaskAvailable m = false ->
  is_ok (result (connectMetaMask m)) = false.
Proof.
  unfold isMetaMaskAvailable, isMetaMaskInstalled. intros Hav.
  unfold connectMetaMask.
  destruct (injected m) as [eth|] eqn:Hinj.
  - destruct (isMetaMask eth) eqn:Hmm; simpl in Hav.
    + eapply try_catch_metamask_catch.
      unfold this_ethereum, metamask_probe. run.
      rewrite Hinj, Hmm, Hav. simpl. reflexivity.
    + eapply try_catch_metamask_catch.
      unfold this_ethereum. run. rewrite Hinj, Hmm. simpl. reflexivity.
  - eapply try_catch_metamask_catch.
    unfold this_ethereum. run. rewrite Hinj. reflexivity.
Qed.

Lemma connect_METAMASK_unavailable (m : Manager) :
  isMetaMaskAvailable m = false ->
  is_ok (result (connect METAMASK m)) = false.
Proof.
  intros Hav. apply connectMetaMask_unavailable in Hav.
  unfold connect, try_catch.
  destruct (connectMetaMask m) as [[c|e] m1]; [discriminate Hav|reflexivity].
Qed.

(** X16: [getAvailableWallets()] lists each wallet at most once and
    always lists WalletConnect.  HashPack is listed whenever there is a
    [window] (no extension is looked for); MetaMask is listed exactly when
    the injected provider says it is MetaMask and has a [request]
    function.  When MetaMask is not listed, [connect(METAMASK)] throws. *)
Theorem getAvailableWallets_lists (m : Manager) :
  List.NoDup (getAvailableWallets m) /\
  In WALLETCONNECT (getAvailableWallets m) /\
  (In HASHPACK (getAvailableWallets m) <-> localStorage m <> None) /\
  (In METAMASK (getAvailableWallets m) <->
   exists eth, injected m = Some eth /\ isMetaMask eth = true /\
               request_is_function eth = true) /\
  (~ In METAMASK (getAvailableWallets m) ->
   is_ok (result (connect METAMASK m)) = false).
Proof.
  assert (Hav : isMetaMaskAvailable m = true <->
                exists eth, injected m = Some eth /\ isMetaMask eth = true /\
                            request_is_function eth = true).
  { unfold isMetaMaskAvailable, isMetaMaskInstalled.
    destruct (injected m) as [eth|]; simpl.
    - destruct (isMetaMask eth) eqn:Hmm; simpl.
      + split; [intros Hr; exists eth; auto|].
        intros (eth' & He & _ & Hr). injection He as <-. exact Hr.
      + split; [discriminate|].
        intros (eth' & He & Hm' & _). injection He as <-. congruence.
    - split; [discriminate|]. intros (eth' & He & _). discriminate He. }
  assert (Hlist : getAvailableWallets m
                  = (if isHashPackInstalled m then [HASHPACK] else [])
                    ++ (if isMetaMaskAvailable m then [METAMASK] else [])
                    ++ [WALLETCONNECT]) by reflexivity.
  split; [|split; [|split; [|split]]].
  - rewrite Hlist.
    destruct (isHashPackInstalled m), (isMetaMaskAvailable m); simpl;
      repeat (apply List.NoDup_cons; [simpl; intuition congruence|]);
      apply List.NoDup_nil.
  - rewrite Hlist. rewrite !in_app_iff. right. right. now left.
  - rewrite Hlist. unfold isHashPackInstalled.
    destruct (localStorage m), (isMetaMaskAvailable m); simpl;
      intuition (try discriminate; try congruence).
  - rewrite <- Hav. rewrite Hlist.
    destruct (isHashPackInstalled m), (isMetaMaskAvailable m); simpl;
      intuition (try discriminate; try congruence).
  - intros Hnot. apply connect_METAMASK_unavailable.
    destruct (isMetaMaskAvailable m) eqn:Hm; [|reflexivity].
    exfalso. apply Hnot. rewrite Hlist.
    destruct (isHashPackInstalled m); simpl; auto.
Qed.

(** ** A session reloaded from storage *)

(** X9: a session adopted from storage carries its provider and signer
    as plain data.  Until a restore replaces them, such a session of the
    injected provider is reported unhealthy, [getBalance()] answers "0"
    whatever balance is cached, and signing or sending throws a
    [TypeError]; none of these calls changes the manager. *)
Theorem reloaded_session_is_unusable (m : Manager) (c : WalletConnection)
    (j : json) :
  connection m = Some c ->
  type c <> HASHPACK ->
  provider c = Some (Plain j) ->
  json_truthy j = true ->
  getBalance m = (Ok "0", m) /\
  (type c = METAMASK -> checkConnectionHealth m = (Ok false, m)) /\
  (forall s, signer c = Some (Plain s) -> json_truthy s = true ->
     (forall text, signMessage text m = (Throw TypeError, m)) /\
     (forall transaction, sendTransaction transaction m = (Throw TypeError, m))).
Proof.
  intros Hc Hty Hp Hj. split; [|split].
  - unfold getBalance. run. rewrite Hc.
    destruct (type c); [congruence| |]; rewrite Hp; simpl; rewrite Hj;
      reflexivity.
  - intros Hmm. exact (plain_provider_unhealthy m c j Hc Hmm Hp Hj).
  - intros s Hs Hsj. split; intros x.
    + unfold signMessage. run. rewrite Hc.
      destruct (type c); [congruence| |]; rewrite Hs; simpl; rewrite Hsj;
        reflexivity.
    + unfold sendTransaction. run. rewrite Hc.
      destruct (type c); [congruence| |]; rewrite Hs; simpl; rewrite Hsj;
        reflexivity.
Qed.

(** ** Chain notifications of the injected provider *)

(** X17: the handler compares the reported chain, printed in decimal,
    with the text of the expected chain id.  When that text is not the
    decimal print of the number it parses to (an id written in
    hexadecimal, with leading zeros or with a sign), every notification
    of a chain in the range of safe integers (or of one that is no
    number) is followed by [networkMismatch], the expected chain
    included.  Beyond that range [parseInt] rounds and [toString] may
    print an exponent, and the statement is not made. *)
Theorem chainChanged_mismatch_for_unprinted_expected_id
    (m : Manager) (chain : string) :
  JS.toString (JS.parseInt expected_chain_id None) <> expected_chain_id ->
  (forall z, JS.parseInt chain (Some 16) = JS.Num z ->
             JS.isSafeInteger z = true) ->
  on_ethereum_chainChanged chain m
  = (Ok tt,
     set_emitted (emitted m ++ [chainChanged chain;
                                networkMismatch chain expected_chain_id]) m).
Proof.
  intros Hne _. apply on_ethereum_chainChanged_mismatch. intros Heq.
  apply Hne. rewrite <- Heq.
  destruct (JS.parseInt chain (Some 16)) as [|z].
  - reflexivity.
  - rewrite parseInt_toString. reflexivity.
Qed.

(** ** Loading by wallet type *)

(** X19: what [loadSavedConnection] starts after it has adopted a stored
    descriptor depends on the wallet type: for the injected provider it
    schedules one restore and emits nothing; for HashPack it emits
    [connected] with the adopted session at once; for WalletConnect it
    does neither, so the session is current without any event. *)
Theorem loadSavedConnection_by_type (m : Manager) (ls : gmap string string)
    (txt : string) (c : WalletConnection) :
  localStorage m = Some ls ->
  ls !! KEY = Some txt ->
  txt <> EmptyString ->
  JSON_parse txt = Some (json_of_connection c) ->
  chainId c <> Some JS.NaN ->
  exists m2,
    loadSavedConnection m = Some (Ok tt, m2) /\
    connection m2 = Some (plain_connection c) /\
    match type c with
    | METAMASK =>
        restore_timers m2 = S (restore_timers m) /\ emitted m2 = emitted m
    | HASHPACK =>
        restore_timers m2 = restore_timers m /\
        emitted m2 = emitted m ++ [connected (Some (plain_connection c))]
    | WALLETCONNECT =>
        restore_timers m2 = restore_timers m /\ emitted m2 = emitted m
    end.
Proof.
  intros Hls Hk Hne Hparse Hch.
  unfold loadSavedConnection. rewrite Hls, Hk.
  assert (Htr : JS.truthy txt = true).
  { unfold JS.truthy. apply negb_true_iff, String.eqb_neq. exact Hne. }
  rewrite Htr, Hparse.
  unfold adopt_parsed.
  rewrite (connection_of_json_of_connection c Hch).
  unfold json_of_connection at 1.
  unfold restoreHashPackConnection, isHashPackInstalled. run.
  destruct (type c); simpl; rewrite ?Hls; eexists; repeat split.
Qed.

(** ** Signing and sending *)

(** X20: with a HashPack session, [signMessage] and [sendTransaction]
    leave the manager as it is and throw only their own fixed errors:
    what the HashPack signer or the Hedera client throws never reaches
    the caller, nor does 'Hedera client not available'.  Without a Hedera
    client [sendTransaction] cannot return, whether or not the wallet
    signed. *)
Theorem hashpack_signing_errors (m : Manager) (c : WalletConnection) :
  connection m = Some c ->
  type c = HASHPACK ->
  (forall text,
     exists r, signMessage text m = (r, m) /\
       (forall e, r = Throw e ->
          e = Error "Failed to sign message with HashPack" \/
          e = Error "HashPack WalletConnect provider not available")) /\
  (forall transaction,
     exists r, sendTransaction transaction m = (r, m) /\
       (forall e, r = Throw e ->
          e = Error "Failed to send transaction with HashPack" \/
          e = Error "HashPack WalletConnect provider not available") /\
       (hederaClient m = false -> is_ok r = false)).
Proof.
  intros Hc Hty. split.
  - intros text. unfold signMessage. run. rewrite Hc, Hty.
    destruct (hederaWalletConnectProvider m); simpl.
    + destruct (hashpack_sign signing (accountId c) text); simpl;
        eexists; (split; [reflexivity|]); intros e0 He0;
        [discriminate He0 | injection He0 as <-; now left].
    + eexists; (split; [reflexivity|]); intros e0 He0.
      injection He0 as <-. now right.
  - intros transaction. unfold sendTransaction. run. rewrite Hc, Hty.
    destruct (hederaWalletConnectProvider m); simpl.
    + destruct (hashpack_signTransaction signing (accountId c) transaction)
        as [signed|e1]; simpl.
      * destruct (hederaClient m); simpl.
        -- destruct (hedera_execute signing signed); simpl;
             eexists; (split; [reflexivity|]); (split; [|discriminate]);
             intros e0 He0;
             [discriminate He0 | injection He0 as <-; now left].
        -- eexists; (split; [reflexivity|]); split; [|reflexivity].
           intros e0 He0. injection He0 as <-. now left.
      * eexists; (split; [reflexivity|]); split; [|reflexivity].
        intros e0 He0. injection He0 as <-. now left.
    + eexists; (split; [reflexivity|]); split; [|reflexivity].
      intros e0 He0. injection He0 as <-. now right.
Qed.

(** X21: [sendTransaction] returns an identifier only when the backend
    produced it: for HashPack the wallet signed and the Hedera client
    executed the signed transaction; otherwise the session holds a live
    signer, the signer sent the transaction and waiting for it gave a
    receipt, whose hash is the answer.  The manager is unchanged. *)
Theorem sendTransaction_returns_backend_id (m m' : Manager)
    (transaction : json) (id : string) :
  sendTransaction transaction m = (Ok id, m') ->
  m' = m /\
  exists c, connection m = Some c /\
    (type c = HASHPACK ->
       hederaWalletConnectProvider m = true /\ hederaClient m = true /\
       exists signed,
         hashpack_signTransaction signing (accountId c) transaction
         = Ok signed /\
         hedera_execute signing signed = Ok id) /\
    (type c <> HASHPACK ->
       exists via image sent,
         signer c = Some (Live via image) /\
         ethers_sendTransaction signing via transaction = Ok sent /\
         ethers_wait signing sent = Ok (Some id)).
Proof.
  unfold sendTransaction, signer_sendTransaction. run.
  destruct (connection m) as [c|]; [|discriminate].
  intros H.
  destruct (type c) eqn:Hty.
  - destruct (hederaWalletConnectProvider m); simpl in H; [|discriminate H].
    destruct (hashpack_signTransaction signing (accountId c) transaction)
      as [signed|e1] eqn:Hs; simpl in H; [|discriminate H].
    destruct (hederaClient m); simpl in H; [|discriminate H].
    destruct (hedera_execute signing signed) eqn:He; simpl in H;
      [|discriminate H].
    injection H as <- <-. split; [reflexivity|]. exists c.
    split; [reflexivity|]. split; [|congruence].
    intros _. repeat split. exists signed. rewrite He. auto.
  - destruct (signer c) as [[via image|data]|] eqn:Hsg; simpl in H.
    + destruct (ethers_sendTransaction signing via transaction)
        as [sent|e1] eqn:Hs; simpl in H; [|discriminate H].
      destruct (ethers_wait signing sent) as [[hash|]|e2] eqn:Hw;
        simpl in H; try discriminate H.
      injection H as <- <-. split; [reflexivity|]. exists c.
      split; [reflexivity|]. split; [congruence|].
      intros _. exists via, image, sent. auto.
    + destruct (json_truthy data); discriminate H.
    + discriminate H.
  - destruct (signer c) as [[via image|data]|] eqn:Hsg; simpl in H.
    + destruct (ethers_sendTransaction signing via transaction)
        as [sent|e1] eqn:Hs; simpl in H; [|discriminate H].
      destruct (ethers_wait signing sent) as [[hash|]|e2] eqn:Hw;
        simpl in H; try discriminate H.
      injection H as <- <-. split; [reflexivity|]. exists c.
      split; [reflexivity|]. split; [congruence|].
      intros _. exists via, image, sent. auto.
    + destruct (json_truthy data); discriminate H.
    + discriminate H.
Qed.

(** ** With listeners *)

(** The methods with [emit] as a parameter are the methods above when
    the parameter is the [emit] that only records the event. *)
Lemma via_emit :
  resetConnectionState_via emit = resetConnectionState /\
  connectHashPack_via emit = connectHashPack /\
  connectMetaMask_via emit = connectMetaMask /\
  connectWalletConnect_via emit = connectWalletConnect /\
  connect_via emit = connect /\
  restoreMetaMaskConnection_via emit = restoreMetaMaskConnection.
Proof. repeat split. Qed.

(** With listeners that return, [emit_to] is that [emit]. *)
Lemma emit_to_returning (listeners : Event -> Manager -> outcome unit)
    (e : Event) (m : Manager) :
  (forall m0, listeners e m0 = Ok tt) ->
  emit_to listeners e m = emit e m.
Proof.
  intros H. unfold emit_to. run. rewrite H. reflexivity.
Qed.

(** ** Reset *)

(** X7: [resetConnectionState()] always ends with no session, no relay
    provider, no HashPack connector and no stored descriptor.  It emits
    [disconnected] with a [null] payload even when there was no session,
    makes no request to a backend and leaves the handlers registered on
    the backends in place.  Everything is cleared before the event is
    dispatched: the call throws exactly when a listener of
    [disconnected] throws, with that error, and the state is cleared all
    the same. *)
Theorem resetConnectionState_clears
    (listeners : Event -> Manager -> outcome unit) (m : Manager) :
  exists m',
    resetConnectionState_via (emit_to listeners) m
    = (listeners (disconnected None) m', m') /\
    connection m' = None /\
    walletConnectProvider m' = None /\
    hashPackConnector m' = false /\
    hederaWalletConnectProvider m' = false /\
    persisted m' = None /\
    emitted m' = emitted m ++ [disconnected None] /\
    ethereum_requests m' = ethereum_requests m /\
    ethereum_handlers m' = ethereum_handlers m /\
    relay_handlers m' = relay_handlers m.
Proof.
  unfold resetConnectionState_via, emit_to, clearSavedConnection, persisted.
  run.
  destruct (localStorage m) as [ls|] eqn:Hls; simpl.
  - match goal with
    | |- context [listeners ?e ?m0] =>
        exists m0; split;
        [destruct (listeners e m0) as [[]|e0]; reflexivity|]
    end.
    simpl. rewrite ?Hls. repeat split. apply lookup_delete_eq.
  - match goal with
    | |- context [listeners ?e ?m0] =>
        exists m0; split;
        [destruct (listeners e m0) as [[]|e0]; reflexivity|]
    end.
    simpl. rewrite ?Hls. repeat split.
Qed.

(** ** HashPack *)

(** X15: [connectHashPack] with its listeners.  When it returns, the
    connector initialised, the extension connected, there is a signer and
    the listeners of [connected] returned; the session is on the first
    signer's account, has no signer or provider object, and its [chainId]
    is the one of [getNetworkInfo()].  Conversely, when the connector
    initialises, the extension connects and there is a signer, the
    session is set and [connected] is emitted whatever the balance query
    does (a failing query gives the balance "0"), and the call returns
    that session unless a listener of [connected] throws, whose error it
    then throws. *)
Theorem connectHashPack_returns_when
    (listeners : Event -> Manager -> outcome unit) (m : Manager) :
  (forall c m',
     connectHashPack_via (emit_to listeners) m = (Ok c, m') ->
     is_ok (hashpack_init w) = true /\
     is_ok (hashpack_connectExtension w) = true /\
     is_ok (listeners (connected (Some c)) m') = true /\
     chainId c
     = option_map (fun n => JS.Num (net_chainId n)) getNetworkInfo /\
     exists signer0 rest,
       hashpack_signers w = signer0 :: rest /\
       c = hashpack_session_of m signer0) /\
  (forall signer0 rest,
     is_ok (hashpack_init w) = true ->
     is_ok (hashpack_connectExtension w) = true ->
     hashpack_signers w = signer0 :: rest ->
     exists m',
       connectHashPack_via (emit_to listeners) m
       = (match listeners (connected (Some (hashpack_session_of m signer0))) m'
          with
          | Ok _ => Ok (hashpack_session_of m signer0)
          | Throw error => Throw error
          end, m') /\
       connection m' = Some (hashpack_session_of m signer0) /\
       emitted m'
       = emitted m ++ [connected (Some (hashpack_session_of m signer0))]).
Proof.
  destruct m as [conn hc wcp hpc hwp ls em rq eh rh rt].
  unfold connectHashPack_via, connectHashPackWalletConnect_via, emit_to,
    saveConnection, getNetworkInfo, hashpack_session_of.
  run.
  destruct (hashpack_init w) as [[]|e1]; simpl.
  2:{ destruct hpc; (split; [intros c m' H; discriminate H|]);
        intros s0 r0 Hi; discriminate Hi. }
  destruct (hashpack_connectExtension w) as [[]|e2]; simpl.
  2:{ destruct hpc; (split; [intros c m' H; discriminate H|]);
        intros s0 r0 _ He; discriminate He. }
  destruct (hashpack_signers w) as [|signer0 rest]; simpl.
  1:{ destruct hpc; (split; [intros c m' H; discriminate H|]);
        intros s0 r0 _ _ Hs; discriminate Hs. }
  assert (Hbal : exists b,
            (if hc then hedera_balance w (AccountId_toString signer0)
             else Ok "0") = b) by eauto.
  destruct Hbal as (b & Hb).
  destruct hpc, hc; simpl in *;
    try (destruct (hedera_balance w (AccountId_toString signer0))
           as [b0|e3] eqn:Hq; simpl);
    destruct ls as [g|]; simpl;
    match goal with
    | |- context [listeners ?e ?m0] =>
        destruct (listeners e m0) as [[]|e0] eqn:Hl
    end.
  all: split;
    [ intros c m' H;
      first [ discriminate H
            | injection H as <- <-; rewrite Hl;
              do 4 (split; [reflexivity|]);
              exists signer0, rest; rewrite ?Hq; split; reflexivity ]
    | intros s0 r0 _ _ Hs; injection Hs as <- <-; rewrite ?Hq;
      match goal with
      | |- exists m', (_, ?st) = _ /\ _ => exists st
      end;
      split; [ cbn; rewrite Hl; reflexivity | split; reflexivity ] ].
Qed.

(** ** A connect that throws *)

Ltac expose_via :=
  cbv beta iota zeta delta
    [connect_via connectHashPack_via connectHashPackWalletConnect_via
     connectMetaMask_via connectWalletConnect_via metamask_catch_via
     resetConnectionState_via emit_to
     metamask_probe race_requestAccounts
     switch_network request clearSavedConnection
     saveConnection setupMetaMaskListeners setupWalletConnectListeners
     this_ethereum injected bind ret throw try_catch await get modify emit
     set_connection set_emitted set_localStorage set_ethereum_requests
     set_ethereum_handlers set_relay_handlers set_walletConnectProvider
     set_hashPackConnector set_hederaWalletConnectProvider
     connection hederaClient walletConnectProvider hashPackConnector
     hederaWalletConnectProvider localStorage emitted ethereum_requests
     ethereum_handlers relay_handlers restore_timers].

(** X27: a [connect] that throws, with its listeners.  Either the
    failure came before the session was set, and the current session,
    the storage and the trace of events are as they were; or a listener
    of [connected] threw, and then the new session is already current,
    its descriptor is stored and [connected] has been emitted, although
    the caller gets an error. *)
Theorem connect_failure_effects
    (listeners : Event -> Manager -> outcome unit)
    (walletType : WalletType) (m m' : Manager) (e : JsError) :
  connect_via (emit_to listeners) walletType m = (Throw e, m') ->
  (connection m' = connection m /\
   localStorage m' = localStorage m /\
   emitted m' = emitted m) \/
  (exists c e0,
     listeners (connected (Some c)) m' = Throw e0 /\
     connection m' = Some c /\
     type c = walletType /\
     emitted m' = emitted m ++ [connected (Some c)] /\
     (forall ls, localStorage m = Some ls ->
        persisted m' = Some (JSON_stringify (json_of_connection c)))).
Proof.
  destruct m as [conn hc wcp hpc hwp ls em rq eh rh rt].
  destruct walletType; expose_via; intros H; split_exposed H.
  all: try (injection H as _ <-; left; repeat split; reflexivity).
  all: try (exfalso;
            match goal with
            | Hc : (_ && _) = true |- _ => simpl in Hc; discriminate Hc
            end).
  all: injection H as _ <-; right; do 2 eexists.
  all: (split; [eassumption|]).
  all: unfold persisted; cbn.
  all: repeat split.
  all: first [ intros ls0 _; apply lookup_insert_eq
             | intros ls0 Hls0; discriminate Hls0 ].
Qed.

(** ** A restore that goes through *)

(** X28: a restore of a session of the injected provider that goes
    through, with its listeners.  The session gets a fresh provider and
    signer and the balance just read and keeps its type and account, it
    is saved again and [connected] is emitted once; the call returns in
    any case.  When the listeners of [connected] return, the handlers on
    the provider are registered and the descriptor stays stored; when
    one throws, the inner [catch] deletes the descriptor and no handler
    is registered, while the restored session stays current.  (The
    stored text is that of the eight members of [WalletConnection].) *)
Theorem restoreMetaMaskConnection_goes_through
    (listeners : Event -> Manager -> outcome unit) (m : Manager) :
  restore_goes_through m ->
  exists m1 m' c c',
    restoreMetaMaskConnection_via (emit_to listeners) m = (Ok tt, m') /\
    connection m = Some c /\ connection m' = Some c' /\
    type c' = type c /\ accountId c' = accountId c /\
    address c' = address c /\
    (exists h, signer c' = Some h /\ is_live h = true) /\
    provider c' = Some (BrowserProvider Injected) /\
    emitted m' = emitted m ++ [connected (Some c')] /\
    connection m1 = Some c' /\ emitted m1 = emitted m' /\
    persisted m1 = Some (JSON_stringify (json_of_connection c')) /\
    match listeners (connected (Some c')) m1 with
    | Ok _ =>
        persisted m' = persisted m1 /\
        ethereum_handlers m' = S (ethereum_handlers m)
    | Throw _ =>
        persisted m' = None /\
        ethereum_handlers m' = ethereum_handlers m
    end.
Proof.
  intros (eth & a & rest & c & si & b & Hi & Hm & Hr & Ha & Hc & Hl & Hs & Hb).
  assert (Hls : exists ls, localStorage m = Some ls /\ window_ethereum w = Some eth).
  { unfold injected in Hi. destruct (localStorage m) as [ls|]; [eauto|discriminate]. }
  destruct Hls as (ls & Hls & Hw).
  apply String.eqb_eq in Hl.
  unfold restoreMetaMaskConnection_via, emit_to, window_dot_ethereum, request,
    saveConnection, setupMetaMaskListeners, this_ethereum, injected,
    clearSavedConnection,
    provider_getSigner, provider_getBalance, BrowserProvider, persisted.
  do 6 (run; rewrite ?Hls, ?Hw, ?Hm, ?Hr, ?Ha, ?Hc, ?Hl, ?Hs, ?Hb).
  match goal with
  | |- context [listeners ?e ?m0] =>
      exists m0; destruct (listeners e m0) as [[]|e0] eqn:Hlis
  end.
  - eexists _, c, _. split; [reflexivity|]. simpl.
    rewrite ?Hls, ?Hw. simpl.
    repeat split; try reflexivity.
    + eexists. split; reflexivity.
    + apply lookup_insert_eq.
    + rewrite Hlis. split; reflexivity.
  - eexists _, c, _. split; [reflexivity|]. simpl.
    repeat split; try reflexivity.
    + eexists. split; reflexivity.
    + apply lookup_insert_eq.
    + rewrite Hlis. split; [apply lookup_delete_eq | reflexivity].
Qed.

(** ** The authentication hook *)

(** X22: [restoreConnection()] of the hook answers [true] only for a
    session of the injected provider whose wallet silently reports the
    saved account first and whose provider object, when the session has
    one, answers the balance query.  It then has marked the hook
    connected with that session and has changed neither the session, the
    storage nor the trace of events.  For a HashPack or WalletConnect
    session it never answers [true]. *)
Theorem restoreConnection_true_only_for_injected
    (a a' : AuthState) (m m' : Manager) :
  restoreConnection a m = (true, (a', m')) ->
  exists c eth account rest,
    connection m = Some c /\ type c = METAMASK /\
    injected m = Some eth /\
    eth_accounts eth = Ok (Some (account :: rest)) /\
    JS.toLowerCase account = JS.toLowerCase (address c) /\
    (forall p, provider c = Some p -> handle_truthy p = true ->
       is_ok (provider_getBalance p (address c)) = true) /\
    auth_isConnected a' = true /\ auth_connection a' = Some c /\
    connection m' = Some c /\ localStorage m' = localStorage m /\
    emitted m' = emitted m.
Proof.
  unfold restoreConnection.
  destruct (connection m) as [c|] eqn:Hc; [|discriminate].
  destruct (canRestoreConnection_run m) as (b & l & Hrun & _ & Hb).
  rewrite Hrun. destruct b; [|discriminate].
  destruct (proj1 Hb eq_refl)
    as (c0 & eth & account & rest & Hc0 & Hty & Hinj & _ & _ & Hacc & Hlow).
  rewrite Hc in Hc0. injection Hc0 as <-.
  unfold checkConnectionHealth, read_profile. run. rewrite Hc, Hty.
  intros H. exists c, eth, account, rest.
  split; [reflexivity|]. do 4 (split; [assumption|]).
  destruct (provider c) as [p|] eqn:Hp.
  - destruct (handle_truthy p) eqn:Htr; simpl in H.
    + destruct (provider_getBalance p (address c)) eqn:Hbal; simpl in H;
        [|discriminate H].
      destruct (localStorage m) as [ls|] eqn:Hls; [|discriminate H].
      destruct (ls !! user_key (accountId c)) as [u|].
      * destruct (JS.truthy u);
          [destruct (JSON_parse u); [|discriminate H]|];
          injection H as <- <-; simpl; repeat split; try assumption;
          intros p' Hp' _; injection Hp' as <-; rewrite Hbal; reflexivity.
      * injection H as <- <-; simpl; repeat split; try assumption;
          intros p' Hp' _; injection Hp' as <-; rewrite Hbal; reflexivity.
    + destruct (localStorage m) as [ls|] eqn:Hls; [|discriminate H].
      destruct (ls !! user_key (accountId c)) as [u|].
      * destruct (JS.truthy u);
          [destruct (JSON_parse u); [|discriminate H]|];
          injection H as <- <-; simpl; repeat split; try assumption;
          intros p' Hp' Htr'; injection Hp' as <-; congruence.
      * injection H as <- <-; simpl; repeat split; try assumption;
          intros p' Hp' Htr'; injection Hp' as <-; congruence.
  - simpl in H.
    destruct (localStorage m) as [ls|] eqn:Hls; [|discriminate H].
    destruct (ls !! user_key (accountId c)) as [u|].
    + destruct (JS.truthy u);
        [destruct (JSON_parse u); [|discriminate H]|];
        injection H as <- <-; simpl; repeat split; try assumption;
        intros p' Hp'; discriminate Hp'.
    + injection H as <- <-; simpl; repeat split; try assumption;
        intros p' Hp'; discriminate Hp'.
Qed.

(** X23: on mount, for a session of the injected provider that was
    reloaded from storage and not yet restored (its provider is plain
    data), [checkExistingSession] never marks the hook connected.  When
    the wallet silently confirms the saved account, the health check that
    follows fails on the plain provider and the hook resets the
    connector: the session and the stored descriptor are gone and
    [disconnected] is emitted.  When the wallet does not confirm it, the
    session and the storage are left as they are. *)
Theorem checkExistingSession_resets_reloaded_session
    (a a' : AuthState) (m m' : Manager) (c : WalletConnection) (j : json) :
  connection m = Some c ->
  type c = METAMASK ->
  provider c = Some (Plain j) ->
  json_truthy j = true ->
  checkExistingSession a m = (a', m') ->
  auth_isLoading a' = false /\
  (auth_isConnected a' = true -> auth_isConnected a = true) /\
  (result (canRestoreConnection m) = Ok true ->
   connection m' = None /\ persisted m' = None /\
   emitted m' = emitted m ++ [disconnected None] /\
   auth_isConnected a' = false /\ auth_connection a' = None /\
   auth_user a' = None) /\
  (result (canRestoreConnection m) <> Ok true ->
   connection m' = Some c /\ localStorage m' = localStorage m /\
   emitted m' = emitted m /\
   auth_isConnected a' = auth_isConnected a /\
   auth_connection a' = auth_connection a).
Proof. clear JSON_stringify.
  intros Hc Hty Hp Hj. unfold checkExistingSession. rewrite Hc.
  destruct (canRestoreConnection_run m) as (b & l & Hrun & _ & _).
  rewrite Hrun. unfold result. simpl fst.
  destruct b.
  - rewrite (plain_provider_unhealthy
               (set_ethereum_requests (ethereum_requests m ++ l) m) c j
               Hc Hty Hp Hj).
    unfold auth_reset, resetConnectionState, clearSavedConnection, persisted.
    run. intros H. injection H as <- <-.
    destruct (localStorage m) as [ls|] eqn:Hls; simpl; rewrite ?Hls;
      (split; [reflexivity|]); (split; [discriminate|]);
      (split; [|intros Hne; congruence]);
      intros _; repeat split; apply lookup_delete_eq.
  - intros H. injection H as <- <-. simpl.
    split; [reflexivity|]. split; [tauto|].
    split; [discriminate|]. intros _. repeat split. exact Hc.
Qed.

(** X24: a healthy, restorable session whose stored user profile is not
    empty and does not parse.  On mount the hook's [catch] resets the
    connector, so the session and its stored descriptor are lost while
    the bad profile text stays in storage; [restoreConnection()] in the
    same situation answers [false] but leaves the hook marked as
    connected. *)
Theorem corrupted_profile_ends_session
    (a : AuthState) (m m1 m2 : Manager) (c : WalletConnection)
    (ls : gmap string string) (txt : string) :
  connection m = Some c ->
  canRestoreConnection m = (Ok true, m1) ->
  checkConnectionHealth m1 = (Ok true, m2) ->
  localStorage m2 = Some ls ->
  ls !! user_key (accountId c) = Some txt ->
  txt <> EmptyString ->
  JSON_parse txt = None ->
  (exists a' m',
     checkExistingSession a m = (a', m') /\
     auth_isConnected a' = false /\ auth_connection a' = None /\
     connection m' = None /\
     localStorage m' = Some (delete KEY ls) /\
     delete KEY ls !! user_key (accountId c) = Some txt /\
     emitted m' = emitted m2 ++ [disconnected None]) /\
  restoreConnection a m = (false, (auth_mark_connected c a, m2)) /\
  auth_isConnected (auth_mark_connected c a) = true.
Proof.
  intros Hc Hcan Hhealth Hls Hk Hne Hparse.
  assert (Htr : JS.truthy txt = true).
  { unfold JS.truthy. apply negb_true_iff, String.eqb_neq. exact Hne. }
  assert (Hprof : read_profile m2 (accountId c) = Throw SyntaxError).
  { unfold read_profile. rewrite Hls, Hk, Htr, Hparse. reflexivity. }
  split; [|split; [|reflexivity]].
  - unfold checkExistingSession. rewrite Hc, Hcan, Hhealth, Hprof.
    unfold auth_reset, resetConnectionState, clearSavedConnection. run.
    rewrite Hls. simpl. eexists. eexists. split; [reflexivity|].
    simpl. repeat split.
    rewrite lookup_delete_ne; [exact Hk|].
    unfold KEY, user_key. cbn. discriminate.
  - unfold restoreConnection. rewrite Hc, Hcan, Hhealth, Hprof. reflexivity.
Qed.

(** ** Handlers on the relay provider *)

Lemma connectWalletConnect_handlers (m m' : Manager) (c : WalletConnection) :
  connectWalletConnect m = (Ok c, m') ->
  exists p,
    walletConnectProvider m' = Some p /\
    (walletConnectProvider m = None \/ walletConnectProvider m = Some p) /\
    relay_handlers m'
    = (relay_handlers m + if has_on p then 1 else 0)%nat /\
    connection m' = Some c /\ type c = WALLETCONNECT.
Proof.
  destruct m as [conn hc wcp hpc hwp ls em rq eh rh rt].
  expose; intros H; split_exposed H.
  all: injection H as <- <-; cbn.
  all: eexists; (split; [reflexivity|]).
  all: repeat match goal with
              | Hx : has_on _ = _ |- _ => rewrite Hx; clear Hx
              end.
  all: repeat split; auto; lia.
Qed.

Lemma disconnect_relay_frame (m m' : Manager) (c : WalletConnection)
    (r : outcome unit) :
  connection m = Some c ->
  type c = WALLETCONNECT ->
  disconnect m = (r, m') ->
  walletConnectProvider m' = walletConnectProvider m /\
  relay_handlers m' = relay_handlers m.
Proof.
  intros Hc Hty. unfold disconnect, clearSavedConnection. run.
  rewrite Hc, Hty.
  destruct (walletConnectProvider m) as [p|] eqn:Hwp; simpl.
  - destruct (has_disconnect p); simpl.
    + destruct (relay_disconnect w) as [[]|e]; simpl;
        destruct (localStorage m); simpl; intros H; injection H as _ <-;
        simpl; auto.
    + destruct (localStorage m); simpl; intros H; injection H as _ <-;
        simpl; auto.
  - destruct (localStorage m); simpl; intros H; injection H as _ <-;
      simpl; auto.
Qed.

Lemma connect_WALLETCONNECT_ok (m m' : Manager) (c : WalletConnection) :
  connect WALLETCONNECT m = (Ok c, m') ->
  connectWalletConnect m = (Ok c, m').
Proof.
  unfold connect, try_catch.
  destruct (connectWalletConnect m) as [[c0|e] m0]; unfold throw;
    intros H; [exact H | discriminate H].
Qed.

(** X26: the handlers that a WalletConnect connect registers on the
    relay provider are never removed, and the provider object is kept
    across [disconnect()].  After connect, disconnect and connect again
    the same provider carries two sets of handlers (when it has [on]),
    so each of its notifications is handled twice. *)
Theorem relay_handlers_accumulate (m m1 m2 m3 : Manager)
    (c c' : WalletConnection) (r : outcome unit) :
  connect WALLETCONNECT m = (Ok c, m1) ->
  disconnect m1 = (r, m2) ->
  connect WALLETCONNECT m2 = (Ok c', m3) ->
  exists p,
    walletConnectProvider m1 = Some p /\
    walletConnectProvider m3 = Some p /\
    relay_handlers m3
    = (relay_handlers m + if has_on p then 2 else 0)%nat.
Proof.
  intros H1 H2 H3.
  apply connect_WALLETCONNECT_ok in H1. apply connect_WALLETCONNECT_ok in H3.
  destruct (connectWalletConnect_handlers _ _ _ H1)
    as (p & Hp1 & _ & Hr1 & Hc1 & Hty1).
  destruct (disconnect_relay_frame _ _ _ _ Hc1 Hty1 H2) as (Hp2 & Hr2).
  destruct (connectWalletConnect_handlers _ _ _ H3)
    as (p' & Hp3 & Hor & Hr3 & _ & _).
  rewrite Hp2, Hp1 in Hor.
  destruct Hor as [Hor|Hor]; [discriminate Hor|]. injection Hor as <-.
  exists p. split; [exact Hp1|]. split; [exact Hp3|].
  rewrite Hr3, Hr2, Hr1. destruct (has_on p); lia.
Qed.

End Connector.

(* ===================================================================== *)
(** * Across worlds *)
(* ===================================================================== *)

(** X25: when the manager already holds a relay provider,
    [connectWalletConnect] does not initialise another one: its answer
    and the manager it leaves do not depend on what
    [EthereumProvider.init] would do. *)
Theorem connectWalletConnect_reuses_provider
    (JSON_stringify : json -> string) (w : World)
    (o : outcome WalletProvider) (m : Manager) (p : WalletProvider) :
  walletConnectProvider m = Some p ->
  connectWalletConnect JSON_stringify (with_EthereumProvider_init o w) m
  = connectWalletConnect JSON_stringify w m.
Proof.
  intros H. destruct m as [conn hc wcp hpc hwp ls em rq eh rh rt].
  simpl in H. subst wcp.
  unfold connectWalletConnect, try_catch, bind, get, ret, throw.
  cbn [NEXT_PUBLIC_WALLETCONNECT_PROJECT_ID with_EthereumProvider_init].
  destruct (env_missing (NEXT_PUBLIC_WALLETCONNECT_PROJECT_ID w));
    reflexivity.
Qed.

(* ===================================================================== *)
(** * Runs on sample worlds *)
(* ===================================================================== *)

Example parseInt_296 : JS.parseInt "296" None = JS.Num 296.
Proof. reflexivity. Qed.

Example parseInt_hex_0x128 : JS.parseInt "0x128" (Some 16) = JS.Num 296.
Proof. reflexivity. Qed.

Example parseInt_garbage : JS.parseInt "mainnet" None = JS.NaN.
Proof. reflexivity. Qed.

Example toString16_296 : JS.toString16 (JS.Num 296) = "128".
Proof. reflexivity. Qed.

Example toLowerCase_addr : JS.toLowerCase "0xABCdef01" = "0xabcdef01".
Proof. reflexivity. Qed.

Example includes_unlocked :
  JS.includes "Please check if MetaMask is unlocked." "locked" = true.
Proof. reflexivity. Qed.

Example ref_roundtrip :
  RefJSON.parse (RefJSON.stringify
    (JObj [("a", JArr [JNum (-12); JNull; JBool true]); ("b", JStr "x\y")]))
  = Some (JObj [("a", JArr [JNum (-12); JNull; JBool true]); ("b", JStr "x\y")]).
Proof. vm_compute. reflexivity. Qed.

Example ref_garbage : RefJSON.parse "not json {" = None.
Proof. vm_compute. reflexivity. Qed.

(** [connect] in the sample world, from an empty page. *)
Example connect_metamask_sample :
  result (connect RefJSON.stringify sample_world METAMASK page)
  = Ok metamask_session.
Proof. vm_compute. reflexivity. Qed.

Example connect_walletconnect_sample :
  result (connect RefJSON.stringify sample_world WALLETCONNECT page)
  = Ok relay_session.
Proof. vm_compute. reflexivity. Qed.

Example metamask_text_value :
  metamask_text =
  "{" +:+ RefJSON.quote "type" +:+ ":" +:+ RefJSON.quote "metamask" +:+ ","
  +:+ RefJSON.quote "accountId" +:+ ":" +:+ RefJSON.quote "0xABC1" +:+ ","
  +:+ RefJSON.quote "address" +:+ ":" +:+ RefJSON.quote "0xABC1" +:+ ","
  +:+ RefJSON.quote "signer" +:+ ":{" +:+ RefJSON.quote "provider" +:+ ":{},"
  +:+ RefJSON.quote "address" +:+ ":" +:+ RefJSON.quote "0xABC1" +:+ "},"
  +:+ RefJSON.quote "provider" +:+ ":{},"
  +:+ RefJSON.quote "balance" +:+ ":" +:+ RefJSON.quote "12.5" +:+ ","
  +:+ RefJSON.quote "network" +:+ ":" +:+ RefJSON.quote "testnet" +:+ ","
  +:+ RefJSON.quote "chainId" +:+ ":296}".
Proof. vm_compute. reflexivity. Qed.

(** Without an injected provider, and with a wallet that does not answer
    the accounts request in time, [connect] throws. *)
Example connect_without_metamask :
  result (connect RefJSON.stringify world_without_metamask METAMASK page)
  = Throw (Error "MetaMask is not installed. Please install MetaMask extension.").
Proof. vm_compute. reflexivity. Qed.

Example connect_locked_times_out :
  result (connect RefJSON.stringify world_locked METAMASK page)
  = Throw (Error "MetaMask connection timeout. Please try again.").
Proof. vm_compute. reflexivity. Qed.

Example constructor_reloads :
  new_WalletConnector RefJSON.parse (Some {[ KEY := metamask_text ]})
  = Some reloaded_page.
Proof. vm_compute. reflexivity. Qed.

Example connect_walletconnect_state :
  final (connect RefJSON.stringify sample_world WALLETCONNECT page)
  = relay_connected_page.
Proof. vm_compute. reflexivity. Qed.

(** ** C1 *)

(** A [connect] issued while a session is current is not rejected: it
    requests the accounts from the wallet again and returns a session. *)
Lemma connect_while_connected_runs_handshake :
  connection connected_page = Some metamask_session /\
  result (connect RefJSON.stringify sample_world METAMASK connected_page)
  = Ok metamask_session /\
  ethereum_requests
    (final (connect RefJSON.stringify sample_world METAMASK connected_page))
  = ["eth_chainId"; "eth_requestAccounts"; "eth_chainId"].
Proof. repeat split; vm_compute; reflexivity. Qed.

(** ** C2 *)

(** With no injected provider in the page, the restore deletes the stored
    descriptor. *)
Lemma restore_without_backend_deletes_descriptor :
  persisted reloaded_page = Some metamask_text /\
  window_ethereum world_without_metamask = None /\
  persisted
    (final (restoreMetaMaskConnection RefJSON.stringify
              world_without_metamask reloaded_page))
  = None.
Proof. repeat split; vm_compute; reflexivity. Qed.

(** With a locked wallet the descriptor stays. *)
Lemma restoreMetaMaskConnection_failure_witness :
  ~ restore_goes_through world_locked reloaded_page /\
  restore_interrupted world_locked reloaded_page /\
  result (restoreMetaMaskConnection RefJSON.stringify world_locked reloaded_page)
  = Ok tt /\
  persisted
    (final (restoreMetaMaskConnection RefJSON.stringify world_locked
              reloaded_page))
  = Some metamask_text.
Proof.
  assert (Hno : ~ restore_goes_through world_locked reloaded_page).
  { intros (eth & a & rest & c & si & b & Hi & _ & _ & Ha & _).
    vm_compute in Hi. injection Hi as <-. discriminate Ha. }
  assert (Hint : restore_interrupted world_locked reloaded_page).
  { right. exists locked_metamask. split; [reflexivity|].
    split; [reflexivity|]. right. eexists. reflexivity. }
  destruct (restoreMetaMaskConnection_failure RefJSON.stringify world_locked
              reloaded_page Hno) as (m' & Hrun & _ & _ & Hkeep & _).
  split; [exact Hno|]. split; [exact Hint|].
  rewrite Hrun. split; [reflexivity|].
  simpl. rewrite (Hkeep Hint). vm_compute. reflexivity.
Defined.

(** ** C3 *)

(** The text written for a session of the injected provider has a
    [signer] member, and the loaded descriptor has a [signer]. *)
Lemma saved_descriptor_keeps_signer :
  persisted (final (saveConnection RefJSON.stringify connected_page))
  = Some metamask_text /\
  RefJSON.parse metamask_text = Some (json_of_connection metamask_session) /\
  has_key "signer" (json_of_connection metamask_session) = true /\
  match loadSavedConnection RefJSON.parse
          (final (saveConnection RefJSON.stringify connected_page)) with
  | Some r =>
      option_map signer (connection (final r))
      = Some (Some (Plain (JObj [("provider", JObj []);
                                 ("address", JStr "0xABC1")])))
  | None => False
  end.
Proof. repeat split; vm_compute; reflexivity. Qed.

Lemma save_then_load_witness :
  localStorage connected_page = Some ∅ /\
  connection connected_page = Some metamask_session /\
  chainId metamask_session <> Some JS.NaN /\
  RefJSON.stringify (json_of_connection metamask_session) <> EmptyString /\
  RefJSON.parse (RefJSON.stringify (json_of_connection metamask_session))
  = Some (json_of_connection metamask_session) /\
  exists m1 m3 d,
    saveConnection RefJSON.stringify connected_page = (Ok tt, m1) /\
    new_WalletConnector RefJSON.parse (localStorage m1) = Some m3 /\
    connection m3 = Some d /\
    accountId d = "0xABC1" /\ address d = "0xABC1" /\
    chainId d = Some (JS.Num 296).
Proof.
  assert (H1 : localStorage connected_page = Some ∅) by reflexivity.
  assert (H2 : connection connected_page = Some metamask_session) by reflexivity.
  assert (H3 : chainId metamask_session <> Some JS.NaN) by discriminate.
  assert (H4 : RefJSON.stringify (json_of_connection metamask_session)
               <> EmptyString) by (vm_compute; discriminate).
  assert (H5 : RefJSON.parse
                 (RefJSON.stringify (json_of_connection metamask_session))
               = Some (json_of_connection metamask_session))
    by (vm_compute; reflexivity).
  repeat (split; [assumption|]).
  destruct (save_then_load RefJSON.stringify RefJSON.parse connected_page ∅
              metamask_session H1 H2 H3 H4 H5)
    as (m1 & m2 & m3 & d & Hs & _ & _ & _ & Hl & Hd & _ & Ha & Had & _ & _
        & Hch & _).
  exists m1, m3, d. repeat split; assumption.
Defined.

(** ** C4 *)

(** C4: a relay session, expected chain 296, and the relay provider
    reports chain [0x1].  The relay handler emits [chainChanged] and
    nothing else; the handler of the injected provider, on the same
    manager and chain, emits [chainChanged] and then [networkMismatch]. *)
Theorem relay_chainChanged_emits_no_mismatch :
  type relay_session = WALLETCONNECT /\
  expected_chain_id sample_world = "296" /\
  on_relay_chainChanged "0x1" relay_connected_page
  = (Ok tt,
     set_emitted (emitted relay_connected_page ++ [chainChanged "0x1"])
       relay_connected_page) /\
  emitted (final (on_ethereum_chainChanged sample_world "0x1"
                    relay_connected_page))
  = emitted relay_connected_page
    ++ [chainChanged "0x1"; networkMismatch "0x1" "296"].
Proof. repeat split; vm_compute; reflexivity. Qed.

(** ** C5 *)



(** ** C6 *)

Lemma canRestoreConnection_true_iff_witness :
  (forall c, connection connected_page = Some c -> address c = accountId c) /\
  result (canRestoreConnection sample_world connected_page) = Ok true.
Proof.
  assert (H : forall c, connection connected_page = Some c ->
                        address c = accountId c).
  { intros c Hc. injection Hc as <-. reflexivity. }
  split; [exact H|].
  destruct (canRestoreConnection_true_iff sample_world connected_page H)
    as (b & l & Hrun & _ & Hb).
  rewrite Hrun. simpl. f_equal. apply Hb.
  exists metamask_session, sample_metamask, "0xABC1", [].
  repeat split; reflexivity.
Defined.

(** ** C7 *)

Lemma connect_returns_populated_session_witness :
  rejects_empty_address sample_world /\
  connect RefJSON.stringify sample_world METAMASK page
  = (Ok metamask_session,
     final (connect RefJSON.stringify sample_world METAMASK page)) /\
  accountId metamask_session <> EmptyString /\
  type metamask_session = METAMASK.
Proof.
  assert (H1 : rejects_empty_address sample_world) by reflexivity.
  assert (H2 : connect RefJSON.stringify sample_world METAMASK page
               = (Ok metamask_session,
                  final (connect RefJSON.stringify sample_world METAMASK page)))
    by (vm_compute; reflexivity).
  split; [exact H1|]. split; [exact H2|].
  destruct (connect_returns_populated_session RefJSON.stringify sample_world
              METAMASK page _ metamask_session H1 H2) as (Hn & Ht & _).
  split; assumption.
Defined.

(** ** C8 *)

(** The empty text is not JSON either, but [loadSavedConnection] takes it
    for no saved connection and leaves the key. *)
Lemma empty_text_is_left_in_storage :
  persisted empty_text_page = Some EmptyString /\
  RefJSON.parse EmptyString = None /\
  loadSavedConnection RefJSON.parse empty_text_page
  = Some (Ok tt, empty_text_page).
Proof. repeat split; vm_compute; reflexivity. Qed.

Lemma loadSavedConnection_corrupted_witness :
  localStorage garbage_page = Some {[ KEY := "not json {" ]} /\
  ({[ KEY := "not json {" ]} : gmap string string) !! KEY = Some "not json {" /\
  "not json {" <> EmptyString /\
  RefJSON.parse "not json {" = None /\
  loadSavedConnection RefJSON.parse garbage_page
  = Some (Ok tt,
          set_localStorage (Some (delete KEY {[ KEY := "not json {" ]}))
            garbage_page).
Proof.
  assert (H1 : localStorage garbage_page = Some {[ KEY := "not json {" ]})
    by reflexivity.
  assert (H2 : ({[ KEY := "not json {" ]} : gmap string string) !! KEY
               = Some "not json {") by (vm_compute; reflexivity).
  assert (H3 : "not json {" <> EmptyString) by discriminate.
  assert (H4 : RefJSON.parse "not json {" = None) by (vm_compute; reflexivity).
  repeat (split; [assumption|]).
  exact (proj1 (loadSavedConnection_corrupted RefJSON.parse garbage_page _ _
                  H1 H2 H3 H4)).
Defined.

(** ** C9 *)

Lemma disconnect_when_disconnected_witness :
  connection page = None /\
  disconnect sample_world page = (Ok tt, page).
Proof.
  split; [reflexivity|].
  apply disconnect_when_disconnected. reflexivity.
Defined.

(** ** C10 *)

(** A reloaded session, whose [provider] is plain data: the query throws
    and [getBalance] answers with the string of zero. *)
Example getBalance_reloaded :
  getBalance sample_world reloaded_page = (Ok "0", reloaded_page).
Proof. vm_compute. reflexivity. Qed.

(* ===================================================================== *)
(** * Further runs on sample worlds *)
(* ===================================================================== *)

(** ** The event bus *)

Lemma off_removes_every_registration_witness :
  EventBus.inherited "connected" = false /\
  EventBus.registered "connected"
    (snd (EventBus.off "connected" 1%nat sample_listeners))
  = List.filter (EventBus.other_than 1%nat)
      (EventBus.registered "connected" sample_listeners).
Proof.
  split; [reflexivity|].
  exact (proj1 (proj2 (off_removes_every_registration (fun _ => Ok tt)
                         "connected" 1%nat sample_listeners eq_refl))).
Defined.

Lemma on_then_off_restores_witness :
  EventBus.inherited "connected" = false /\
  ~ In 3%nat (EventBus.registered "connected" sample_listeners) /\
  EventBus.registered "connected"
    (snd (EventBus.off "connected" 3%nat
            (snd (EventBus.on "connected" 3%nat sample_listeners))))
  = EventBus.registered "connected" sample_listeners.
Proof.
  assert (H : ~ In 3%nat (EventBus.registered "connected" sample_listeners)).
  { vm_compute. intros [H|[H|[H|[]]]]; discriminate H. }
  split; [reflexivity|]. split; [exact H|].
  exact (proj1 (on_then_off_restores "connected" 3%nat sample_listeners
                  eq_refl H)).
Defined.

Lemma emit_calls_in_registration_order_witness :
  EventBus.inherited "connected" = false /\
  (forall cb : nat, is_ok ((fun _ => Ok tt) cb) = true) /\
  EventBus.emit (fun _ => Ok tt) "connected"
    (snd (EventBus.on "connected" 3%nat sample_listeners))
  = (Ok tt, EventBus.registered "connected" sample_listeners ++ [3%nat]).
Proof.
  assert (H : forall cb : nat, is_ok ((fun _ : nat => Ok tt) cb) = true)
    by reflexivity.
  split; [reflexivity|]. split; [exact H|].
  exact (proj2 (emit_calls_in_registration_order (fun _ => Ok tt)
                  "connected" 3%nat sample_listeners eq_refl H)).
Defined.

Lemma emit_stops_at_throwing_listener_witness :
  EventBus.inherited "connected" = false /\
  EventBus.registered "connected" sample_listeners = [1%nat] ++ 2%nat :: [1%nat] /\
  second_throws 2 = Throw TypeError /\
  EventBus.emit second_throws "connected" sample_listeners
  = (Throw TypeError, [1%nat] ++ [2%nat]).
Proof.
  assert (H1 : EventBus.registered "connected" sample_listeners
               = [1%nat] ++ 2%nat :: [1%nat]) by (vm_compute; reflexivity).
  assert (H2 : forall cb, In cb [1%nat] -> is_ok (second_throws cb) = true).
  { intros cb [<-|[]]. reflexivity. }
  split; [reflexivity|]. split; [exact H1|]. split; [reflexivity|].
  exact (emit_stops_at_throwing_listener second_throws "connected"
           sample_listeners [1%nat] [1%nat] 2%nat TypeError
           eq_refl H1 H2 eq_refl).
Defined.

(** ** Display of an address *)

Example formatAddress_sample :
  formatAddress "0x1234567890abcdef" = "0x1234...cdef".
Proof. vm_compute. reflexivity. Qed.

Lemma formatAddress_idempotent_witness :
  (6 <= String.length "0x1234567890abcdef")%nat /\
  formatAddress (formatAddress "0x1234567890abcdef")
  = formatAddress "0x1234567890abcdef".
Proof.
  assert (H : (6 <= String.length "0x1234567890abcdef")%nat)
    by (simpl; lia).
  split; [exact H|].
  exact (proj2 (proj2 (proj2 (formatAddress_idempotent _ H)))).
Defined.

(** ** A reloaded session *)

Lemma reloaded_session_is_unusable_witness :
  connection reloaded_page = Some (plain_connection metamask_session) /\
  type (plain_connection metamask_session) <> HASHPACK /\
  getBalance sample_world reloaded_page = (Ok "0", reloaded_page) /\
  checkConnectionHealth sample_world reloaded_page = (Ok false, reloaded_page).
Proof.
  assert (Hty : type (plain_connection metamask_session) <> HASHPACK)
    by discriminate.
  split; [reflexivity|]. split; [exact Hty|].
  destruct (reloaded_session_is_unusable sample_world sample_signing
              reloaded_page (plain_connection metamask_session) (JObj [])
              eq_refl Hty eq_refl eq_refl) as (Hb & Hh & _).
  split; [exact Hb | exact (Hh eq_refl)].
Defined.

(** ** Disconnect and account notifications *)

Lemma disconnect_twice_emits_once_witness :
  connection connected_page = Some metamask_session /\
  teardown_succeeds sample_world connected_page metamask_session /\
  exists m1,
    disconnect sample_world connected_page = (Ok tt, m1) /\
    disconnect sample_world m1 = (Ok tt, m1) /\
    emitted m1
    = emitted connected_page ++ [disconnected (Some metamask_session)] /\
    count_events is_disconnected_event (emitted m1)
    = S (count_events is_disconnected_event (emitted connected_page)).
Proof.
  assert (Htd : teardown_succeeds sample_world connected_page metamask_session).
  { intros Hty. discriminate Hty. }
  split; [reflexivity|]. split; [exact Htd|].
  exact (disconnect_twice_emits_once sample_world connected_page
           metamask_session eq_refl Htd).
Defined.

Lemma accountsChanged_ignored_for_other_sessions_witness :
  connection relay_connected_page = Some relay_session /\
  type relay_session <> METAMASK /\
  on_relay_accountsChanged RefJSON.stringify sample_world ["0xDEF2"]
    relay_connected_page
  = (Ok tt,
     set_emitted (emitted relay_connected_page ++ [accountsChanged ["0xDEF2"]])
       relay_connected_page).
Proof.
  assert (Hty : type relay_session <> METAMASK) by discriminate.
  split; [reflexivity|]. split; [exact Hty|].
  exact (accountsChanged_ignored_for_other_sessions RefJSON.stringify
           sample_world relay_connected_page relay_session "0xDEF2" []
           eq_refl Hty _ (or_intror eq_refl)).
Defined.

(** ** Connect *)

Lemma connect_success_effects_witness :
  connect RefJSON.stringify sample_world METAMASK page
  = (Ok metamask_session,
     final (connect RefJSON.stringify sample_world METAMASK page)) /\
  emitted (final (connect RefJSON.stringify sample_world METAMASK page))
  = emitted page ++ [connected (Some metamask_session)] /\
  chainId metamask_session
  = Some (JS.parseInt (expected_chain_id sample_world) None).
Proof.
  assert (H : connect RefJSON.stringify sample_world METAMASK page
              = (Ok metamask_session,
                 final (connect RefJSON.stringify sample_world METAMASK page)))
    by (vm_compute; reflexivity).
  split; [exact H|].
  destruct (connect_success_effects RefJSON.stringify sample_world METAMASK
              page _ metamask_session H) as (He & _ & _ & _ & Hch).
  split; [exact He|]. apply Hch. discriminate.
Defined.

(** A wallet on another chain that does not know the expected one is
    asked to switch and then to add the chain. *)
Example connect_unknown_chain_requests :
  ethereum_requests
    (final (connectMetaMask RefJSON.stringify world_unknown_chain page))
  = ["eth_chainId"; "eth_requestAccounts"; "eth_chainId";
     "wallet_switchEthereumChain"; "wallet_addEthereumChain"].
Proof. vm_compute. reflexivity. Qed.

Lemma connectMetaMask_network_requests_witness :
  connectMetaMask RefJSON.stringify world_unknown_chain page
  = (result (connectMetaMask RefJSON.stringify world_unknown_chain page),
     final (connectMetaMask RefJSON.stringify world_unknown_chain page)) /\
  In "wallet_addEthereumChain"
    (ethereum_requests
       (final (connectMetaMask RefJSON.stringify world_unknown_chain page))) /\
  exists eth e,
    injected world_unknown_chain page = Some eth /\
    wallet_switchEthereumChain eth = Throw e /\
    has_code e 4902 = true.
Proof.
  assert (H : connectMetaMask RefJSON.stringify world_unknown_chain page
              = (result (connectMetaMask RefJSON.stringify
                           world_unknown_chain page),
                 final (connectMetaMask RefJSON.stringify
                          world_unknown_chain page)))
    by apply surjective_pairing.
  assert (Hin : In "wallet_addEthereumChain"
                  (ethereum_requests
                     (final (connectMetaMask RefJSON.stringify
                               world_unknown_chain page)))).
  { vm_compute. auto 8. }
  split; [exact H|]. split; [exact Hin|].
  destruct (proj2 (connectMetaMask_network_requests RefJSON.stringify
                     world_unknown_chain page _ _ H) Hin) as [Hold|Hnew].
  - destruct Hold.
  - exact Hnew.
Defined.

Lemma connectWalletConnect_reuses_provider_witness :
  walletConnectProvider relay_connected_page = Some sample_relay /\
  connectWalletConnect RefJSON.stringify
    (with_EthereumProvider_init (Throw TypeError) sample_world)
    relay_connected_page
  = connectWalletConnect RefJSON.stringify sample_world relay_connected_page.
Proof.
  split; [reflexivity|].
  exact (connectWalletConnect_reuses_provider RefJSON.stringify sample_world
           (Throw TypeError) relay_connected_page sample_relay eq_refl).
Defined.

Lemma relay_handlers_accumulate_witness :
  connect RefJSON.stringify sample_world WALLETCONNECT page
  = (Ok relay_session, relay_connected_page) /\
  relay_handlers
    (final (connect RefJSON.stringify sample_world WALLETCONNECT
              (final (disconnect sample_world relay_connected_page))))
  = 2%nat.
Proof.
  assert (H1 : connect RefJSON.stringify sample_world WALLETCONNECT page
               = (Ok relay_session, relay_connected_page))
    by (vm_compute; reflexivity).
  assert (H2 : disconnect sample_world relay_connected_page
               = (Ok tt, final (disconnect sample_world relay_connected_page)))
    by (vm_compute; reflexivity).
  assert (H3 : connect RefJSON.stringify sample_world WALLETCONNECT
                 (final (disconnect sample_world relay_connected_page))
               = (Ok relay_session,
                  final (connect RefJSON.stringify sample_world WALLETCONNECT
                           (final (disconnect sample_world
                                     relay_connected_page)))))
    by (vm_compute; reflexivity).
  split; [exact H1|].
  destruct (relay_handlers_accumulate RefJSON.stringify sample_world
              page _ _ _ _ _ _ H1 H2 H3) as (p & Hp & _ & Hr).
  injection Hp as <-. exact Hr.
Defined.

(** ** Chain notifications *)

Lemma chainChanged_mismatch_for_unprinted_expected_id_witness :
  JS.toString (JS.parseInt (expected_chain_id world_hex_chain_id) None)
  <> expected_chain_id world_hex_chain_id /\
  (forall z, JS.parseInt "0x128" (Some 16) = JS.Num z ->
             JS.isSafeInteger z = true) /\
  on_ethereum_chainChanged world_hex_chain_id "0x128" page
  = (Ok tt,
     set_emitted
       (emitted page ++ [chainChanged "0x128";
                         networkMismatch "0x128"
                           (expected_chain_id world_hex_chain_id)]) page).
Proof.
  assert (H : JS.toString
                (JS.parseInt (expected_chain_id world_hex_chain_id) None)
              <> expected_chain_id world_hex_chain_id).
  { vm_compute. discriminate. }
  assert (Hs : forall z, JS.parseInt "0x128" (Some 16) = JS.Num z ->
                         JS.isSafeInteger z = true).
  { intros z Hz. vm_compute in Hz. injection Hz as <-. reflexivity. }
  split; [exact H|]. split; [exact Hs|].
  exact (chainChanged_mismatch_for_unprinted_expected_id world_hex_chain_id
           page "0x128" H Hs).
Defined.

Lemma on_ethereum_chainChanged_numeric_witness :
  JS.parseInt "0x1" (Some 16) = JS.Num 1 /\
  JS.isSafeInteger 1 = true /\
  JS.parseInt (expected_chain_id sample_world) None = JS.Num 296 /\
  on_ethereum_chainChanged sample_world "0x1" page
  = (Ok tt,
     set_emitted
       (emitted page ++ [chainChanged "0x1";
                         networkMismatch "0x1" (expected_chain_id sample_world)])
       page).
Proof.
  assert (H1 : JS.parseInt "0x1" (Some 16) = JS.Num 1)
    by (vm_compute; reflexivity).
  assert (H2 : JS.parseInt (expected_chain_id sample_world) None = JS.Num 296)
    by (vm_compute; reflexivity).
  split; [exact H1|]. split; [reflexivity|]. split; [exact H2|].
  apply (on_ethereum_chainChanged_numeric sample_world page "0x1" 1 296
           H1 eq_refl H2).
  lia.
Defined.

(** ** Loading and restoring *)

Lemma loadSavedConnection_by_type_witness :
  localStorage relay_stored_page = Some {[ KEY := relay_text ]} /\
  RefJSON.parse relay_text = Some (json_of_connection relay_session) /\
  exists m2,
    loadSavedConnection RefJSON.parse relay_stored_page = Some (Ok tt, m2) /\
    connection m2 = Some (plain_connection relay_session) /\
    restore_timers m2 = restore_timers relay_stored_page /\
    emitted m2 = emitted relay_stored_page.
Proof.
  assert (H2 : ({[ KEY := relay_text ]} : gmap string string) !! KEY
               = Some relay_text) by (vm_compute; reflexivity).
  assert (H3 : relay_text <> EmptyString) by (vm_compute; discriminate).
  assert (H4 : RefJSON.parse relay_text
               = Some (json_of_connection relay_session))
    by (vm_compute; reflexivity).
  assert (H5 : chainId relay_session <> Some JS.NaN) by discriminate.
  split; [reflexivity|]. split; [exact H4|].
  destruct (loadSavedConnection_by_type RefJSON.parse relay_stored_page
              _ relay_text relay_session eq_refl H2 H3 H4 H5)
    as (m2 & Hrun & Hc & Ht & He).
  exists m2. repeat split; assumption.
Defined.

(** ** Signing and sending *)

Lemma hashpack_signing_errors_witness :
  connection hashpack_page_without_client = Some hashpack_session /\
  type hashpack_session = HASHPACK /\
  hederaClient hashpack_page_without_client = false /\
  is_ok (result (sendTransaction sample_signing JNull
                   hashpack_page_without_client)) = false.
Proof.
  split; [reflexivity|]. split; [reflexivity|]. split; [reflexivity|].
  destruct (proj2 (hashpack_signing_errors sample_signing
                     hashpack_page_without_client hashpack_session
                     eq_refl eq_refl) JNull) as (r & Hrun & _ & Hno).
  rewrite Hrun. exact (Hno eq_refl).
Defined.

Lemma sendTransaction_returns_backend_id_witness :
  sendTransaction sample_signing (JObj []) connected_page
  = (Ok "0xhash", connected_page) /\
  exists c, connection connected_page = Some c /\
    exists via image sent,
      signer c = Some (Live via image) /\
      ethers_sendTransaction sample_signing via (JObj []) = Ok sent /\
      ethers_wait sample_signing sent = Ok (Some "0xhash").
Proof.
  assert (H : sendTransaction sample_signing (JObj []) connected_page
              = (Ok "0xhash", connected_page)) by (vm_compute; reflexivity).
  split; [exact H|].
  destruct (sendTransaction_returns_backend_id sample_signing connected_page
              connected_page (JObj []) "0xhash" H)
    as (_ & c & Hc & _ & Hevm).
  exists c. split; [exact Hc|]. apply Hevm.
  injection Hc as <-. discriminate.
Defined.

(** ** The authentication hook *)

Lemma restoreConnection_true_only_for_injected_witness :
  restoreConnection RefJSON.parse sample_world auth_initial connected_page
  = (true,
     snd (restoreConnection RefJSON.parse sample_world auth_initial
            connected_page)) /\
  auth_isConnected
    (fst (snd (restoreConnection RefJSON.parse sample_world auth_initial
                 connected_page))) = true.
Proof.
  assert (H : restoreConnection RefJSON.parse sample_world auth_initial
                connected_page
              = (true,
                 (fst (snd (restoreConnection RefJSON.parse sample_world
                              auth_initial connected_page)),
                  snd (snd (restoreConnection RefJSON.parse sample_world
                              auth_initial connected_page)))))
    by (vm_compute; reflexivity).
  split; [vm_compute; reflexivity|].
  destruct (restoreConnection_true_only_for_injected RefJSON.parse
              sample_world auth_initial _ connected_page _ H)
    as (c & eth & account & rest & _ & _ & _ & _ & _ & _ & Hcon & _).
  exact Hcon.
Defined.

Lemma checkExistingSession_resets_reloaded_session_witness :
  connection reloaded_page = Some (plain_connection metamask_session) /\
  result (canRestoreConnection sample_world reloaded_page) = Ok true /\
  connection
    (snd (checkExistingSession RefJSON.parse sample_world auth_initial
            reloaded_page)) = None /\
  persisted
    (snd (checkExistingSession RefJSON.parse sample_world auth_initial
            reloaded_page)) = None.
Proof.
  assert (Hcan : result (canRestoreConnection sample_world reloaded_page)
                 = Ok true) by (vm_compute; reflexivity).
  split; [reflexivity|]. split; [exact Hcan|].
  destruct (checkExistingSession_resets_reloaded_session RefJSON.parse
              sample_world auth_initial _ reloaded_page _
              (plain_connection metamask_session) (JObj [])
              eq_refl eq_refl eq_refl eq_refl
              (surjective_pairing
                 (checkExistingSession RefJSON.parse sample_world
                    auth_initial reloaded_page)))
    as (_ & _ & Hreset & _).
  destruct (Hreset Hcan) as (Hc & Hp & _).
  split; assumption.
Defined.

Lemma corrupted_profile_ends_session_witness :
  canRestoreConnection sample_world corrupted_profile_page
  = (Ok true, set_ethereum_requests ["eth_accounts"] corrupted_profile_page) /\
  checkConnectionHealth sample_world
    (set_ethereum_requests ["eth_accounts"] corrupted_profile_page)
  = (Ok true, set_ethereum_requests ["eth_accounts"] corrupted_profile_page) /\
  RefJSON.parse "not json {" = None /\
  restoreConnection RefJSON.parse sample_world auth_initial
    corrupted_profile_page
  = (false,
     (auth_mark_connected metamask_session auth_initial,
      set_ethereum_requests ["eth_accounts"] corrupted_profile_page)).
Proof.
  assert (H1 : canRestoreConnection sample_world corrupted_profile_page
               = (Ok true,
                  set_ethereum_requests ["eth_accounts"]
                    corrupted_profile_page)) by (vm_compute; reflexivity).
  assert (H2 : checkConnectionHealth sample_world
                 (set_ethereum_requests ["eth_accounts"] corrupted_profile_page)
               = (Ok true,
                  set_ethereum_requests ["eth_accounts"]
                    corrupted_profile_page)) by (vm_compute; reflexivity).
  assert (H3 : corrupted_profile_storage !! user_key (accountId metamask_session)
               = Some "not json {") by (vm_compute; reflexivity).
  assert (H4 : "not json {" <> EmptyString) by discriminate.
  assert (H5 : RefJSON.parse "not json {" = None) by (vm_compute; reflexivity).
  split; [exact H1|]. split; [exact H2|]. split; [exact H5|].
  exact (proj1 (proj2 (corrupted_profile_ends_session RefJSON.parse
                         sample_world auth_initial corrupted_profile_page
                         _ _ metamask_session corrupted_profile_storage
                         "not json {" eq_refl H1 H2 eq_refl H3 H4 H5))).
Defined.

(** ** With the listeners of the authentication hook *)

(** A listener of [disconnected] that throws: the reset throws too, and
    has cleared the session and the descriptor. *)
Example reset_with_throwing_listener :
  resetConnectionState_via
    (emit_to (fun _ _ => Throw TypeError)) relay_connected_page
  = (Throw TypeError, final (resetConnectionState relay_connected_page)).
Proof. vm_compute. reflexivity. Qed.

(** With a stored profile that is not JSON, the hook's listener of
    [connected] throws: [connectHashPack] fails although the wallet
    answered, and the session it built is current and stored. *)
Example connectHashPack_with_corrupted_profile :
  result (connectHashPack RefJSON.stringify sample_world
            hashpack_corrupted_page) = Ok hashpack_session /\
  result (connectHashPack_via RefJSON.stringify sample_world
            (emit_to (auth_listeners RefJSON.parse)) hashpack_corrupted_page)
  = Throw SyntaxError /\
  connection
    (final (connectHashPack_via RefJSON.stringify sample_world
              (emit_to (auth_listeners RefJSON.parse))
              hashpack_corrupted_page))
  = Some hashpack_session.
Proof. repeat split; vm_compute; reflexivity. Qed.

Lemma connect_failure_effects_witness :
  connect_via RefJSON.stringify sample_world
    (emit_to (auth_listeners RefJSON.parse)) METAMASK
    corrupted_profile_fresh_page
  = (Throw SyntaxError,
     final (connect_via RefJSON.stringify sample_world
              (emit_to (auth_listeners RefJSON.parse)) METAMASK
              corrupted_profile_fresh_page)) /\
  connection
    (final (connect_via RefJSON.stringify sample_world
              (emit_to (auth_listeners RefJSON.parse)) METAMASK
              corrupted_profile_fresh_page))
  = Some metamask_session /\
  exists c e0,
    auth_listeners RefJSON.parse (connected (Some c))
      (final (connect_via RefJSON.stringify sample_world
                (emit_to (auth_listeners RefJSON.parse)) METAMASK
                corrupted_profile_fresh_page))
    = Throw e0 /\
    connection
      (final (connect_via RefJSON.stringify sample_world
                (emit_to (auth_listeners RefJSON.parse)) METAMASK
                corrupted_profile_fresh_page))
    = Some c.
Proof.
  assert (H : connect_via RefJSON.stringify sample_world
                (emit_to (auth_listeners RefJSON.parse)) METAMASK
                corrupted_profile_fresh_page
              = (Throw SyntaxError,
                 final (connect_via RefJSON.stringify sample_world
                          (emit_to (auth_listeners RefJSON.parse)) METAMASK
                          corrupted_profile_fresh_page)))
    by (vm_compute; reflexivity).
  assert (Hc : connection
                 (final (connect_via RefJSON.stringify sample_world
                           (emit_to (auth_listeners RefJSON.parse)) METAMASK
                           corrupted_profile_fresh_page))
               = Some metamask_session) by (vm_compute; reflexivity).
  split; [exact H|]. split; [exact Hc|].
  destruct (connect_failure_effects RefJSON.stringify sample_world
              (auth_listeners RefJSON.parse) METAMASK
              corrupted_profile_fresh_page _ _ H)
    as [(Hsame & _) | (c & e0 & Hl & Hc' & _)].
  - rewrite Hc in Hsame. discriminate Hsame.
  - exists c, e0. split; assumption.
Defined.

Lemma restoreMetaMaskConnection_goes_through_witness :
  restore_goes_through sample_world reloaded_corrupted_page /\
  result (restoreMetaMaskConnection_via RefJSON.stringify sample_world
            (emit_to (auth_listeners RefJSON.parse))
            reloaded_corrupted_page) = Ok tt /\
  persisted
    (final (restoreMetaMaskConnection_via RefJSON.stringify sample_world
              (emit_to (auth_listeners RefJSON.parse))
              reloaded_corrupted_page)) = None /\
  exists c',
    connection
      (final (restoreMetaMaskConnection_via RefJSON.stringify sample_world
                (emit_to (auth_listeners RefJSON.parse))
                reloaded_corrupted_page)) = Some c' /\
    provider c' = Some (BrowserProvider sample_world Injected).
Proof.
  assert (H : restore_goes_through sample_world reloaded_corrupted_page).
  { exists sample_metamask, "0xABC1", [], (plain_connection metamask_session),
      (JObj [("provider", JObj []); ("address", JStr "0xABC1")]), "12.5".
    repeat split; vm_compute; reflexivity. }
  assert (Hpers : persisted
                    (final (restoreMetaMaskConnection_via RefJSON.stringify
                              sample_world
                              (emit_to (auth_listeners RefJSON.parse))
                              reloaded_corrupted_page)) = None)
    by (vm_compute; reflexivity).
  split; [exact H|].
  destruct (restoreMetaMaskConnection_goes_through RefJSON.stringify
              sample_world (auth_listeners RefJSON.parse)
              reloaded_corrupted_page H)
    as (m1 & m' & c & c' & Hrun & _ & Hc' & _ & _ & _ & _ & Hp & _).
  rewrite Hrun in *. split; [reflexivity|].
  split; [exact Hpers|].
  exists c'. split; assumption.
Defined.
